(** * ki-meetup: dual-stream comparison engine

    A shallow embedding of the TypeScript sources

      - [@/lib/models]          (model registry, [getModelConfig], [createModelInstance],
                                 [parseTokenUsage])
      - [src/lib/pricing.ts]    ([calculateCost], [calculateLiveCost], [compareCosts],
                                 [createCostBreakdown], [hasValidPricing])
      - [src/lib/tokenizer.ts]  ([countTokens] and friends)
      - [src/lib/streaming.ts]  ([updateStreamState], the client-side reducer, and
                                 the reconnecting [SSEStreamingClient])
      - [src/app/actions.ts]    (the server actions, and the streaming route
                                 handler: [GET], [streamModel], [saveStreamResults])
      - [src/lib/history.ts]    ([deleteMultipleHistoryItems], [getPromptById],
                                 [cleanupHistory])

    Conventions of the embedding.

      - A JavaScript [number] that holds a count is a [Z]; a [number] that holds
        money is an exact rational [Q].  The binary64 rounding of the individual
        arithmetic operations is not modelled; [toFixed(6)] followed by
        [parseFloat] is the rounding to the nearest multiple of 10^-6, ties away
        from zero.
      - A JavaScript string is a [string]; each [ascii] stands for one UTF-16
        code unit below 256.
      - A [throw] is the [Throw] constructor of [Result]; [try]/[catch] is a
        match on it.
      - The two asynchronous slot tasks are resumable state machines; a
        schedule says which task the event loop resumes next.  The backends
        are external: each is given by what it does when asked to stream.
      - The stream controller accepts every event it is sent (the consumer
        stays connected), so [controller.enqueue] and [controller.close] do
        not throw. *)

From Stdlib Require Import ZArith QArith Qround Qabs Lqa Lia.
From Stdlib Require Import String Ascii List Bool Sorted Permutation.
Import ListNotations.

Local Open Scope string_scope.
Local Open Scope Z_scope.

(* ================================================================== *)
(** ** JavaScript values *)
(* ================================================================== *)

Module Js.

(** A thrown value: an [Error] object with its message, or anything else. *)
Inductive Thrown : Type :=
| ErrorObj (message : string)
| OtherValue.

(** The outcome of a computation that may throw. *)
Inductive Result (A : Type) : Type :=
| Ok (a : A)
| Throw (e : Thrown).
Arguments Ok {A} a.
Arguments Throw {A} e.

Definition bind {A B : Type} (r : Result A) (k : A -> Result B) : Result B :=
  match r with
  | Ok a => k a
  | Throw e => Throw e
  end.

Definition isOk {A : Type} (r : Result A) : bool :=
  match r with Ok _ => true | Throw _ => false end.

(** [error instanceof Error ? error.message : fallback] *)
Definition messageOr (e : Thrown) (fallback : string) : string :=
  match e with
  | ErrorObj m => m
  | OtherValue => fallback
  end.

(** Truthiness of a string: only [''] is falsy. *)
Definition truthy (s : string) : bool :=
  match s with EmptyString => false | String _ _ => true end.

(** Truthiness of an optional string ([null], [undefined] and [''] are falsy). *)
Definition truthyOpt (o : option string) : bool :=
  match o with Some s => truthy s | None => false end.

(** [a || b] on strings. *)
Definition orString (a b : string) : string := if truthy a then a else b.

(** [a || b] where [a] may be absent. *)
Definition orOptString (a : option string) (b : string) : string :=
  match a with Some s => orString s b | None => b end.

(** [a || b] on numbers: [0] is falsy. *)
Definition orNumber (a b : Q) : Q := if Qeq_bool a 0 then b else a.

(** White space stripped by [String.prototype.trim], for code units below 256:
    TAB, LF, VT, FF, CR, SPACE and NBSP. *)
Definition isWhiteSpace (c : ascii) : bool :=
  let n := nat_of_ascii c in
  ((9 <=? n)%nat && (n <=? 13)%nat) || (n =? 32)%nat || (n =? 160)%nat.

Fixpoint trimStartL (l : list ascii) : list ascii :=
  match l with
  | [] => []
  | c :: r => if isWhiteSpace c then trimStartL r else l
  end.

Definition trimL (l : list ascii) : list ascii :=
  rev (trimStartL (rev (trimStartL l))).

Definition trim (s : string) : string :=
  string_of_list_ascii (trimL (list_ascii_of_string s)).

(** [s.length] *)
Definition length (s : string) : Z := Z.of_nat (String.length s).

(** [s.startsWith(p)] *)
Definition startsWith (s p : string) : bool := String.prefix p s.

(** [s.includes(p)] *)
Fixpoint includes (s p : string) : bool :=
  String.prefix p s ||
  match s with
  | EmptyString => false
  | String _ r => includes r p
  end.

(** [Math.ceil] *)
Definition ceil (x : Q) : Z := Qceiling x.

(** [parseFloat(x.toFixed(6))]: the nearest multiple of 10^-6; when two are
    equally near, [toFixed] takes the larger magnitude. *)
Definition roundHalfUp (x : Q) : Z := Qfloor (x * 1000000 + (1 # 2)).

Definition toFixed6 (x : Q) : Q :=
  if Qle_bool 0 x
  then inject_Z (roundHalfUp x) / 1000000
  else - (inject_Z (roundHalfUp (- x)) / 1000000).

End Js.

Notation "x <- r ;; k" := (Js.bind r (fun x => k))
  (at level 61, r at next level, right associativity).

(* ================================================================== *)
(** ** src/types: the shared records *)
(* ================================================================== *)

Inductive Provider : Type := openai | anthropic.

Record ModelPricing : Type := {
  pricing_input : Q;   (* per 1K tokens *)
  pricing_output : Q   (* per 1K tokens *)
}.

Record ModelConfig : Type := {
  id : string;
  name : string;
  displayName : string;
  provider : Provider;
  pricing : ModelPricing;
  maxTokens : Z;
  supportsStreaming : bool
}.

Record TokenUsage : Type := {
  input : Z;
  output : Z;
  total : Z
}.

Record CostCalculation : Type := {
  inputTokens : Z;
  outputTokens : Z;
  inputCost : Q;
  outputCost : Q;
  totalCost : Q
}.

(* ================================================================== *)
(** ** @/lib/models *)
(* ================================================================== *)

Definition mkModel (i d : string) (p : Provider) (pin pout : Q) (mx : Z)
  : ModelConfig :=
  {| id := i; name := i; displayName := d; provider := p;
     pricing := {| pricing_input := pin; pricing_output := pout |};
     maxTokens := mx; supportsStreaming := true |}.

Definition OPENAI_MODELS : list ModelConfig :=
  [ mkModel "gpt-4o" "GPT-4o" openai (5 # 1000) (15 # 1000) 128000;
    mkModel "gpt-4o-mini" "GPT-4o Mini" openai (15 # 100000) (6 # 10000) 128000;
    mkModel "gpt-4-turbo" "GPT-4 Turbo" openai (1 # 100) (3 # 100) 128000;
    mkModel "gpt-3.5-turbo" "GPT-3.5 Turbo" openai (15 # 10000) (2 # 1000) 16385 ].

Definition ANTHROPIC_MODELS : list ModelConfig :=
  [ mkModel "claude-3-5-sonnet-20241022" "Claude 3.5 Sonnet" anthropic
      (3 # 1000) (15 # 1000) 200000;
    mkModel "claude-3-5-haiku-20241022" "Claude 3.5 Haiku" anthropic
      (8 # 10000) (4 # 1000) 200000;
    mkModel "claude-3-opus-20240229" "Claude 3 Opus" anthropic
      (15 # 1000) (75 # 1000) 200000 ].

Definition ALL_MODELS : list ModelConfig := OPENAI_MODELS ++ ANTHROPIC_MODELS.

(** [ALL_MODELS.find(model => model.id === modelId) || null] *)
Definition getModelConfig (modelId : string) : option ModelConfig :=
  find (fun model => String.eqb (id model) modelId) ALL_MODELS.

(** [process.env]: the two API keys the model factories read. *)
Record ProcessEnv : Type := {
  OPENAI_API_KEY : option string;
  ANTHROPIC_API_KEY : option string
}.

(** What the factories build: a handle on a provider's chat model.  The
    LangChain object itself is an external collaborator; the handle records
    which one was constructed. *)
Record ModelInstance : Type := {
  instProvider : Provider;
  instModel : string
}.

Definition createOpenAIModel (env : ProcessEnv) (modelName : string)
  : Js.Result ModelInstance :=
  if negb (Js.truthyOpt (OPENAI_API_KEY env))
  then Js.Throw (Js.ErrorObj
         "OPENAI_API_KEY ist nicht gesetzt. Bitte füge deinen API-Key in .env.local hinzu.")
  else Js.Ok {| instProvider := openai; instModel := modelName |}.

Definition createAnthropicModel (env : ProcessEnv) (modelName : string)
  : Js.Result ModelInstance :=
  if negb (Js.truthyOpt (ANTHROPIC_API_KEY env))
  then Js.Throw (Js.ErrorObj
         "ANTHROPIC_API_KEY ist nicht gesetzt. Bitte füge deinen API-Key in .env.local hinzu.")
  else Js.Ok {| instProvider := anthropic; instModel := modelName |}.

Definition createModelInstance (env : ProcessEnv) (modelId : string)
  : Js.Result ModelInstance :=
  match getModelConfig modelId with
  | None => Js.Throw (Js.ErrorObj ("Unknown model: " ++ modelId))
  | Some config =>
      match provider config with
      | openai => createOpenAIModel env (name config)
      | anthropic => createAnthropicModel env (name config)
      end
  end.

(* ================================================================== *)
(** ** src/lib/pricing.ts *)
(* ================================================================== *)

(** The price table kept in pricing.ts itself, per provider. *)
Definition MODEL_PRICING : list (Provider * list (string * ModelPricing)) :=
  [ (openai,
      [ ("gpt-4o", {| pricing_input := 5 # 1000; pricing_output := 15 # 1000 |});
        ("gpt-4o-mini", {| pricing_input := 15 # 100000; pricing_output := 6 # 10000 |});
        ("gpt-4-turbo", {| pricing_input := 1 # 100; pricing_output := 3 # 100 |});
        ("gpt-3.5-turbo", {| pricing_input := 15 # 10000; pricing_output := 2 # 1000 |}) ]);
    (anthropic,
      [ ("claude-3-5-sonnet-20241022",
          {| pricing_input := 3 # 1000; pricing_output := 15 # 1000 |});
        ("claude-3-5-haiku-20241022",
          {| pricing_input := 8 # 10000; pricing_output := 4 # 1000 |});
        ("claude-3-opus-20240229",
          {| pricing_input := 15 # 1000; pricing_output := 75 # 1000 |}) ]) ].

Definition calculateCost (tokenUsage : TokenUsage) (modelId : string)
  : Js.Result CostCalculation :=
  match getModelConfig modelId with
  | None =>
      Js.Throw (Js.ErrorObj ("Unknown model for cost calculation: " ++ modelId))
  | Some modelConfig =>
      let pricing := pricing modelConfig in
      let inputCost := (inject_Z (input tokenUsage) / 1000) * pricing_input pricing in
      let outputCost := (inject_Z (output tokenUsage) / 1000) * pricing_output pricing in
      let totalCost := inputCost + outputCost in
      Js.Ok {| inputTokens := input tokenUsage;
               outputTokens := output tokenUsage;
               inputCost := Js.toFixed6 inputCost;
               outputCost := Js.toFixed6 outputCost;
               totalCost := Js.toFixed6 totalCost |}
  end%Q.

Definition calculateLiveCost (inputTokens outputTokens : Z) (modelId : string)
  : Js.Result Q :=
  let tokenUsage := {| input := inputTokens;
                       output := outputTokens;
                       total := inputTokens + outputTokens |} in
  c <- calculateCost tokenUsage modelId ;; Js.Ok (totalCost c).

(* ================================================================== *)
(** ** src/lib/tokenizer.ts *)
(* ================================================================== *)

Record TokenEstimation : Type := {
  OPENAI_CHARS_PER_TOKEN : Q;
  OPENAI_WORDS_TO_TOKENS : Q;
  ANTHROPIC_CHARS_PER_TOKEN : Q;
  ANTHROPIC_WORDS_TO_TOKENS : Q;
  DEFAULT_CHARS_PER_TOKEN : Q;
  DEFAULT_WORDS_TO_TOKENS : Q
}.

Definition TOKEN_ESTIMATION : TokenEstimation :=
  {| OPENAI_CHARS_PER_TOKEN := 4;
     OPENAI_WORDS_TO_TOKENS := 133 # 100;
     ANTHROPIC_CHARS_PER_TOKEN := 38 # 10;
     ANTHROPIC_WORDS_TO_TOKENS := 125 # 100;
     DEFAULT_CHARS_PER_TOKEN := 4;
     DEFAULT_WORDS_TO_TOKENS := 13 # 10 |}.

Definition countOpenAITokens (text modelName : string) : Z :=
  if negb (Js.truthy (Js.trim text)) then 0
  else
    let cleanText := Js.trim text in
    Js.ceil (inject_Z (Js.length cleanText) / OPENAI_CHARS_PER_TOKEN TOKEN_ESTIMATION).

Definition countAnthropicTokens (text modelName : string) : Z :=
  if negb (Js.truthy (Js.trim text)) then 0
  else
    let cleanText := Js.trim text in
    Js.ceil (inject_Z (Js.length cleanText) / ANTHROPIC_CHARS_PER_TOKEN TOKEN_ESTIMATION).

Definition countTokens (text modelId : string) : Z :=
  if negb (Js.truthy text) then 0
  else if Js.startsWith modelId "gpt-" || Js.includes modelId "openai" then
    countOpenAITokens text modelId
  else if Js.startsWith modelId "claude-" || Js.includes modelId "anthropic" then
    countAnthropicTokens text modelId
  else
    let cleanText := Js.trim text in
    Js.ceil (inject_Z (Js.length cleanText) / DEFAULT_CHARS_PER_TOKEN TOKEN_ESTIMATION).

Definition createTokenUsage (input output modelId : string) : TokenUsage :=
  let inputTokens := countTokens input modelId in
  let outputTokens := countTokens output modelId in
  {| input := inputTokens; output := outputTokens;
     total := inputTokens + outputTokens |}.

Definition estimateInputTokens (prompt modelId : string) : Z :=
  countTokens prompt modelId.

Definition updateTokenUsage (currentUsage : TokenUsage) (newOutputChunk modelId : string)
  : TokenUsage :=
  let additionalOutputTokens := countTokens newOutputChunk modelId in
  {| input := input currentUsage;
     output := output currentUsage + additionalOutputTokens;
     total := input currentUsage + output currentUsage + additionalOutputTokens |}.

(** The provider family the tokenizer derives from a model id, and the
    characters-per-token constant it then divides by. *)
Inductive Family : Type := OpenAIFamily | AnthropicFamily | UnknownFamily.

Definition familyOf (modelId : string) : Family :=
  if Js.startsWith modelId "gpt-" || Js.includes modelId "openai" then OpenAIFamily
  else if Js.startsWith modelId "claude-" || Js.includes modelId "anthropic" then AnthropicFamily
  else UnknownFamily.

Definition charsPerToken (f : Family) : Q :=
  match f with
  | OpenAIFamily => 4
  | AnthropicFamily => 38 # 10
  | UnknownFamily => 4
  end.

(* ================================================================== *)
(** ** src/types: streaming records *)
(* ================================================================== *)

Module StreamResponse.
Record t : Type := {
  id : string;
  model : string;
  delta : string;
  tokens : TokenUsage;
  cost : Q;
  isComplete : bool;
  error : option string      (* [error?: string] *)
}.
End StreamResponse.

Module StreamEvent.
Inductive Kind : Type := start | token | complete | error.

(** ['model1' | 'model2'] by the declared type; the client also guards
    against ['system']. *)
Inductive Key : Type := model1 | model2 | system.

Record t : Type := {
  type : Kind;
  model : Key;
  data : StreamResponse.t
}.

Definition Key_eqb (a b : Key) : bool :=
  match a, b with
  | model1, model1 | model2, model2 | system, system => true
  | _, _ => false
  end.

Definition isTerminal (e : t) : bool :=
  match type e with
  | complete | error => true
  | start | token => false
  end.
End StreamEvent.

(* ================================================================== *)
(** ** The history store (Prisma client over the [Prompt] table) *)
(* ================================================================== *)

Module Prisma.

(** The columns a caller supplies to [prisma.prompt.create]. *)
Record PromptCreateInput : Type := {
  content : string;
  model1 : string;
  model2 : string;
  response1 : option string;
  response2 : option string;
  cost1 : option Q;
  cost2 : option Q
}.

(** A stored row: the generated columns and the supplied ones. *)
Record Prompt : Type := {
  id : string;
  createdAt : Z;
  fields : PromptCreateInput
}.

(** The table and whether the connection works. *)
Record Database : Type := {
  prompts : list Prompt;
  online : bool
}.

Definition hasId (i : string) (p : Prompt) : bool := String.eqb (id p) i.

Definition offline : Js.Thrown := Js.ErrorObj "Can't reach database server".

(** [prisma.prompt.create({ data })].  [newId] and [now] are the values the
    column defaults generate.  The primary key is unique. *)
Definition create (newId : string) (now : Z) (data : PromptCreateInput)
    (db : Database) : Js.Result (Prompt * Database) :=
  if negb (online db) then Js.Throw offline
  else if existsb (hasId newId) (prompts db) then
    Js.Throw (Js.ErrorObj "Unique constraint failed on the fields: (`id`)")
  else
    let row := {| id := newId; createdAt := now; fields := data |} in
    Js.Ok (row, {| prompts := prompts db ++ [row]; online := online db |}).

(** [prisma.prompt.delete({ where: { id } })]: rejects (error P2025) when no
    row has the id. *)
Definition delete (i : string) (db : Database) : Js.Result (Prompt * Database) :=
  if negb (online db) then Js.Throw offline
  else
    match find (hasId i) (prompts db) with
    | None =>
        Js.Throw (Js.ErrorObj
          "An operation failed because it depends on one or more records that were required but not found. Record to delete does not exist.")
    | Some row =>
        Js.Ok (row, {| prompts := filter (fun p => negb (hasId i p)) (prompts db);
                       online := online db |})
    end.

(** [prisma.prompt.deleteMany({ where: { id: { in: ids } } })]: removes the
    rows whose id is listed and resolves to their number. *)
Definition deleteMany (ids : list string) (db : Database)
  : Js.Result (Z * Database) :=
  if negb (online db) then Js.Throw offline
  else
    let hit := fun p => existsb (String.eqb (id p)) ids in
    Js.Ok (Z.of_nat (List.length (filter hit (prompts db))),
           {| prompts := filter (fun p => negb (hit p)) (prompts db);
              online := online db |}).

End Prisma.

(* ================================================================== *)
(** ** Server actions on the history (actions.ts, history.ts) *)
(* ================================================================== *)

Record ServerActionResult (T : Type) : Type := {
  success : bool;
  data : option T;
  error : option string
}.
Arguments success {T} _.
Arguments data {T} _.
Arguments error {T} _.

Module History.

(** actions.ts, [deletePromptHistoryItem].  On success the action also
    calls [revalidatePath('/')], which only touches the page cache. *)
Definition deletePromptHistoryItem (id : string) (db : Prisma.Database)
  : ServerActionResult unit * Prisma.Database :=
  match Prisma.delete id db with
  | Js.Ok (_, db') =>
      ({| success := true; data := None; error := None |}, db')
  | Js.Throw _ =>
      ({| success := false; data := None;
          error := Some "Fehler beim Löschen des Eintrags" |}, db)
  end.

(** history.ts, [deleteMultipleHistoryItems]. *)
Definition deleteMultipleHistoryItems (ids : list string) (db : Prisma.Database)
  : ServerActionResult Z * Prisma.Database :=
  match Prisma.deleteMany ids db with
  | Js.Ok (count, db') =>
      ({| success := true; data := Some count; error := None |}, db')
  | Js.Throw _ =>
      ({| success := false; data := None;
          error := Some "Fehler beim Löschen der Einträge" |}, db)
  end.

End History.

(* ================================================================== *)
(** ** The model backends, as the route sees them *)
(* ================================================================== *)

Module Backend.

(** One item of the async iterator; an absent field is ['']. *)
Record Chunk : Type := {
  content : string;
  text : string
}.

(** What a model instance does once asked to stream: the call itself
    rejects, or the iterator yields chunks and then either returns or throws. *)
Inductive Behaviour : Type :=
| FailsToStart (e : Js.Thrown)
| Yields (chunks : list Chunk) (ending : option Js.Thrown).

End Backend.

(* ================================================================== *)
(** ** The streaming route handler (src/app/actions.ts, second part) *)
(* ================================================================== *)

Module Route.

Import StreamEvent.
Local Open Scope list_scope.

(** The arguments a slot task is started with. *)
Record TaskArgs : Type := {
  modelId : string;
  modelKey : Key;
  sessionId : string
}.

(** The local variables of [streamModel]. *)
Record Locals : Type := {
  fullContent : string;
  tokenCount : Z;
  inputTokens : Z;
  outputTokens : Z
}.

Definition initialLocals : Locals :=
  {| fullContent := ""; tokenCount := 0; inputTokens := 0; outputTokens := 0 |}.

(** The value [streamModel] resolves to. *)
Record StreamResult : Type := {
  content : string;
  tokens : TokenUsage;
  cost : Q
}.

(** [PromiseSettledResult] *)
Inductive Settled : Type :=
| fulfilled (value : StreamResult)
| rejected (reason : Js.Thrown).

(** A slot task between two resumptions: suspended at
    [await modelInstance.stream(...)], suspended in [for await] with the
    chunks still to come, or settled. *)
Inductive Task : Type :=
| AwaitingStream (b : Backend.Behaviour) (l : Locals)
| AwaitingChunk (rest : list Backend.Chunk) (ending : option Js.Thrown) (l : Locals)
| Done (s : Settled).

Definition usageOf (l : Locals) : TokenUsage :=
  {| input := inputTokens l;
     output := outputTokens l;
     total := inputTokens l + outputTokens l |}.

Definition mkEvent (k : Kind) (a : TaskArgs) (d : string) (u : TokenUsage)
    (c : Q) (fin : bool) (err : option string) : StreamEvent.t :=
  {| type := k;
     model := modelKey a;
     data := {| StreamResponse.id := sessionId a;
                StreamResponse.model := modelId a;
                StreamResponse.delta := d;
                StreamResponse.tokens := u;
                StreamResponse.cost := c;
                StreamResponse.isComplete := fin;
                StreamResponse.error := err |} |}.

(** The [catch] block of [streamModel].  The error event is built first; if
    [calculateLiveCost] throws while building it, that exception escapes and
    nothing is sent. *)
Definition catchBlock (a : TaskArgs) (thrown : Js.Thrown) (l : Locals)
  : Settled * list StreamEvent.t :=
  match calculateLiveCost (inputTokens l) (outputTokens l) (modelId a) with
  | Js.Throw e' => (rejected e', [])
  | Js.Ok c =>
      (rejected thrown,
       [mkEvent StreamEvent.error a "" (usageOf l) c true
          (Some (Js.messageOr thrown "Streaming-Fehler"))])
  end.

(** The body of the [for await] loop on one chunk: the updated locals, and
    the events sent or the exception raised. *)
Definition onChunk (a : TaskArgs) (chunk : Backend.Chunk) (l : Locals)
  : Locals * Js.Result (list StreamEvent.t) :=
  let delta := Js.orString (Js.orString (Backend.content chunk) (Backend.text chunk)) "" in
  if Js.truthy delta then
    let l' := {| fullContent := (fullContent l ++ delta)%string;
                 tokenCount := tokenCount l + 1;
                 inputTokens := inputTokens l;
                 outputTokens := outputTokens l + 1 |} in
    (l', liveCost <- calculateLiveCost (inputTokens l') (outputTokens l') (modelId a) ;;
         Js.Ok [mkEvent token a delta (usageOf l') liveCost false None])
  else (l, Js.Ok []).

(** After the loop: the [complete] event and the resolved value. *)
Definition onEnd (a : TaskArgs) (l : Locals) : Settled * list StreamEvent.t :=
  let finalUsage := usageOf l in
  match calculateLiveCost (inputTokens l) (outputTokens l) (modelId a) with
  | Js.Throw e => catchBlock a e l
  | Js.Ok finalCost =>
      (fulfilled {| content := fullContent l; tokens := finalUsage; cost := finalCost |},
       [mkEvent complete a "" finalUsage finalCost true None])
  end.

(** One resumption of a slot task by the event loop: it runs up to its next
    [await] and returns the events it sent meanwhile. *)
Definition resume (a : TaskArgs) (t : Task) : Task * list StreamEvent.t :=
  match t with
  | AwaitingStream (Backend.FailsToStart e) l =>
      let '(s, evs) := catchBlock a e l in (Done s, evs)
  | AwaitingStream (Backend.Yields chunks ending) l =>
      (AwaitingChunk chunks ending l, [])
  | AwaitingChunk (chunk :: rest) ending l =>
      match onChunk a chunk l with
      | (l', Js.Ok evs) => (AwaitingChunk rest ending l', evs)
      | (l', Js.Throw e) => let '(s, evs) := catchBlock a e l' in (Done s, evs)
      end
  | AwaitingChunk [] (Some e) l =>
      let '(s, evs) := catchBlock a e l in (Done s, evs)
  | AwaitingChunk [] None l =>
      let '(s, evs) := onEnd a l in (Done s, evs)
  | Done s => (Done s, [])
  end.

(** The [for await] loop run without interruption. *)
Fixpoint forAwait (a : TaskArgs) (chunks : list Backend.Chunk)
    (ending : option Js.Thrown) (l : Locals) : Settled * list StreamEvent.t :=
  match chunks with
  | [] =>
      match ending with
      | Some e => catchBlock a e l
      | None => onEnd a l
      end
  | chunk :: rest =>
      match onChunk a chunk l with
      | (l', Js.Ok evs) =>
          let '(s, evs') := forAwait a rest ending l' in (s, evs ++ evs')
      | (l', Js.Throw e) => catchBlock a e l'
      end
  end.

(** What is left of a task: how it settles and what it still sends. *)
Definition remaining (a : TaskArgs) (t : Task) : Settled * list StreamEvent.t :=
  match t with
  | AwaitingStream (Backend.FailsToStart e) l => catchBlock a e l
  | AwaitingStream (Backend.Yields chunks ending) l => forAwait a chunks ending l
  | AwaitingChunk rest ending l => forAwait a rest ending l
  | Done s => (s, [])
  end.

(** [streamModel(modelInstance, message, modelId, modelKey, ...)]: the call
    runs to the first [await] and hands back the pending task. *)
Definition streamModel (b : Backend.Behaviour) : Task :=
  AwaitingStream b initialLocals.

(** [streamModel] run alone, from call to settlement. *)
Definition streamModelAlone (a : TaskArgs) (b : Backend.Behaviour)
  : Settled * list StreamEvent.t :=
  remaining a (streamModel b).

(** The two pending tasks and what the controller has been sent so far. *)
Record Running : Type := {
  task1 : Task;
  task2 : Task;
  sent : list StreamEvent.t
}.

(** The event loop resumes the task of slot [k]. *)
Definition stepSlot (a1 a2 : TaskArgs) (k : Key) (r : Running) : Running :=
  match k with
  | StreamEvent.model1 =>
      let '(t, evs) := resume a1 (task1 r) in
      {| task1 := t; task2 := task2 r; sent := sent r ++ evs |}
  | StreamEvent.model2 =>
      let '(t, evs) := resume a2 (task2 r) in
      {| task1 := task1 r; task2 := t; sent := sent r ++ evs |}
  | StreamEvent.system => r
  end.

Fixpoint runSchedule (a1 a2 : TaskArgs) (schedule : list Key) (r : Running)
  : Running :=
  match schedule with
  | [] => r
  | k :: rest => runSchedule a1 a2 rest (stepSlot a1 a2 k r)
  end.

(** [await Promise.allSettled([model1Promise, model2Promise])]: the event
    loop resumes the tasks in the order of [schedule]; whatever is then still
    pending runs to its end.  Resolves with both outcomes. *)
Definition allSettled (a1 a2 : TaskArgs) (schedule : list Key) (r : Running)
  : Settled * Settled * list StreamEvent.t :=
  let r' := runSchedule a1 a2 schedule r in
  let '(s1, evs1) := remaining a1 (task1 r') in
  let '(s2, evs2) := remaining a2 (task2 r') in
  (s1, s2, sent r' ++ evs1 ++ evs2).

(** What the handler does to the outside world, in order. *)
Inductive Effect : Type :=
| Send (e : StreamEvent.t)                     (* [controller.enqueue] *)
| DbCreate (data : Prisma.PromptCreateInput)   (* [prisma.prompt.create] *)
| Close.                                       (* [controller.close] *)

(** [saveStreamResults]: one [create]; its failure is caught and logged. *)
Definition saveStreamResults (prompt model1Id model2Id : string)
    (result1 result2 : Settled) : list Effect :=
  let response1 := match result1 with fulfilled v => Some (content v) | rejected _ => None end in
  let response2 := match result2 with fulfilled v => Some (content v) | rejected _ => None end in
  let cost1 := match result1 with fulfilled v => Some (cost v) | rejected _ => None end in
  let cost2 := match result2 with fulfilled v => Some (cost v) | rejected _ => None end in
  [DbCreate {| Prisma.content := prompt;
               Prisma.model1 := model1Id;
               Prisma.model2 := model2Id;
               Prisma.response1 := response1;
               Prisma.response2 := response2;
               Prisma.cost1 := cost1;
               Prisma.cost2 := cost2 |}].

Definition startEvent (sessionId modelId : string) (k : Key) : StreamEvent.t :=
  mkEvent start {| modelId := modelId; modelKey := k; sessionId := sessionId |}
    "" {| input := 0; output := 0; total := 0 |} 0 false None.

(** The query parameters, as [searchParams.get] returns them. *)
Record Request : Type := {
  session : option string;
  model1 : option string;
  model2 : option string;
  prompt : option string
}.

Inductive Response : Type :=
| BadRequest (body : string)            (* status 400 *)
| EventStream (effects : list Effect).  (* status 200, text/event-stream *)

(** The [start(controller)] callback of the [ReadableStream]. *)
Definition startStream (env : ProcessEnv) (b1 b2 : Backend.Behaviour)
    (schedule : list Key) (sessionId model1Id model2Id prompt : string)
  : list Effect :=
  let tryBlock : Js.Result (list Effect) :=
    model1Instance <- createModelInstance env model1Id ;;
    model2Instance <- createModelInstance env model2Id ;;
    let a1 := {| modelId := model1Id; modelKey := StreamEvent.model1; sessionId := sessionId |} in
    let a2 := {| modelId := model2Id; modelKey := StreamEvent.model2; sessionId := sessionId |} in
    let starts := [startEvent sessionId model1Id StreamEvent.model1;
                   startEvent sessionId model2Id StreamEvent.model2] in
    let model1Promise := streamModel b1 in
    let model2Promise := streamModel b2 in
    let '(result1, result2, evs) :=
      allSettled a1 a2 schedule
        {| task1 := model1Promise; task2 := model2Promise; sent := starts |} in
    Js.Ok (map Send evs
           ++ saveStreamResults prompt model1Id model2Id result1 result2
           ++ [Close]) in
  match tryBlock with
  | Js.Ok effects => effects
  | Js.Throw thrown =>
      [Send (mkEvent StreamEvent.error
               {| modelId := model1Id; modelKey := StreamEvent.model1; sessionId := sessionId |}
               "" {| input := 0; output := 0; total := 0 |} 0 true
               (Some (Js.messageOr thrown "Unbekannter Fehler")));
       Close]
  end.

Definition GET (env : ProcessEnv) (b1 b2 : Backend.Behaviour)
    (schedule : list Key) (request : Request) : Response :=
  match session request, model1 request, model2 request, prompt request with
  | Some sessionId, Some model1Id, Some model2Id, Some prompt =>
      if negb (Js.truthy sessionId) || negb (Js.truthy model1Id)
         || negb (Js.truthy model2Id) || negb (Js.truthy prompt)
      then BadRequest "Fehlende Parameter"
      else
        match getModelConfig model1Id, getModelConfig model2Id with
        | Some model1Config, Some model2Config =>
            EventStream (startStream env b1 b2 schedule sessionId model1Id model2Id prompt)
        | _, _ => BadRequest "Ungültige Model-IDs"
        end
  | _, _, _, _ => BadRequest "Fehlende Parameter"
  end.

(** The events a consumer reads off the stream, and those of one slot. *)
Definition eventsOf (effects : list Effect) : list StreamEvent.t :=
  flat_map (fun x => match x with Send e => [e] | _ => [] end) effects.

Definition forSlot (k : Key) (evs : list StreamEvent.t) : list StreamEvent.t :=
  filter (fun e => Key_eqb (model e) k) evs.

Definition creates (effects : list Effect) : list Prisma.PromptCreateInput :=
  flat_map (fun x => match x with DbCreate d => [d] | _ => [] end) effects.

(** The history store after the handler's effects: each [create] uses the
    generated id and timestamp; a rejected [create] leaves the table as it is. *)
Fixpoint applyEffects (newId : string) (now : Z) (effects : list Effect)
    (db : Prisma.Database) : Prisma.Database :=
  match effects with
  | [] => db
  | DbCreate d :: rest =>
      match Prisma.create newId now d db with
      | Js.Ok (_, db') => applyEffects newId now rest db'
      | Js.Throw _ => applyEffects newId now rest db
      end
  | _ :: rest => applyEffects newId now rest db
  end.

End Route.

(* ================================================================== *)
(** ** src/lib/streaming.ts: the client-side reducer *)
(* ================================================================== *)

Module Client.

Record ModelState : Type := {
  content : string;
  isStreaming : bool;
  tokens : TokenUsage;
  cost : Q;
  error : option string       (* [string | null] *)
}.

Record StreamState : Type := {
  model1 : ModelState;
  model2 : ModelState;
  totalCost : Q;
  isAnyStreaming : bool
}.

Definition createInitialStreamState : StreamState :=
  let empty := {| content := ""; isStreaming := false;
                  tokens := {| input := 0; output := 0; total := 0 |};
                  cost := 0; error := None |} in
  {| model1 := empty; model2 := empty; totalCost := 0; isAnyStreaming := false |}.

(** [state[modelKey]] and [newState[modelKey] = v], for the two slots. *)
Definition get (k : StreamEvent.Key) (s : StreamState) : ModelState :=
  match k with
  | StreamEvent.model2 => model2 s
  | _ => model1 s
  end.

Definition set (k : StreamEvent.Key) (v : ModelState) (s : StreamState) : StreamState :=
  match k with
  | StreamEvent.model1 =>
      {| model1 := v; model2 := model2 s;
         totalCost := totalCost s; isAnyStreaming := isAnyStreaming s |}
  | StreamEvent.model2 =>
      {| model1 := model1 s; model2 := v;
         totalCost := totalCost s; isAnyStreaming := isAnyStreaming s |}
  | StreamEvent.system => s
  end.

Definition updateStreamState (state : StreamState) (event : StreamEvent.t)
  : StreamState :=
  let modelKey := StreamEvent.model event in
  match modelKey with
  | StreamEvent.system => state
  | _ =>
      let d := StreamEvent.data event in
      let old := get modelKey state in
      let newState :=
        match StreamEvent.type event with
        | StreamEvent.start =>
            set modelKey
              {| content := ""; isStreaming := true; tokens := tokens old;
                 cost := cost old; error := None |} state
        | StreamEvent.token =>
            set modelKey
              {| content := content old ++ Js.orString (StreamResponse.delta d) "";
                 isStreaming := isStreaming old;
                 tokens := StreamResponse.tokens d;   (* an object is truthy *)
                 cost := Js.orNumber (StreamResponse.cost d) 0;
                 error := error old |} state
        | StreamEvent.complete =>
            set modelKey
              {| content := content old; isStreaming := false;
                 tokens := StreamResponse.tokens d;
                 cost := Js.orNumber (StreamResponse.cost d) 0;
                 error := error old |} state
        | StreamEvent.error =>
            set modelKey
              {| content := content old; isStreaming := false;
                 tokens := tokens old; cost := cost old;
                 error := Some (Js.orOptString (StreamResponse.error d)
                                  "Unbekannter Fehler") |} state
        end in
      {| model1 := model1 newState;
         model2 := model2 newState;
         totalCost := (cost (model1 newState) + cost (model2 newState))%Q;
         isAnyStreaming := isStreaming (model1 newState) || isStreaming (model2 newState) |}
  end.

End Client.

(* ================================================================== *)
(** ** Vocabulary of the properties *)
(* ================================================================== *)

(** [r] is [exact] rounded to six decimal places: a whole number of
    millionths, at most half a millionth away. *)
Definition roundedTo6 (exact r : Q) : Prop :=
  ((exists n : Z, r == inject_Z n / 1000000) /\ Qabs (r - exact) <= 1 # 2000000)%Q.

(** The exact, unrounded cost of [n] tokens at [price] per thousand. *)
Definition exactCost (n : Z) (price : Q) : Q := (inject_Z n / 1000 * price)%Q.

(** Empty or made of white space only. *)
Definition whitespaceOnly (s : string) : bool :=
  forallb Js.isWhiteSpace (list_ascii_of_string s).

(** The family the registry assigns to a provider. *)
Definition familyOfProvider (p : Provider) : Family :=
  match p with
  | openai => OpenAIFamily
  | anthropic => AnthropicFamily
  end.

(** *** Shape of one slot's events *)

Definition isStart (e : StreamEvent.t) : bool :=
  match StreamEvent.type e with StreamEvent.start => true | _ => false end.

Definition isToken (e : StreamEvent.t) : bool :=
  match StreamEvent.type e with StreamEvent.token => true | _ => false end.

(** Zero or more [token] events, then exactly one terminal event, then
    nothing. *)
Fixpoint tokensThenTerminal (evs : list StreamEvent.t) : bool :=
  match evs with
  | [] => false
  | e :: rest =>
      match rest with
      | [] => StreamEvent.isTerminal e
      | _ :: _ => isToken e && tokensThenTerminal rest
      end
  end.

(** Exactly one [start], then [tokensThenTerminal]. *)
Definition wellFormedSlot (evs : list StreamEvent.t) : bool :=
  match evs with
  | [] => false
  | e :: rest => isStart e && tokensThenTerminal rest
  end.

(** Slot [k] has received a terminal event. *)
Definition hasTerminal (k : StreamEvent.Key) (evs : list StreamEvent.t) : bool :=
  existsb StreamEvent.isTerminal (Route.forSlot k evs).

(** Both model instances of the request can be constructed. *)
Definition backendsReady (env : ProcessEnv) (request : Route.Request) : bool :=
  match Route.model1 request, Route.model2 request with
  | Some model1Id, Some model2Id =>
      Js.isOk (createModelInstance env model1Id)
      && Js.isOk (createModelInstance env model2Id)
  | _, _ => false
  end.

(** The backend streams to its end without an error. *)
Definition completesNormally (b : Backend.Behaviour) : bool :=
  match b with
  | Backend.Yields _ None => true
  | _ => false
  end.

Definition slotArgs (sessionId modelId : string) (k : StreamEvent.Key)
  : Route.TaskArgs :=
  {| Route.modelId := modelId; Route.modelKey := k; Route.sessionId := sessionId |}.

(** The events of a slot whose task runs with no other task beside it. *)
Definition aloneTrace (sessionId modelId : string) (k : StreamEvent.Key)
    (b : Backend.Behaviour) : list StreamEvent.t :=
  Route.startEvent sessionId modelId k
  :: snd (Route.streamModelAlone (slotArgs sessionId modelId k) b).

(** Every event is tagged with slot [k]. *)
Definition taggedWith (k : StreamEvent.Key) (evs : list StreamEvent.t) : Prop :=
  Forall (fun e => StreamEvent.model e = k) evs.

(** The text increment a chunk carries: [chunk.content || chunk.text || '']. *)
Definition deltaOf (chunk : Backend.Chunk) : string :=
  Js.orString (Js.orString (Backend.content chunk) (Backend.text chunk)) "".

(** The streaming route's promise about slot traces, for one response. *)
Definition slotTracesWellFormed (effects : list Route.Effect) : Prop :=
  wellFormedSlot (Route.forSlot StreamEvent.model1 (Route.eventsOf effects)) = true
  /\ wellFormedSlot (Route.forSlot StreamEvent.model2 (Route.eventsOf effects)) = true.

(** Each of the two slots gets a terminal event. *)
Definition bothSlotsTerminated (effects : list Route.Effect) : Prop :=
  hasTerminal StreamEvent.model1 (Route.eventsOf effects) = true
  /\ hasTerminal StreamEvent.model2 (Route.eventsOf effects) = true.

(** The step on a text increment in the specification's words: append the
    increment to the accumulated text, re-estimate the output count from that
    text, keep the input count estimated from the prompt, price both, emit a
    [token] event with the increment, the usage and the cost. *)
Definition specOnIncrement (a : Route.TaskArgs) (prompt accumulated delta : string)
  : string * Js.Result (list StreamEvent.t) :=
  let text := (accumulated ++ delta)%string in
  let usage := createTokenUsage prompt text (Route.modelId a) in
  (text,
   cost <- calculateLiveCost (input usage) (output usage) (Route.modelId a) ;;
   Js.Ok [Route.mkEvent StreamEvent.token a delta usage cost false None]).

(** What the code does on a chunk, read the same way. *)
Definition codeOnIncrement (a : Route.TaskArgs) (chunk : Backend.Chunk)
    (l : Route.Locals) : string * Js.Result (list StreamEvent.t) :=
  let '(l', r) := Route.onChunk a chunk l in (Route.fullContent l', r).

(** *** Interleavings *)

(** [Merge xs ys zs]: [zs] interleaves [xs] and [ys], keeping the order of
    each. *)
Inductive Merge {A : Type} : list A -> list A -> list A -> Prop :=
| Merge_nil : Merge [] [] []
| Merge_left (x : A) (xs ys zs : list A) :
    Merge xs ys zs -> Merge (x :: xs) ys (x :: zs)
| Merge_right (y : A) (xs ys zs : list A) :
    Merge xs ys zs -> Merge xs (y :: ys) (y :: zs).

(** A task resumed [n] times in a row. *)
Fixpoint resumeTimes (a : Route.TaskArgs) (n : nat) (t : Route.Task)
  : Route.Task * list StreamEvent.t :=
  match n with
  | O => (t, [])
  | S n' =>
      let '(t', evs) := Route.resume a t in
      let '(t'', evs') := resumeTimes a n' t' in
      (t'', (evs ++ evs')%list)
  end.

(** *** The history store *)

(** Deleting reports success whatever the id, as long as the store works. *)
Definition deletionNeverFails : Prop :=
  forall db, Prisma.online db = true ->
    (forall id, success (fst (History.deletePromptHistoryItem id db)) = true)
    /\ (forall ids, success (fst (History.deleteMultipleHistoryItems ids db)) = true).

Definition listed (ids : list string) (p : Prisma.Prompt) : bool :=
  existsb (String.eqb (Prisma.id p)) ids.

(** *** The client-side reducer *)

Definition otherKey (k : StreamEvent.Key) : StreamEvent.Key :=
  match k with
  | StreamEvent.model1 => StreamEvent.model2
  | StreamEvent.model2 => StreamEvent.model1
  | StreamEvent.system => StreamEvent.system
  end.

Definition isSlot (k : StreamEvent.Key) : bool :=
  match k with
  | StreamEvent.system => false
  | _ => true
  end.

(** An error event for slot [k] stops the slot, stores [message] as its
    error, keeps its content, tokens and cost, and leaves the other slot
    alone. *)
Definition errorApplied (k : StreamEvent.Key) (message : option string)
    (s s' : Client.StreamState) : Prop :=
  Client.isStreaming (Client.get k s') = false
  /\ Client.error (Client.get k s') = message
  /\ Client.content (Client.get k s') = Client.content (Client.get k s)
  /\ Client.tokens (Client.get k s') = Client.tokens (Client.get k s)
  /\ Client.cost (Client.get k s') = Client.cost (Client.get k s)
  /\ Client.get (otherKey k) s' = Client.get (otherKey k) s.

Definition errorEvent (k : StreamEvent.Key) (u : TokenUsage) (c : Q)
    (message : option string) : StreamEvent.t :=
  {| StreamEvent.type := StreamEvent.error;
     StreamEvent.model := k;
     StreamEvent.data :=
       {| StreamResponse.id := "s1"; StreamResponse.model := "gpt-4o";
          StreamResponse.delta := ""; StreamResponse.tokens := u;
          StreamResponse.cost := c; StreamResponse.isComplete := true;
          StreamResponse.error := message |} |}.

Definition streamingState : Client.StreamState :=
  let busy := {| Client.content := "Hi"; Client.isStreaming := true;
                 Client.tokens := {| input := 0; output := 1; total := 1 |};
                 Client.cost := 15 # 1000000; Client.error := None |} in
  {| Client.model1 := busy; Client.model2 := busy;
     Client.totalCost := 30 # 1000000; Client.isAnyStreaming := true |}.

(** *** Sample inputs *)

Definition bothKeys : ProcessEnv :=
  {| OPENAI_API_KEY := Some "sk-test"; ANTHROPIC_API_KEY := Some "sk-ant-test" |}.

Definition noOpenAIKey : ProcessEnv :=
  {| OPENAI_API_KEY := None; ANTHROPIC_API_KEY := Some "sk-ant-test" |}.

Definition noAnthropicKey : ProcessEnv :=
  {| OPENAI_API_KEY := Some "sk-test"; ANTHROPIC_API_KEY := None |}.

Definition sayHi : Route.Request :=
  {| Route.session := Some "s1";
     Route.model1 := Some "gpt-4o-mini";
     Route.model2 := Some "claude-3-5-haiku-20241022";
     Route.prompt := Some "Say hi" |}.

Definition chunkOf (s : string) : Backend.Chunk :=
  {| Backend.content := s; Backend.text := "" |}.

Definition emptyDb : Prisma.Database :=
  {| Prisma.prompts := []; Prisma.online := true |}.

(* ================================================================== *)
(** ** More of src/lib/pricing.ts *)
(* ================================================================== *)

Module Pricing.

(** [a < b] on numbers. *)
Definition lt (a b : Q) : bool := negb (Qle_bool b a).

(** [a > b] on numbers. *)
Definition gt (a b : Q) : bool := lt b a.

(** [estimatePromptCost(promptText, modelId, estimatedResponseTokens = 500)];
    an omitted third argument is [None]. *)
Definition estimatePromptCost (promptText modelId : string)
    (estimatedResponseTokens : option Z) : Js.Result CostCalculation :=
  let estimatedResponseTokens :=
    match estimatedResponseTokens with Some n => n | None => 500 end in
  let inputTokens := countTokens promptText modelId in
  let tokenUsage := {| input := inputTokens;
                       output := estimatedResponseTokens;
                       total := inputTokens + estimatedResponseTokens |} in
  calculateCost tokenUsage modelId.

Record CostComparison : Type := {
  model1 : CostCalculation;
  model2 : CostCalculation;
  difference : Q;
  cheaper : string
}.

Definition compareCosts (tokenUsage : TokenUsage) (model1Id model2Id : string)
  : Js.Result CostComparison :=
  cost1 <- calculateCost tokenUsage model1Id ;;
  cost2 <- calculateCost tokenUsage model2Id ;;
  let difference := Qabs (totalCost cost1 - totalCost cost2) in
  let cheaper := if lt (totalCost cost1) (totalCost cost2) then model1Id else model2Id in
  Js.Ok {| model1 := cost1;
           model2 := cost2;
           difference := Js.toFixed6 difference;
           cheaper := cheaper |}.

Record Breakdown : Type := {
  totalInputTokens : Z;
  totalOutputTokens : Z;
  totalInputCost : Q;
  totalOutputCost : Q
}.

Record CostBreakdown : Type := {
  bd_model1 : CostCalculation;
  bd_model2 : CostCalculation;
  bd_total : Q;
  breakdown : Breakdown
}.

Definition createCostBreakdown (model1Usage model2Usage : TokenUsage)
    (model1Id model2Id : string) : Js.Result CostBreakdown :=
  model1Cost <- calculateCost model1Usage model1Id ;;
  model2Cost <- calculateCost model2Usage model2Id ;;
  let totalCost' := (totalCost model1Cost + totalCost model2Cost)%Q in
  Js.Ok {| bd_model1 := model1Cost;
           bd_model2 := model2Cost;
           bd_total := Js.toFixed6 totalCost';
           breakdown :=
             {| totalInputTokens := input model1Usage + input model2Usage;
                totalOutputTokens := output model1Usage + output model2Usage;
                totalInputCost := (inputCost model1Cost + inputCost model2Cost)%Q;
                totalOutputCost := (outputCost model1Cost + outputCost model2Cost)%Q |} |}.

Definition hasValidPricing (modelId : string) : bool :=
  match getModelConfig modelId with
  | None => false
  | Some config =>
      gt (pricing_input (pricing config)) 0 && gt (pricing_output (pricing config)) 0
  end.

End Pricing.

(* ================================================================== *)
(** ** More of src/lib/tokenizer.ts *)
(* ================================================================== *)

Module Tokenizer.

Definition batchCountTokens (texts : list string) (modelId : string) : list Z :=
  map (fun text => countTokens text modelId) texts.

(** [s.split(/\s+/).filter(Boolean)] on a list of code units: the maximal
    runs of characters that are not white space. *)
Fixpoint wordsL (current : list ascii) (l : list ascii) : list (list ascii) :=
  match l with
  | [] => match current with [] => [] | _ :: _ => [rev current] end
  | c :: r =>
      if Js.isWhiteSpace c
      then match current with
           | [] => wordsL [] r
           | _ :: _ => rev current :: wordsL [] r
           end
      else wordsL (c :: current) r
  end.

Definition words (s : string) : list string :=
  map string_of_list_ascii (wordsL [] (list_ascii_of_string s)).

Definition getApproximateTokenCount (text : string) : Z :=
  if negb (Js.truthy (Js.trim text)) then 0
  else
    let words := words (Js.trim text) in
    Js.ceil (inject_Z (Z.of_nat (List.length words))
             * DEFAULT_WORDS_TO_TOKENS TOKEN_ESTIMATION).

(** [getCharacterBasedTokenCount(text, modelId?)]; an omitted id is [None],
    and [modelId?.startsWith(...)] is then falsy. *)
Definition getCharacterBasedTokenCount (text : string) (modelId : option string) : Z :=
  if negb (Js.truthy (Js.trim text)) then 0
  else
    let cleanText := Js.trim text in
    let starts := fun p =>
      match modelId with Some m => Js.startsWith m p | None => false end in
    if starts "gpt-" then
      Js.ceil (inject_Z (Js.length cleanText) / OPENAI_CHARS_PER_TOKEN TOKEN_ESTIMATION)
    else if starts "claude-" then
      Js.ceil (inject_Z (Js.length cleanText) / ANTHROPIC_CHARS_PER_TOKEN TOKEN_ESTIMATION)
    else
      Js.ceil (inject_Z (Js.length cleanText) / DEFAULT_CHARS_PER_TOKEN TOKEN_ESTIMATION).

Record TokenRange : Type := {
  min : Z;
  max : Z;
  estimate : Z
}.

Definition estimateTokenRange (text modelId : string) : TokenRange :=
  let estimate := countTokens text modelId in
  let variance := (2 # 10)%Q in
  let min := Qfloor (inject_Z estimate * (1 - variance)) in
  let max := Js.ceil (inject_Z estimate * (1 + variance)) in
  {| min := min; max := max; estimate := estimate |}.


(** [s.substring(0, n)] for an integer [n]: a negative end counts as 0, an end
    beyond the string as its length. *)
Definition substring0 (s : string) (n : Z) : string :=
  String.substring 0 (Z.to_nat n) s.

Definition truncateToTokenLimit (text modelId : string) (maxTokens : Z) : string :=
  let currentTokens := countTokens text modelId in
  if currentTokens <=? maxTokens then text
  else
    let ratio := (inject_Z maxTokens * (9 # 10) / inject_Z currentTokens)%Q in
    let targetLength := Qfloor (inject_Z (Js.length text) * ratio) in
    (substring0 text targetLength ++ "...")%string.

End Tokenizer.

(* ================================================================== *)
(** ** More of @/lib/models *)
(* ================================================================== *)

Module Models.

Definition DEFAULT_MODEL1 : string := "gpt-4o-mini".
Definition DEFAULT_MODEL2 : string := "claude-3-5-haiku-20241022".

Definition isModelAvailable (modelId : string) : bool :=
  match getModelConfig modelId with Some _ => true | None => false end.

Definition Provider_eqb (a b : Provider) : bool :=
  match a, b with
  | openai, openai | anthropic, anthropic => true
  | _, _ => false
  end.

Definition getModelsByProvider (providerId : Provider) : list ModelConfig :=
  filter (fun model => Provider_eqb (provider model) providerId) ALL_MODELS.

(** The usage object a provider reports; an absent field is [None]. *)
Record Usage : Type := {
  prompt_tokens : option Z;
  completion_tokens : option Z;
  total_tokens : option Z;
  input_tokens : option Z;
  output_tokens : option Z
}.

(** [usage?.field || 0] *)
Definition orZero (x : option Z) : Z :=
  match x with Some n => n | None => 0 end.

Definition providerId (p : Provider) : string :=
  match p with
  | openai => "openai"
  | anthropic => "anthropic"
  end.

Definition parseTokenUsage (usage : option Usage) (provider : string) : TokenUsage :=
  let field := fun (f : Usage -> option Z) =>
    match usage with Some u => orZero (f u) | None => 0 end in
  if String.eqb provider "openai" then
    {| input := field prompt_tokens;
       output := field completion_tokens;
       total := field total_tokens |}
  else if String.eqb provider "anthropic" then
    {| input := field input_tokens;
       output := field output_tokens;
       total := field input_tokens + field output_tokens |}
  else {| input := 0; output := 0; total := 0 |}.

End Models.

(* ================================================================== *)
(** ** More of the Prisma client: queries *)
(* ================================================================== *)

Module PrismaQueries.

(** [orderBy: { createdAt: 'desc' }]: newest first; rows with the same
    timestamp keep the order of the table. *)
Fixpoint insertDesc (p : Prisma.Prompt) (l : list Prisma.Prompt) : list Prisma.Prompt :=
  match l with
  | [] => [p]
  | q :: r =>
      if Prisma.createdAt q <=? Prisma.createdAt p
      then p :: q :: r
      else q :: insertDesc p r
  end.

Definition orderByCreatedAtDesc (l : list Prisma.Prompt) : list Prisma.Prompt :=
  fold_right insertDesc [] l.

(** [prisma.prompt.findMany({ orderBy: { createdAt: 'desc' } })] *)
Definition findManyNewestFirst (db : Prisma.Database) : Js.Result (list Prisma.Prompt) :=
  if negb (Prisma.online db) then Js.Throw Prisma.offline
  else Js.Ok (orderByCreatedAtDesc (Prisma.prompts db)).


(** [prisma.prompt.findUnique({ where: { id } })] *)
Definition findUnique (i : string) (db : Prisma.Database)
  : Js.Result (option Prisma.Prompt) :=
  if negb (Prisma.online db) then Js.Throw Prisma.offline
  else Js.Ok (find (Prisma.hasId i) (Prisma.prompts db)).

(** [prisma.prompt.deleteMany({ where })] for a condition on rows. *)
Definition deleteManyWhere (cond : Prisma.Prompt -> bool) (db : Prisma.Database)
  : Js.Result (Z * Prisma.Database) :=
  if negb (Prisma.online db) then Js.Throw Prisma.offline
  else
    Js.Ok (Z.of_nat (List.length (filter cond (Prisma.prompts db))),
           {| Prisma.prompts := filter (fun p => negb (cond p)) (Prisma.prompts db);
              Prisma.online := Prisma.online db |}).

End PrismaQueries.

(* ================================================================== *)
(** ** More of src/app/actions.ts and src/lib/history.ts *)
(* ================================================================== *)

Module HistoryMore.

Local Open Scope list_scope.


(** history.ts, [getPromptById]. *)
Definition getPromptById (id : string) (db : Prisma.Database)
  : ServerActionResult Prisma.Prompt :=
  match PrismaQueries.findUnique id db with
  | Js.Ok None =>
      {| success := false; data := None; error := Some "Prompt nicht gefunden" |}
  | Js.Ok (Some prompt) =>
      {| success := true; data := Some prompt; error := None |}
  | Js.Throw _ =>
      {| success := false; data := None; error := Some "Fehler beim Laden des Prompts" |}
  end.

(** The options of [cleanupHistory]; an absent option is [None]. *)
Record CleanupOptions : Type := {
  olderThanDays : option Z;
  keepCount : option Z;
  removeErrors : option bool
}.

(** Truthiness of an optional number: absent and 0 are falsy. *)
Definition truthyNum (x : option Z) : bool :=
  match x with Some n => negb (n =? 0) | None => false end.

Definition truthyFlag (x : option bool) : bool :=
  match x with Some b => b | None => false end.

(** The conditions [cleanupHistory] collects. *)
Inductive Condition : Type :=
| CreatedBefore (cutoff : Z)     (* [{ createdAt: { lt: cutoffDate } }] *)
| BothResponsesNull.             (* [{ AND: [{ response1: null }, { response2: null }] }] *)

Definition holds (c : Condition) (p : Prisma.Prompt) : bool :=
  match c with
  | CreatedBefore cutoff => Prisma.createdAt p <? cutoff
  | BothResponsesNull =>
      match Prisma.response1 (Prisma.fields p), Prisma.response2 (Prisma.fields p) with
      | None, None => true
      | _, _ => false
      end
  end.

(** [xs.slice(n)] for an integer [n]: a negative [n] counts from the end. *)
Definition slice {A : Type} (xs : list A) (n : Z) : list A :=
  if n <? 0
  then skipn (Z.to_nat (Z.max 0 (Z.of_nat (List.length xs) + n))) xs
  else skipn (Z.to_nat n) xs.

(** history.ts, [cleanupHistory].  [cutoffBefore days] is the date computed
    by [new Date()] and [setDate(getDate() - days)]. *)
Definition cleanupHistory (cutoffBefore : Z -> Z) (options : CleanupOptions)
    (db : Prisma.Database) : ServerActionResult Z * Prisma.Database :=
  let failure : ServerActionResult Z * Prisma.Database :=
    ({| success := false; data := None;
        error := Some "Fehler beim Bereinigen der Historie" |}, db) in
  let conditions :=
    (match olderThanDays options with
     | Some days => if truthyNum (Some days) then [CreatedBefore (cutoffBefore days)] else []
     | None => []
     end)
    ++ (if truthyFlag (removeErrors options) then [BothResponsesNull] else []) in
  if truthyNum (keepCount options) && negb (truthyNum (olderThanDays options))
     && negb (truthyFlag (removeErrors options))
  then
    let keep := match keepCount options with Some k => k | None => 0 end in
    match PrismaQueries.findManyNewestFirst db with
    | Js.Throw _ => failure
    | Js.Ok allPrompts =>
        if keep <? Z.of_nat (List.length allPrompts) then
          let toDelete := slice allPrompts keep in
          match Prisma.deleteMany (map Prisma.id toDelete) db with
          | Js.Throw _ => failure
          | Js.Ok (count, db') =>
              ({| success := true; data := Some count; error := None |}, db')
          end
        else ({| success := true; data := Some 0; error := None |}, db)
    end
  else
    match conditions with
    | [] => ({| success := true; data := Some 0; error := None |}, db)
    | _ :: _ =>
        match PrismaQueries.deleteManyWhere
                (fun p => existsb (fun c => holds c p) conditions) db with
        | Js.Throw _ => failure
        | Js.Ok (count, db') =>
            ({| success := true; data := Some count; error := None |}, db')
        end
    end.

(** actions.ts, [cleanupOldHistory(daysOld = 30)]. *)
Definition cleanupOldHistory (cutoffBefore : Z -> Z) (daysOld : option Z)
    (db : Prisma.Database) : ServerActionResult Z * Prisma.Database :=
  let daysOld := match daysOld with Some d => d | None => 30 end in
  match PrismaQueries.deleteManyWhere
          (fun p => Prisma.createdAt p <? cutoffBefore daysOld) db with
  | Js.Throw _ =>
      ({| success := false; data := None;
          error := Some "Fehler beim Bereinigen der Historie" |}, db)
  | Js.Ok (count, db') =>
      ({| success := true; data := Some count; error := None |}, db')
  end.

End HistoryMore.

(* ================================================================== *)
(** ** src/app/actions.ts: the server action without streaming *)
(* ================================================================== *)

(** The message a model resolves [invoke] with; an absent field is [''] or
    [None]. *)
Module AIMessage.
Record t : Type := {
  content : string;
  text : string;
  usage_metadata : option Models.Usage;
  usage : option Models.Usage;
  finish_reason : option string    (* [response_metadata?.finish_reason] *)
}.
End AIMessage.

Module ChatResponse.
Record t : Type := {
  id : string;
  model : string;
  content : string;
  tokens : TokenUsage;
  cost : Q;
  finishReason : string;
  timestamp : Z;
  error : option string
}.
End ChatResponse.

Module Actions.

Record CreateChatRequest : Type := {
  prompt : string;
  model1 : string;
  model2 : string
}.

(** [PromiseSettledResult] of [modelInstance.invoke([message])]. *)
Inductive InvokeOutcome : Type :=
| Resolves (value : AIMessage.t)
| Rejects (reason : Js.Thrown).

(** [reason?.message]: the message of an [Error]; anything else thrown is
    taken to have none. *)
Definition reasonMessage (reason : Js.Thrown) : option string :=
  match reason with
  | Js.ErrorObj m => Some m
  | Js.OtherValue => None
  end.

Definition emptyUsage : Models.Usage :=
  {| Models.prompt_tokens := None; Models.completion_tokens := None;
     Models.total_tokens := None; Models.input_tokens := None;
     Models.output_tokens := None |}.

(** [processModelResult]; [uuid] and [now] are the values of
    [crypto.randomUUID()] and [new Date()]. *)
Definition processModelResult (uuid : string) (now : Z) (result : InvokeOutcome)
    (modelId : string) (modelConfig : ModelConfig) : ChatResponse.t :=
  let withError := fun message =>
    {| ChatResponse.id := uuid; ChatResponse.model := modelId;
       ChatResponse.content := ""; ChatResponse.tokens := {| input := 0; output := 0; total := 0 |};
       ChatResponse.cost := 0; ChatResponse.finishReason := "error";
       ChatResponse.timestamp := now; ChatResponse.error := Some message |} in
  match result with
  | Rejects reason =>
      withError ("Fehler bei " ++ displayName modelConfig ++ ": "
                 ++ Js.orOptString (reasonMessage reason) "Unbekannter Fehler")
  | Resolves response =>
      let content :=
        Js.orString (Js.orString (AIMessage.content response) (AIMessage.text response)) "" in
      let usage :=
        match AIMessage.usage_metadata response with
        | Some u => u
        | None => match AIMessage.usage response with Some u => u | None => emptyUsage end
        end in
      let tokenUsage :=
        Models.parseTokenUsage (Some usage) (Models.providerId (provider modelConfig)) in
      match calculateCost tokenUsage modelId with
      | Js.Ok cost =>
          {| ChatResponse.id := uuid; ChatResponse.model := modelId;
             ChatResponse.content := content; ChatResponse.tokens := tokenUsage;
             ChatResponse.cost := totalCost cost;
             ChatResponse.finishReason :=
               Js.orOptString (AIMessage.finish_reason response) "stop";
             ChatResponse.timestamp := now; ChatResponse.error := None |}
      | Js.Throw thrown =>
          withError ("Fehler beim Verarbeiten der Antwort: "
                     ++ Js.messageOr thrown "Unbekannter Fehler")
      end
  end.

(** The columns [saveToDatabase] writes. *)
Definition rowOf (request : CreateChatRequest) (response1 response2 : ChatResponse.t)
  : Prisma.PromptCreateInput :=
  let failed := fun r => Js.truthyOpt (ChatResponse.error r) in
  {| Prisma.content := prompt request;
     Prisma.model1 := model1 request;
     Prisma.model2 := model2 request;
     Prisma.response1 :=
       if failed response1 then None else Some (ChatResponse.content response1);
     Prisma.response2 :=
       if failed response2 then None else Some (ChatResponse.content response2);
     Prisma.cost1 := if failed response1 then None else Some (ChatResponse.cost response1);
     Prisma.cost2 := if failed response2 then None else Some (ChatResponse.cost response2) |}.

(** [saveToDatabase]: a failing [create] is logged and swallowed. *)
Definition saveToDatabase (newId : string) (dbNow : Z) (request : CreateChatRequest)
    (response1 response2 : ChatResponse.t) (db : Prisma.Database) : Prisma.Database :=
  match Prisma.create newId dbNow (rowOf request response1 response2) db with
  | Js.Ok (_, db') => db'
  | Js.Throw _ => db
  end.

(** The values the environment generates during one call. *)
Record Generated : Type := {
  uuid1 : string; now1 : Z;
  uuid2 : string; now2 : Z;
  newId : string; dbNow : Z
}.

Definition createParallelChat (env : ProcessEnv) (invoke1 invoke2 : InvokeOutcome)
    (g : Generated) (request : CreateChatRequest) (db : Prisma.Database)
  : ServerActionResult (ChatResponse.t * ChatResponse.t) * Prisma.Database :=
  let reject := fun message =>
    ({| success := false; data := None; error := Some message |}, db) in
  if negb (Js.truthy (Js.trim (prompt request))) then
    reject "Prompt darf nicht leer sein"
  else if negb (Js.truthy (model1 request)) || negb (Js.truthy (model2 request)) then
    reject "Beide Modelle müssen ausgewählt werden"
  else
    match getModelConfig (model1 request), getModelConfig (model2 request) with
    | Some model1Config, Some model2Config =>
        match (model1Instance <- createModelInstance env (model1 request) ;;
               model2Instance <- createModelInstance env (model2 request) ;;
               Js.Ok (model1Instance, model2Instance)) with
        | Js.Throw thrown => reject (Js.messageOr thrown "Unbekannter Fehler")
        | Js.Ok _ =>
            let response1 :=
              processModelResult (uuid1 g) (now1 g) invoke1 (model1 request) model1Config in
            let response2 :=
              processModelResult (uuid2 g) (now2 g) invoke2 (model2 request) model2Config in
            ({| success := true; data := Some (response1, response2); error := None |},
             saveToDatabase (newId g) (dbNow g) request response1 response2 db)
        end
    | _, _ => reject "Ungültige Model-Auswahl"
    end.

End Actions.

(* ================================================================== *)
(** ** src/lib/streaming.ts: the SSE client *)
(* ================================================================== *)

(** [class SSEStreamingClient].  The browser's [EventSource] is external: it
    calls the three handlers the client installs, and the client reads its
    [readyState].  The client's own state is whether it holds an event
    source and the counter of reconnect attempts.  The callbacks [onEvent]
    and [onError], the timer and the event source are recorded as effects;
    [onEvent] is taken not to throw. *)
Module SSEStreamingClient.
Local Open Scope list_scope.

Inductive ReadyState : Type := CONNECTING | OPEN | CLOSED.

Record t : Type := {
  eventSource : bool;          (* [this.eventSource !== null] *)
  reconnectAttempts : Z
}.

Definition maxReconnectAttempts : Z := 3.
Definition reconnectDelay : Z := 1000.

Inductive Effect : Type :=
| NewEventSource                  (* [new EventSource(this.url)] *)
| EventSourceClose                (* [this.eventSource.close()] *)
| SetTimeout (delay : Z)          (* [setTimeout(() => this.start(), delay)] *)
| OnEvent (event : StreamEvent.t)
| OnError (message : string).

(** The state after [new SSEStreamingClient(url, onEvent, onError)]. *)
Definition create : t := {| eventSource := false; reconnectAttempts := 0 |}.

(** [start()]; [urlAccepted] tells whether [new EventSource(url)] returns
    rather than throws. *)
Definition start (urlAccepted : bool) (c : t) : t * list Effect :=
  if urlAccepted then
    ({| eventSource := true; reconnectAttempts := reconnectAttempts c |}, [NewEventSource])
  else (c, [OnError "Fehler beim Starten des Streams"]).

Definition stop (c : t) : t * list Effect :=
  ({| eventSource := false; reconnectAttempts := 0 |},
   if eventSource c then [EventSourceClose] else []).

Definition handleDisconnection (c : t) : t * list Effect :=
  if reconnectAttempts c <? maxReconnectAttempts then
    let attempts := reconnectAttempts c + 1 in
    ({| eventSource := eventSource c; reconnectAttempts := attempts |},
     [SetTimeout (reconnectDelay * attempts)])
  else (c, [OnError "Verbindung zum Stream verloren"]).

Definition onopen (c : t) : t * list Effect :=
  ({| eventSource := eventSource c; reconnectAttempts := 0 |}, []).

(** [onerror]; [readyState] is the state of the event source when the
    handler runs. *)
Definition onerror (readyState : ReadyState) (c : t) : t * list Effect :=
  match eventSource c, readyState with
  | true, CLOSED => handleDisconnection c
  | _, _ => (c, [])
  end.

(** What [JSON.parse(event.data)] gives: something the handler cannot read
    as an event (the call throws, or reading the result's fields does), or
    an event, which may carry a truthy [data.isConfigError]. *)
Inductive Message : Type :=
| Unparsable
| Parsed (streamEvent : StreamEvent.t) (isConfigError : bool).

Definition LF : string := String (ascii_of_nat 10) EmptyString.

Definition onmessage (m : Message) (c : t) : t * list Effect :=
  match m with
  | Unparsable => (c, [OnError "Fehler beim Parsen der Stream-Nachricht"])
  | Parsed streamEvent isConfigError =>
      match StreamEvent.type streamEvent with
      | StreamEvent.error =>
          if StreamEvent.Key_eqb (StreamEvent.model streamEvent) StreamEvent.system
             || isConfigError
          then
            (c, [OnError ("Konfigurationsfehler: "
                          ++ Js.orOptString
                               (StreamResponse.error (StreamEvent.data streamEvent))
                               "Unbekannter Fehler"
                          ++ LF ++ LF
                          ++ "Bitte siehe ENVIRONMENT_SETUP.md für Setup-Anweisungen.")])
          else (c, [OnEvent streamEvent])
      | _ => (c, [OnEvent streamEvent])
      end
  end.

(** What happens to a client: a call of [start] (by its owner or by the
    timer of a reconnect), a call of [stop], or one of the three handlers
    called by the event source. *)
Inductive Input : Type :=
| Start (urlAccepted : bool)
| Stop
| Opened
| Failed (readyState : ReadyState)
| Received (m : Message).

Definition step (i : Input) (c : t) : t * list Effect :=
  match i with
  | Start urlAccepted => start urlAccepted c
  | Stop => stop c
  | Opened => onopen c
  | Failed readyState => onerror readyState c
  | Received m => onmessage m c
  end.

Fixpoint run (inputs : list Input) (c : t) : t * list Effect :=
  match inputs with
  | [] => (c, [])
  | i :: rest =>
      let (c1, effects1) := step i c in
      let (c2, effects2) := run rest c1 in
      (c2, effects1 ++ effects2)
  end.

End SSEStreamingClient.

(* ================================================================== *)
(** ** Vocabulary of the further properties *)
(* ================================================================== *)

(** All four query parameters are present and non-empty. *)
Definition paramsPresent (request : Route.Request) : bool :=
  Js.truthyOpt (Route.session request) && Js.truthyOpt (Route.model1 request)
  && Js.truthyOpt (Route.model2 request) && Js.truthyOpt (Route.prompt request).

(** Both model ids of the request are in the registry. *)
Definition modelsRegistered (request : Route.Request) : bool :=
  match Route.model1 request, Route.model2 request with
  | Some m1, Some m2 => Models.isModelAvailable m1 && Models.isModelAvailable m2
  | _, _ => false
  end.

(** The text carried by the [token] events of a list, in order. *)
Definition deltas (evs : list StreamEvent.t) : string :=
  fold_right (fun e acc => (StreamResponse.delta (StreamEvent.data e) ++ acc)%string)
    "" (filter isToken evs).

Definition inputOf (e : StreamEvent.t) : Z :=
  input (StreamResponse.tokens (StreamEvent.data e)).

Definition outputOf (e : StreamEvent.t) : Z :=
  output (StreamResponse.tokens (StreamEvent.data e)).

(** The persisted response and cost of a slot against the slot's events:
    one [start], the [token] events, one terminal event that reports as many
    output tokens as there were [token] events; the response is the
    concatenation of the streamed increments and the cost the one of the
    [complete] event, or both are [null] when the terminal event is an
    error. *)
Definition recordMatchesSlot (response : option string) (cost : option Q)
    (evs : list StreamEvent.t) : Prop :=
  exists first toks last,
    evs = first :: toks ++ [last]
    /\ isStart first = true
    /\ forallb isToken toks = true
    /\ outputOf last = Z.of_nat (List.length toks)
    /\ ((StreamEvent.type last = StreamEvent.complete
         /\ response = Some (deltas toks)
         /\ cost = Some (StreamResponse.cost (StreamEvent.data last)))
        \/ (StreamEvent.type last = StreamEvent.error
            /\ response = None /\ cost = None)).

(** The page's use of the reducer: the state is reset when a prompt is
    submitted and every event of the stream is folded into it. *)
Definition replay (evs : list StreamEvent.t) : Client.StreamState :=
  fold_left Client.updateStreamState evs Client.createInitialStreamState.

(** What the reducer does to the sub-state of the slot an event is for. *)
Definition slotStep (old : Client.ModelState) (e : StreamEvent.t) : Client.ModelState :=
  let d := StreamEvent.data e in
  match StreamEvent.type e with
  | StreamEvent.start =>
      {| Client.content := ""; Client.isStreaming := true;
         Client.tokens := Client.tokens old; Client.cost := Client.cost old;
         Client.error := None |}
  | StreamEvent.token =>
      {| Client.content := (Client.content old ++ Js.orString (StreamResponse.delta d) "")%string;
         Client.isStreaming := Client.isStreaming old;
         Client.tokens := StreamResponse.tokens d;
         Client.cost := Js.orNumber (StreamResponse.cost d) 0;
         Client.error := Client.error old |}
  | StreamEvent.complete =>
      {| Client.content := Client.content old; Client.isStreaming := false;
         Client.tokens := StreamResponse.tokens d;
         Client.cost := Js.orNumber (StreamResponse.cost d) 0;
         Client.error := Client.error old |}
  | StreamEvent.error =>
      {| Client.content := Client.content old; Client.isStreaming := false;
         Client.tokens := Client.tokens old; Client.cost := Client.cost old;
         Client.error := Some (Js.orOptString (StreamResponse.error d)
                                 "Unbekannter Fehler") |}
  end.

(** What a slot of the client state shows against the persisted response
    and cost of that slot. *)
Definition slotShows (response : option string) (cost : option Q)
    (ms : Client.ModelState) : Prop :=
  match response, cost with
  | Some text, Some c =>
      Client.content ms = text /\ (Client.cost ms == c)%Q /\ Client.error ms = None
  | None, None => Client.error ms <> None
  | _, _ => False
  end.

(** [p] is at least as new as [q]. *)
Definition newerEq (p q : Prisma.Prompt) : Prop :=
  Prisma.createdAt q <= Prisma.createdAt p.

(** The primary key is unique in the table. *)
Definition uniqueIds (db : Prisma.Database) : Prop :=
  NoDup (map Prisma.id (Prisma.prompts db)).

Definition sampleRow (i : string) (t : Z) (r1 r2 : option string) : Prisma.Prompt :=
  {| Prisma.id := i; Prisma.createdAt := t;
     Prisma.fields :=
       {| Prisma.content := "Say hi"; Prisma.model1 := "gpt-4o";
          Prisma.model2 := "claude-3-opus-20240229";
          Prisma.response1 := r1; Prisma.response2 := r2;
          Prisma.cost1 := option_map (fun _ => 1 # 1000) r1;
          Prisma.cost2 := option_map (fun _ => 2 # 1000) r2 |} |}.

Definition threeRows : Prisma.Database :=
  {| Prisma.prompts :=
       [ sampleRow "a" 10 (Some "Hi") (Some "Hello");
         sampleRow "b" 30 None None;
         sampleRow "c" 20 (Some "Hi") None ];
     Prisma.online := true |}.

(** The derived fields of a client state agree with its two slots. *)
Definition derivedConsistent (s : Client.StreamState) : Prop :=
  (Client.totalCost s == Client.cost (Client.model1 s) + Client.cost (Client.model2 s))%Q
  /\ Client.isAnyStreaming s
     = Client.isStreaming (Client.model1 s) || Client.isStreaming (Client.model2 s).

(** What [createParallelChat] checks before it invokes the models. *)
Definition chatReady (env : ProcessEnv) (request : Actions.CreateChatRequest) : bool :=
  Js.truthy (Js.trim (Actions.prompt request))
  && Js.isOk (createModelInstance env (Actions.model1 request))
  && Js.isOk (createModelInstance env (Actions.model2 request)).

(** The response object of one model against what its [invoke] settled as. *)
Definition answers (result : Actions.InvokeOutcome) (modelId : string)
    (r : ChatResponse.t) : Prop :=
  ChatResponse.model r = modelId
  /\ (exists c,
        calculateLiveCost (input (ChatResponse.tokens r)) (output (ChatResponse.tokens r))
          modelId = Js.Ok c
        /\ (ChatResponse.cost r == c)%Q)
  /\ match result with
     | Actions.Rejects reason =>
         (exists config,
            getModelConfig modelId = Some config
            /\ ChatResponse.error r
               = Some ("Fehler bei " ++ displayName config ++ ": "
                       ++ Js.orOptString (Actions.reasonMessage reason)
                            "Unbekannter Fehler")%string)
         /\ ChatResponse.content r = ""%string
         /\ ChatResponse.tokens r = {| input := 0; output := 0; total := 0 |}
         /\ ChatResponse.finishReason r = "error"%string
     | Actions.Resolves value =>
         ChatResponse.error r = None
         /\ ChatResponse.content r
            = Js.orString (AIMessage.content value) (AIMessage.text value)
         /\ ChatResponse.finishReason r
            = Js.orOptString (AIMessage.finish_reason value) "stop"
         /\ (AIMessage.usage_metadata value = None -> AIMessage.usage value = None ->
             ChatResponse.tokens r = {| input := 0; output := 0; total := 0 |})
     end.

(** The columns of a slot in the stored row against the slot's response. *)
Definition storedAs (result : Actions.InvokeOutcome) (r : ChatResponse.t)
    (response : option string) (cost : option Q) : Prop :=
  match result with
  | Actions.Rejects _ => response = None /\ cost = None
  | Actions.Resolves _ =>
      response = Some (ChatResponse.content r) /\ cost = Some (ChatResponse.cost r)
  end.

Definition chatSayHi : Actions.CreateChatRequest :=
  {| Actions.prompt := "Say hi"; Actions.model1 := "gpt-4o-mini";
     Actions.model2 := "claude-3-5-haiku-20241022" |}.

Definition generated : Actions.Generated :=
  {| Actions.uuid1 := "u1"; Actions.now1 := 1700000000;
     Actions.uuid2 := "u2"; Actions.now2 := 1700000001;
     Actions.newId := "c9"; Actions.dbNow := 1700000002 |}.

Definition hiMessage : AIMessage.t :=
  {| AIMessage.content := "Hi"; AIMessage.text := "";
     AIMessage.usage_metadata := None;
     AIMessage.usage :=
       Some {| Models.prompt_tokens := Some 3; Models.completion_tokens := Some 1;
               Models.total_tokens := Some 4; Models.input_tokens := None;
               Models.output_tokens := None |};
     AIMessage.finish_reason := None |}.

(** The delays of the reconnects scheduled among some effects, in order. *)
Definition timeouts (effects : list SSEStreamingClient.Effect) : list Z :=
  flat_map (fun e => match e with SSEStreamingClient.SetTimeout d => [d] | _ => [] end)
    effects.

(** How often the connection was reported as lost. *)
Definition lostReports (effects : list SSEStreamingClient.Effect) : nat :=
  List.length
    (filter (fun e => match e with
                      | SSEStreamingClient.OnError m =>
                          String.eqb m "Verbindung zum Stream verloren"
                      | _ => false
                      end) effects).

(** How often the attempt counter is reset: the connection opened, or the
    client was stopped. *)
Definition resets (inputs : list SSEStreamingClient.Input) : nat :=
  List.length
    (filter (fun i => match i with
                      | SSEStreamingClient.Opened | SSEStreamingClient.Stop => true
                      | _ => false
                      end) inputs).

(** The events handed to [onEvent]. *)
Definition delivered (effects : list SSEStreamingClient.Effect) : list StreamEvent.t :=
  flat_map (fun e => match e with SSEStreamingClient.OnEvent ev => [ev] | _ => [] end)
    effects.

(** The events the client received and could parse. *)
Definition parsedEvents (inputs : list SSEStreamingClient.Input) : list StreamEvent.t :=
  flat_map (fun i => match i with
                     | SSEStreamingClient.Received (SSEStreamingClient.Parsed ev _) => [ev]
                     | _ => []
                     end) inputs.

(** No received error event of a slot carries the configuration flag. *)
Definition noFlaggedSlotError (inputs : list SSEStreamingClient.Input) : bool :=
  forallb (fun i => match i with
                    | SSEStreamingClient.Received (SSEStreamingClient.Parsed ev true) =>
                        negb (isSlot (StreamEvent.model ev))
                        || negb (match StreamEvent.type ev with
                                 | StreamEvent.error => true
                                 | _ => false
                                 end)
                    | _ => true
                    end) inputs.

(** An error event of the pseudo model ['system']. *)
Definition isSystemError (e : StreamEvent.t) : bool :=
  match StreamEvent.type e with
  | StreamEvent.error => StreamEvent.Key_eqb (StreamEvent.model e) StreamEvent.system
  | _ => false
  end.

(** The delays [1000 * (a + 1)], ..., [1000 * b]. *)
Definition delaysBetween (a b : Z) : list Z :=
  map (fun k => 1000 * Z.of_nat k) (seq (S (Z.to_nat a)) (Z.to_nat b - Z.to_nat a)).

(* ================================================================== *)
(** ** Rounding *)
(* ================================================================== *)

Section Rounding.
Local Open Scope Q_scope.

Lemma div_micro (q : Q) : q / 1000000 == q * (1 # 1000000).
Proof. reflexivity. Qed.



Lemma roundHalfUp_bounds (x : Q) :
  inject_Z (Js.roundHalfUp x) <= x * 1000000 + (1 # 2)
  /\ x * 1000000 + (1 # 2) < inject_Z (Js.roundHalfUp x) + 1.
Proof.
  unfold Js.roundHalfUp. split.
  - apply Qfloor_le.
  - pose proof (Qlt_floor (x * 1000000 + (1 # 2))) as H.
    rewrite inject_Z_plus in H. exact H.
Qed.



Lemma toFixed6_near (x : Q) : Qabs (Js.toFixed6 x - x) <= 1 # 2000000.
Proof.
  unfold Js.toFixed6. apply Qabs_Qle_condition.
  destruct (Qle_bool 0 x); rewrite div_micro.
  - destruct (roundHalfUp_bounds x) as [H1 H2]. split; lra.
  - destruct (roundHalfUp_bounds (- x)) as [H1 H2]. split; lra.
Qed.

Lemma toFixed6_micro (x : Q) : exists n : Z, Js.toFixed6 x == inject_Z n / 1000000.
Proof.
  unfold Js.toFixed6. destruct (Qle_bool 0 x).
  - exists (Js.roundHalfUp x). reflexivity.
  - exists (- Js.roundHalfUp (- x))%Z. rewrite inject_Z_opp, !div_micro. lra.
Qed.

Lemma toFixed6_rounds (x : Q) : roundedTo6 x (Js.toFixed6 x).
Proof. split; [apply toFixed6_micro | apply toFixed6_near]. Qed.


(** A tie goes to the larger magnitude: 0.0000005 becomes 0.000001. *)
Example toFixed6_tie : Js.toFixed6 (5 # 10000000) == 1 # 1000000.
Proof. vm_compute. reflexivity. Qed.

End Rounding.

(* ================================================================== *)
(** ** The registry *)
(* ================================================================== *)

Lemma getModelConfig_some (modelId : string) (config : ModelConfig) :
  getModelConfig modelId = Some config ->
  In config ALL_MODELS /\ id config = modelId.
Proof.
  unfold getModelConfig. intro H. apply find_some in H.
  destruct H as [Hin Heq]. apply String.eqb_eq in Heq. auto.
Qed.


(** The price table of pricing.ts and the registry of [@/lib/models] agree. *)
Lemma MODEL_PRICING_agrees (config : ModelConfig) :
  In config ALL_MODELS ->
  exists table, In (provider config, table) MODEL_PRICING
                /\ In (id config, pricing config) table.
Proof.
  intro H. unfold ALL_MODELS, OPENAI_MODELS, ANTHROPIC_MODELS in H. simpl in H.
  repeat (destruct H as [H | H];
          [subst config; eexists; split; simpl; [ eauto | simpl; eauto 10 ] | ]).
  contradiction.
Qed.

(** The tokenizer's reading of a registered id agrees with the registry. *)
Lemma registered_family (modelId : string) (config : ModelConfig) :
  getModelConfig modelId = Some config ->
  familyOf modelId = familyOfProvider (provider config).
Proof.
  intro H. apply getModelConfig_some in H. destruct H as [Hin Hid]. subst modelId.
  unfold ALL_MODELS, OPENAI_MODELS, ANTHROPIC_MODELS in Hin. simpl in Hin.
  repeat (destruct Hin as [Hin | Hin]; [subst config; reflexivity | ]).
  contradiction.
Qed.

(* ================================================================== *)
(** ** The accountant: [calculateCost], [calculateLiveCost] *)
(* ================================================================== *)

Lemma calculateLiveCost_eq (i o : Z) (modelId : string) :
  calculateLiveCost i o modelId =
  match getModelConfig modelId with
  | None => Js.Throw (Js.ErrorObj ("Unknown model for cost calculation: " ++ modelId))
  | Some config =>
      Js.Ok (Js.toFixed6 (exactCost i (pricing_input (pricing config))
                          + exactCost o (pricing_output (pricing config))))
  end.
Proof.
  unfold calculateLiveCost, calculateCost, exactCost. simpl.
  destruct (getModelConfig modelId); reflexivity.
Qed.



(** The rounded total is the rounding of the exact sum, not the sum of the
    rounded parts: at gpt-4o-mini, 5 input tokens cost 0.00000075 and 1 output
    token 0.0000006; each rounds to 0.000001, their sum to 0.000001. *)
Example total_is_rounded_sum_not_sum_of_rounded :
  exists c, calculateCost {| input := 5; output := 1; total := 6 |} "gpt-4o-mini" = Js.Ok c
            /\ (totalCost c == 1 # 1000000)%Q
            /\ (inputCost c + outputCost c == 2 # 1000000)%Q.
Proof.
  eexists. split; [reflexivity | ]. split; vm_compute; reflexivity.
Qed.



(* ================================================================== *)
(** ** The tokenizer: [countTokens] *)
(* ================================================================== *)

Lemma trimStartL_whitespace (l : list ascii) :
  forallb Js.isWhiteSpace l = true -> Js.trimStartL l = [].
Proof.
  induction l as [| c r IH]; simpl; [reflexivity | ].
  intro H. apply andb_true_iff in H. destruct H as [Hc Hr].
  rewrite Hc. apply IH. exact Hr.
Qed.

Lemma trim_whitespaceOnly (s : string) :
  whitespaceOnly s = true -> Js.trim s = "".
Proof.
  unfold whitespaceOnly, Js.trim, Js.trimL. intro H.
  rewrite (trimStartL_whitespace _ H). reflexivity.
Qed.

Lemma truthy_false (s : string) : Js.truthy s = false -> s = "".
Proof. destruct s; [reflexivity | discriminate]. Qed.

Lemma ceil_ratio_nonneg (n : Z) (c : Q) :
  0 <= n -> (0 < c)%Q -> 0 <= Js.ceil (inject_Z n / c).
Proof.
  intros Hn Hc. unfold Js.ceil. change 0 with (Qceiling 0).
  apply Qceiling_resp_le. apply Qle_shift_div_l; [exact Hc | ].
  rewrite Qmult_0_l. change 0%Q with (inject_Z 0). rewrite <- Zle_Qle. exact Hn.
Qed.

Lemma length_nonneg (s : string) : 0 <= Js.length s.
Proof. unfold Js.length. lia. Qed.

(** [countTokens] is the ceiling of the trimmed length over the family's
    characters-per-token constant, in every branch. *)
Lemma countTokens_formula (text modelId : string) :
  countTokens text modelId =
  Js.ceil (inject_Z (Js.length (Js.trim text)) / charsPerToken (familyOf modelId)).
Proof.
  unfold countTokens, familyOf.
  destruct (Js.truthy text) eqn:Et; simpl.
  - destruct (Js.startsWith modelId "gpt-" || Js.includes modelId "openai").
    + unfold countOpenAITokens.
      destruct (Js.truthy (Js.trim text)) eqn:E; simpl; [reflexivity | ].
      rewrite (truthy_false _ E). reflexivity.
    + destruct (Js.startsWith modelId "claude-" || Js.includes modelId "anthropic").
      * unfold countAnthropicTokens.
        destruct (Js.truthy (Js.trim text)) eqn:E; simpl; [reflexivity | ].
        rewrite (truthy_false _ E). reflexivity.
      * reflexivity.
  - rewrite (truthy_false _ Et).
    destruct (Js.startsWith modelId "gpt-" || Js.includes modelId "openai");
      [ | destruct (Js.startsWith modelId "claude-" || Js.includes modelId "anthropic")];
      reflexivity.
Qed.

(** C8.  [countTokens] is a total function into the integers; its value is
    never negative; it is 0 on empty and on whitespace-only text; it is the
    trimmed length divided by 4 (OpenAI family), by 3.8 (Anthropic family) or
    by the fallback 4 (any other model id), rounded up; registered models
    belong to the family of their provider. *)
Theorem countTokens_spec (text modelId : string) :
  0 <= countTokens text modelId
  /\ (whitespaceOnly text = true -> countTokens text modelId = 0)
  /\ (familyOf modelId = OpenAIFamily ->
      countTokens text modelId = Js.ceil (inject_Z (Js.length (Js.trim text)) / 4))
  /\ (familyOf modelId = AnthropicFamily ->
      countTokens text modelId = Js.ceil (inject_Z (Js.length (Js.trim text)) / (38 # 10)))
  /\ (familyOf modelId = UnknownFamily ->
      countTokens text modelId = Js.ceil (inject_Z (Js.length (Js.trim text)) / 4))
  /\ (forall config, getModelConfig modelId = Some config ->
      familyOf modelId = familyOfProvider (provider config)).
Proof.
  rewrite countTokens_formula. repeat split.
  - apply ceil_ratio_nonneg; [apply length_nonneg | ].
    destruct (familyOf modelId); reflexivity.
  - intro H. rewrite (trim_whitespaceOnly _ H).
    destruct (familyOf modelId); reflexivity.
  - intros ->. reflexivity.
  - intros ->. reflexivity.
  - intros ->. reflexivity.
  - apply registered_family.
Qed.

(** C8 at a whitespace-only text and at one model of each family. *)
Lemma countTokens_spec_witness :
  countTokens "   " "gpt-4o" = 0
  /\ countTokens "  Say hi " "gpt-4o" = Js.ceil (inject_Z (Js.length "Say hi") / 4)
  /\ countTokens "Say hi" "claude-3-opus-20240229"
     = Js.ceil (inject_Z (Js.length "Say hi") / (38 # 10))
  /\ countTokens "Say hi" "llama-3" = Js.ceil (inject_Z (Js.length "Say hi") / 4)
  /\ familyOf "gpt-4o" = OpenAIFamily.
Proof.
  split; [ | split; [ | split; [ | split]]].
  - apply (proj1 (proj2 (countTokens_spec "   " "gpt-4o"))). reflexivity.
  - apply (proj1 (proj2 (proj2 (countTokens_spec "  Say hi " "gpt-4o")))). reflexivity.
  - apply (proj1 (proj2 (proj2 (proj2 (countTokens_spec "Say hi" "claude-3-opus-20240229"))))).
    reflexivity.
  - apply (proj1 (proj2 (proj2 (proj2 (proj2 (countTokens_spec "Say hi" "llama-3")))))).
    reflexivity.
  - apply (proj2 (proj2 (proj2 (proj2 (proj2 (countTokens_spec "" "gpt-4o")))))
             (mkModel "gpt-4o" "GPT-4o" openai (5 # 1000) (15 # 1000) 128000)).
    reflexivity.
Defined.

Example countTokens_values :
  countTokens "Say hi" "gpt-4o-mini" = 2
  /\ countTokens "abcd" "claude-3-5-haiku-20241022" = 2
  /\ countTokens "abcd" "gpt-4o" = 1
  /\ countTokens "abcd" "mistral-large" = 1
  /\ countTokens "" "gpt-4o" = 0.
Proof. repeat split. Qed.

(* ================================================================== *)
(** ** The slot task *)
(* ================================================================== *)

Module SlotTask.

Import StreamEvent Route.
Local Open Scope list_scope.

Section OneSlot.

Variable a : TaskArgs.

(** Resuming a task once and then running what is left is running what was
    left before. *)
Lemma remaining_resume (t : Task) :
  remaining a t =
  (fst (remaining a (fst (resume a t))),
   snd (resume a t) ++ snd (remaining a (fst (resume a t)))).
Proof.
  destruct t as [[e | chunks ending] l | [| chunk rest] ending l | s]; simpl.
  - destruct (catchBlock a e l) as [s evs]. simpl. rewrite app_nil_r. reflexivity.
  - destruct (forAwait a chunks ending l). reflexivity.
  - destruct ending as [e | ].
    + destruct (catchBlock a e l) as [s evs]. simpl. rewrite app_nil_r. reflexivity.
    + destruct (onEnd a l) as [s evs]. simpl. rewrite app_nil_r. reflexivity.
  - destruct (onChunk a chunk l) as [l' [evs | e]].
    + simpl. destruct (forAwait a rest ending l'). reflexivity.
    + destruct (catchBlock a e l') as [s evs]. simpl. rewrite app_nil_r. reflexivity.
  - reflexivity.
Qed.

(** Every event of the task is tagged with the task's own key. *)
Local Abbreviation tagged := (taggedWith (modelKey a)).

Lemma catchBlock_tagged (e : Js.Thrown) (l : Locals) : tagged (snd (catchBlock a e l)).
Proof.
  unfold catchBlock. destruct (calculateLiveCost _ _ _); simpl; repeat constructor.
Qed.

Lemma onEnd_tagged (l : Locals) : tagged (snd (onEnd a l)).
Proof.
  unfold onEnd. destruct (calculateLiveCost _ _ _) eqn:E; simpl.
  - repeat constructor.
  - apply catchBlock_tagged.
Qed.

Lemma onChunk_tagged (chunk : Backend.Chunk) (l l' : Locals) (evs : list StreamEvent.t) :
  onChunk a chunk l = (l', Js.Ok evs) -> tagged evs.
Proof.
  unfold onChunk. destruct (Js.truthy _).
  - destruct (calculateLiveCost _ _ _); simpl; intro H; inversion H; subst.
    repeat constructor.
  - intro H. inversion H. constructor.
Qed.

Lemma forAwait_tagged (chunks : list Backend.Chunk) (ending : option Js.Thrown)
    (l : Locals) : tagged (snd (forAwait a chunks ending l)).
Proof.
  revert l. induction chunks as [| chunk rest IH]; intro l; simpl.
  - destruct ending; [apply catchBlock_tagged | apply onEnd_tagged].
  - destruct (onChunk a chunk l) as [l' [evs | e]] eqn:E.
    + specialize (IH l'). destruct (forAwait a rest ending l') as [s evs']. simpl in *.
      apply Forall_app. split; [eapply onChunk_tagged; eassumption | exact IH].
    + apply catchBlock_tagged.
Qed.

Lemma remaining_tagged (t : Task) : tagged (snd (remaining a t)).
Proof.
  destruct t as [[e | chunks ending] l | rest ending l | s]; simpl.
  - apply catchBlock_tagged.
  - apply forAwait_tagged.
  - apply forAwait_tagged.
  - constructor.
Qed.

Lemma resume_tagged (t : Task) : tagged (snd (resume a t)).
Proof.
  pose proof (remaining_tagged t) as H. rewrite remaining_resume in H. simpl in H.
  apply Forall_app in H. tauto.
Qed.

Lemma forSlot_own (evs : list StreamEvent.t) :
  tagged evs -> forSlot (modelKey a) evs = evs.
Proof.
  unfold forSlot. induction 1 as [| e evs He _ IH]; simpl; [reflexivity | ].
  rewrite He. destruct (modelKey a); simpl; rewrite IH; reflexivity.
Qed.

Lemma forSlot_other (k : Key) (evs : list StreamEvent.t) :
  tagged evs -> k <> modelKey a -> forSlot k evs = [].
Proof.
  unfold forSlot. intros H Hk. induction H as [| e evs He _ IH]; simpl; [reflexivity | ].
  rewrite He, IH. destruct (modelKey a), k; simpl; congruence.
Qed.

(** With a registered model the accountant never throws. *)
Hypothesis registered : getModelConfig (modelId a) <> None.

Lemma liveCost_ok (i o : Z) : exists c, calculateLiveCost i o (modelId a) = Js.Ok c.
Proof.
  rewrite calculateLiveCost_eq. destruct (getModelConfig (modelId a)).
  - eauto.
  - contradiction.
Qed.

Lemma catchBlock_ok (e : Js.Thrown) (l : Locals) :
  exists c,
    calculateLiveCost (inputTokens l) (outputTokens l) (modelId a) = Js.Ok c
    /\ catchBlock a e l =
       (rejected e,
        [mkEvent StreamEvent.error a "" (usageOf l) c true
           (Some (Js.messageOr e "Streaming-Fehler"))]).
Proof.
  destruct (liveCost_ok (inputTokens l) (outputTokens l)) as [c Hc].
  exists c. split; [exact Hc | ]. unfold catchBlock. rewrite Hc. reflexivity.
Qed.

Lemma onEnd_ok (l : Locals) :
  exists c,
    calculateLiveCost (inputTokens l) (outputTokens l) (modelId a) = Js.Ok c
    /\ onEnd a l =
       (fulfilled {| content := fullContent l; tokens := usageOf l; cost := c |},
        [mkEvent complete a "" (usageOf l) c true None]).
Proof.
  destruct (liveCost_ok (inputTokens l) (outputTokens l)) as [c Hc].
  exists c. split; [exact Hc | ]. unfold onEnd. rewrite Hc. reflexivity.
Qed.

(** The loop body on a chunk: nothing for an empty increment, one [token]
    event otherwise. *)
Lemma onChunk_ok (chunk : Backend.Chunk) (l : Locals) :
  (Js.truthy (deltaOf chunk) = false /\ onChunk a chunk l = (l, Js.Ok []))
  \/ (Js.truthy (deltaOf chunk) = true /\
      exists c,
        let l' := {| fullContent := (fullContent l ++ deltaOf chunk)%string;
                     tokenCount := tokenCount l + 1;
                     inputTokens := inputTokens l;
                     outputTokens := outputTokens l + 1 |} in
        calculateLiveCost (inputTokens l) (outputTokens l + 1) (modelId a) = Js.Ok c
        /\ onChunk a chunk l =
           (l', Js.Ok [mkEvent token a (deltaOf chunk) (usageOf l') c false None])).
Proof.
  unfold onChunk. fold (deltaOf chunk).
  destruct (Js.truthy (deltaOf chunk)) eqn:E.
  - right. split; [reflexivity | ].
    destruct (liveCost_ok (inputTokens l) (outputTokens l + 1)) as [c Hc].
    exists c. simpl. rewrite Hc. split; reflexivity.
  - left. split; reflexivity.
Qed.

Lemma tokens_then (evs rest : list StreamEvent.t) :
  forallb isToken evs = true ->
  tokensThenTerminal rest = true ->
  tokensThenTerminal (evs ++ rest) = true.
Proof.
  intros Hev Hrest. induction evs as [| e evs IH]; simpl; [exact Hrest | ].
  simpl in Hev. apply andb_true_iff in Hev. destruct Hev as [He Hevs].
  specialize (IH Hevs).
  destruct (evs ++ rest) eqn:E.
  - destruct evs; [simpl in E; subst rest; discriminate Hrest | discriminate E].
  - rewrite He, IH. reflexivity.
Qed.

(** The loop sends token events and then exactly one terminal event. *)
Lemma forAwait_shape (chunks : list Backend.Chunk) (ending : option Js.Thrown)
    (l : Locals) : tokensThenTerminal (snd (forAwait a chunks ending l)) = true.
Proof.
  revert l. induction chunks as [| chunk rest IH]; intro l; simpl.
  - destruct ending as [e | ].
    + destruct (catchBlock_ok e l) as [c [_ ->]]. reflexivity.
    + destruct (onEnd_ok l) as [c [_ ->]]. reflexivity.
  - destruct (onChunk_ok chunk l) as [[_ ->] | [_ [c [_ ->]]]];
      match goal with
      | |- context [forAwait a rest ending ?l'] =>
          specialize (IH l'); destruct (forAwait a rest ending l') as [s evs']
      end; simpl in *.
    + exact IH.
    + destruct evs'; [discriminate IH | exact IH].
Qed.

Lemma alone_shape (b : Backend.Behaviour) :
  tokensThenTerminal (snd (streamModelAlone a b)) = true.
Proof.
  destruct b as [e | chunks ending]; simpl.
  - unfold streamModelAlone. simpl.
    destruct (catchBlock_ok e initialLocals) as [c [_ ->]]. reflexivity.
  - apply forAwait_shape.
Qed.

(** How the loop settles: fulfilled exactly when the backend ends without an
    error. *)
Lemma forAwait_outcome (chunks : list Backend.Chunk) (ending : option Js.Thrown)
    (l : Locals) :
  match ending with
  | None => exists v, fst (forAwait a chunks ending l) = fulfilled v
  | Some e => fst (forAwait a chunks ending l) = rejected e
  end.
Proof.
  revert l. induction chunks as [| chunk rest IH]; intro l; simpl.
  - destruct ending as [e | ].
    + destruct (catchBlock_ok e l) as [c [_ ->]]. reflexivity.
    + destruct (onEnd_ok l) as [c [_ ->]]. simpl. eauto.
  - destruct (onChunk_ok chunk l) as [[_ ->] | [_ [c [_ ->]]]];
      match goal with
      | |- context [forAwait a rest ending ?l'] =>
          specialize (IH l'); destruct (forAwait a rest ending l') as [s evs']
      end; simpl in *; exact IH.
Qed.

Lemma alone_outcome (b : Backend.Behaviour) :
  if completesNormally b
  then exists v, fst (streamModelAlone a b) = fulfilled v
  else exists e, fst (streamModelAlone a b) = rejected e.
Proof.
  destruct b as [e | chunks [e | ]]; simpl; unfold streamModelAlone; simpl.
  - destruct (catchBlock_ok e initialLocals) as [c [_ ->]]. simpl. eauto.
  - pose proof (forAwait_outcome chunks (Some e) initialLocals) as H. simpl in H. eauto.
  - exact (forAwait_outcome chunks None initialLocals).
Qed.

End OneSlot.

End SlotTask.

(* ================================================================== *)
(** ** Two slot tasks under the event loop *)
(* ================================================================== *)

Module Orchestrator.

Import Route StreamEvent.
Local Open Scope list_scope.

Lemma forSlot_app (k : Key) (xs ys : list StreamEvent.t) :
  forSlot k (xs ++ ys) = forSlot k xs ++ forSlot k ys.
Proof. unfold forSlot. apply filter_app. Qed.

Lemma eventsOf_app (xs ys : list Effect) :
  eventsOf (xs ++ ys) = eventsOf xs ++ eventsOf ys.
Proof. unfold eventsOf. apply flat_map_app. Qed.

Lemma eventsOf_Send (evs : list StreamEvent.t) : eventsOf (map Send evs) = evs.
Proof.
  unfold eventsOf. induction evs as [| e evs IH]; simpl; [reflexivity | ].
  rewrite IH. reflexivity.
Qed.

Lemma creates_app (xs ys : list Effect) :
  creates (xs ++ ys) = creates xs ++ creates ys.
Proof. unfold creates. apply flat_map_app. Qed.

Lemma creates_Send (evs : list StreamEvent.t) : creates (map Send evs) = [].
Proof.
  unfold creates. induction evs as [| e evs IH]; simpl; [reflexivity | exact IH].
Qed.

Section TwoSlots.

Variables a1 a2 : TaskArgs.
Hypothesis key1 : modelKey a1 = model1.
Hypothesis key2 : modelKey a2 = model2.

(** What a run will have produced in the end, seen from a state on the way:
    the outcome of each task and the events of each slot. *)
Lemma own1 (evs : list StreamEvent.t) :
  taggedWith (modelKey a1) evs -> forSlot model1 evs = evs /\ forSlot model2 evs = [].
Proof.
  intro Ht. split.
  - rewrite <- key1. apply SlotTask.forSlot_own. exact Ht.
  - apply (SlotTask.forSlot_other a1); [exact Ht | rewrite key1; discriminate].
Qed.

Lemma own2 (evs : list StreamEvent.t) :
  taggedWith (modelKey a2) evs -> forSlot model2 evs = evs /\ forSlot model1 evs = [].
Proof.
  intro Ht. split.
  - rewrite <- key2. apply SlotTask.forSlot_own. exact Ht.
  - apply (SlotTask.forSlot_other a2); [exact Ht | rewrite key2; discriminate].
Qed.

Lemma stepSlot_preserves (k : Key) (r : Running) :
  fst (remaining a1 (task1 (stepSlot a1 a2 k r))) = fst (remaining a1 (task1 r))
  /\ fst (remaining a2 (task2 (stepSlot a1 a2 k r))) = fst (remaining a2 (task2 r))
  /\ forSlot model1 (sent (stepSlot a1 a2 k r))
       ++ snd (remaining a1 (task1 (stepSlot a1 a2 k r)))
     = forSlot model1 (sent r) ++ snd (remaining a1 (task1 r))
  /\ forSlot model2 (sent (stepSlot a1 a2 k r))
       ++ snd (remaining a2 (task2 (stepSlot a1 a2 k r)))
     = forSlot model2 (sent r) ++ snd (remaining a2 (task2 r)).
Proof.
  destruct k; simpl.
  - rewrite (SlotTask.remaining_resume a1 (task1 r)).
    destruct (own1 _ (SlotTask.resume_tagged a1 (task1 r))) as [E1 E2].
    destruct (resume a1 (task1 r)) as [t evs]. simpl in *.
    rewrite !forSlot_app, E1, E2, app_nil_r, <- app_assoc. auto.
  - rewrite (SlotTask.remaining_resume a2 (task2 r)).
    destruct (own2 _ (SlotTask.resume_tagged a2 (task2 r))) as [E1 E2].
    destruct (resume a2 (task2 r)) as [t evs]. simpl in *.
    rewrite !forSlot_app, E1, E2, app_nil_r, <- app_assoc. auto.
  - auto.
Qed.

Lemma runSchedule_preserves (schedule : list Key) (r : Running) :
  fst (remaining a1 (task1 (runSchedule a1 a2 schedule r))) = fst (remaining a1 (task1 r))
  /\ fst (remaining a2 (task2 (runSchedule a1 a2 schedule r))) = fst (remaining a2 (task2 r))
  /\ forSlot model1 (sent (runSchedule a1 a2 schedule r))
       ++ snd (remaining a1 (task1 (runSchedule a1 a2 schedule r)))
     = forSlot model1 (sent r) ++ snd (remaining a1 (task1 r))
  /\ forSlot model2 (sent (runSchedule a1 a2 schedule r))
       ++ snd (remaining a2 (task2 (runSchedule a1 a2 schedule r)))
     = forSlot model2 (sent r) ++ snd (remaining a2 (task2 r)).
Proof.
  revert r. induction schedule as [| k rest IH]; intro r; simpl.
  - auto.
  - destruct (IH (stepSlot a1 a2 k r)) as (H1 & H2 & H3 & H4).
    destruct (stepSlot_preserves k r) as (G1 & G2 & G3 & G4).
    rewrite H1, H2, H3, H4. auto.
Qed.

(** Whatever the schedule, [allSettled] resolves with the outcome each task
    has when run alone, and each slot's events are those of its task alone,
    in their order. *)
Lemma allSettled_slots (schedule : list Key) (r : Running)
    (s1 s2 : Settled) (evs : list StreamEvent.t) :
  allSettled a1 a2 schedule r = (s1, s2, evs) ->
  s1 = fst (remaining a1 (task1 r))
  /\ s2 = fst (remaining a2 (task2 r))
  /\ forSlot model1 evs = forSlot model1 (sent r) ++ snd (remaining a1 (task1 r))
  /\ forSlot model2 evs = forSlot model2 (sent r) ++ snd (remaining a2 (task2 r)).
Proof.
  unfold allSettled. intro H.
  destruct (runSchedule_preserves schedule r) as (H1 & H2 & H3 & H4).
  set (r' := runSchedule a1 a2 schedule r) in *.
  destruct (own1 _ (SlotTask.remaining_tagged a1 (task1 r'))) as [E1 E2].
  destruct (own2 _ (SlotTask.remaining_tagged a2 (task2 r'))) as [F1 F2].
  destruct (remaining a1 (task1 r')) as [s1' evs1].
  destruct (remaining a2 (task2 r')) as [s2' evs2].
  simpl in *. inversion H; subst; clear H.
  rewrite !forSlot_app, E1, E2, F1, F2, app_nil_r. simpl. auto.
Qed.

End TwoSlots.

(** Only the two slot keys ever appear. *)
Lemma allSettled_keys (a1 a2 : TaskArgs) (schedule : list Key) (r : Running)
    (P : StreamEvent.t -> Prop) :
  (forall t, Forall P (snd (resume a1 t))) ->
  (forall t, Forall P (snd (resume a2 t))) ->
  (forall t, Forall P (snd (remaining a1 t))) ->
  (forall t, Forall P (snd (remaining a2 t))) ->
  Forall P (sent r) ->
  Forall P (snd (allSettled a1 a2 schedule r)).
Proof.
  intros R1 R2 M1 M2. unfold allSettled.
  assert (Run : forall r0, Forall P (sent r0) ->
                           Forall P (sent (runSchedule a1 a2 schedule r0))).
  { induction schedule as [| k rest IH]; intros r0 H0; simpl; [exact H0 | ].
    apply IH. destruct k; simpl.
    - specialize (R1 (task1 r0)). destruct (resume a1 (task1 r0)). simpl in *.
      apply Forall_app. auto.
    - specialize (R2 (task2 r0)). destruct (resume a2 (task2 r0)). simpl in *.
      apply Forall_app. auto.
    - exact H0. }
  intro H. specialize (Run r H).
  set (r' := runSchedule a1 a2 schedule r) in *.
  specialize (M1 (task1 r')). specialize (M2 (task2 r')).
  destruct (remaining a1 (task1 r')). destruct (remaining a2 (task2 r')).
  simpl in *. rewrite !Forall_app. auto.
Qed.

(** *** Schedules and interleavings *)

Lemma Merge_all_left {A : Type} (xs : list A) : Merge xs [] xs.
Proof. induction xs; constructor; assumption. Qed.

Lemma Merge_all_right {A : Type} (ys : list A) : Merge [] ys ys.
Proof. induction ys; constructor; assumption. Qed.

Lemma Merge_app {A : Type} (xs ys : list A) : Merge xs ys (xs ++ ys).
Proof.
  induction xs as [| x xs IH]; simpl; [apply Merge_all_right | ].
  constructor. exact IH.
Qed.

Lemma Merge_prefix_left {A : Type} (p xs ys zs : list A) :
  Merge xs ys zs -> Merge (p ++ xs) ys (p ++ zs).
Proof. intro H. induction p; simpl; [exact H | constructor; assumption]. Qed.

Lemma Merge_prefix_right {A : Type} (p xs ys zs : list A) :
  Merge xs ys zs -> Merge xs (p ++ ys) (p ++ zs).
Proof. intro H. induction p; simpl; [exact H | constructor; assumption]. Qed.

(** Whatever the schedule, what [allSettled] adds to the events already sent
    is an interleaving of what the two tasks still had to send. *)
Lemma allSettled_merges (a1 a2 : TaskArgs) (schedule : list Key) (r : Running) :
  exists body,
    snd (allSettled a1 a2 schedule r) = sent r ++ body
    /\ Merge (snd (remaining a1 (task1 r))) (snd (remaining a2 (task2 r))) body.
Proof.
  unfold allSettled.
  revert r. induction schedule as [| k rest IH]; intro r; simpl.
  - destruct (remaining a1 (task1 r)) as [s1 evs1].
    destruct (remaining a2 (task2 r)) as [s2 evs2]. simpl.
    exists (evs1 ++ evs2). split; [reflexivity | apply Merge_app].
  - destruct (IH (stepSlot a1 a2 k r)) as (body & E & M). rewrite E. clear E IH.
    destruct k; simpl in *.
    + rewrite (SlotTask.remaining_resume a1 (task1 r)).
      destruct (resume a1 (task1 r)) as [t evs]. simpl in *.
      exists (evs ++ body). rewrite app_assoc. split; [reflexivity | ].
      apply Merge_prefix_left. exact M.
    + rewrite (SlotTask.remaining_resume a2 (task2 r)).
      destruct (resume a2 (task2 r)) as [t evs]. simpl in *.
      exists (evs ++ body). rewrite app_assoc. split; [reflexivity | ].
      apply Merge_prefix_right. exact M.
    + exists body. auto.
Qed.

Lemma runSchedule_app (a1 a2 : TaskArgs) (s s' : list Key) (r : Running) :
  runSchedule a1 a2 (s ++ s') r = runSchedule a1 a2 s' (runSchedule a1 a2 s r).
Proof. revert r. induction s as [| k s IH]; intro r; simpl; [reflexivity | apply IH]. Qed.

Lemma runSchedule_repeat1 (a1 a2 : TaskArgs) (n : nat) (r : Running) :
  runSchedule a1 a2 (repeat model1 n) r
  = {| task1 := fst (resumeTimes a1 n (task1 r));
       task2 := task2 r;
       sent := sent r ++ snd (resumeTimes a1 n (task1 r)) |}.
Proof.
  revert r. induction n as [| n IH]; intro r; simpl.
  - rewrite app_nil_r. destruct r; reflexivity.
  - rewrite IH. simpl.
    destruct (resume a1 (task1 r)) as [t evs]. simpl.
    destruct (resumeTimes a1 n t) as [t' evs']. simpl.
    rewrite app_assoc. reflexivity.
Qed.

Lemma runSchedule_repeat2 (a1 a2 : TaskArgs) (n : nat) (r : Running) :
  runSchedule a1 a2 (repeat model2 n) r
  = {| task1 := task1 r;
       task2 := fst (resumeTimes a2 n (task2 r));
       sent := sent r ++ snd (resumeTimes a2 n (task2 r)) |}.
Proof.
  revert r. induction n as [| n IH]; intro r; simpl.
  - rewrite app_nil_r. destruct r; reflexivity.
  - rewrite IH. simpl.
    destruct (resume a2 (task2 r)) as [t evs]. simpl.
    destruct (resumeTimes a2 n t) as [t' evs']. simpl.
    rewrite app_assoc. reflexivity.
Qed.

(** Between two [await]s a task sends at most one event. *)
Lemma catchBlock_at_most_one (a : TaskArgs) (e : Js.Thrown) (l : Locals) :
  (List.length (snd (catchBlock a e l)) <= 1)%nat.
Proof.
  unfold catchBlock. destruct (calculateLiveCost _ _ _); simpl; lia.
Qed.

Lemma onEnd_at_most_one (a : TaskArgs) (l : Locals) :
  (List.length (snd (onEnd a l)) <= 1)%nat.
Proof.
  unfold onEnd. destruct (calculateLiveCost _ _ _) eqn:E; simpl; [lia | ].
  apply catchBlock_at_most_one.
Qed.

Lemma onChunk_at_most_one (a : TaskArgs) (chunk : Backend.Chunk) (l l' : Locals)
    (evs : list StreamEvent.t) :
  onChunk a chunk l = (l', Js.Ok evs) -> (List.length evs <= 1)%nat.
Proof.
  unfold onChunk. destruct (Js.truthy _).
  - destruct (calculateLiveCost _ _ _); simpl; intro H; inversion H; simpl; lia.
  - intro H; inversion H; simpl; lia.
Qed.

(** A task that still has an event to send sends it, alone, after finitely
    many resumptions. *)
Lemma next_event_of_loop (a : TaskArgs) (rest : list Backend.Chunk)
    (ending : option Js.Thrown) (l : Locals) (x : StreamEvent.t)
    (xs : list StreamEvent.t) :
  snd (forAwait a rest ending l) = x :: xs ->
  exists n,
    snd (resumeTimes a n (AwaitingChunk rest ending l)) = [x]
    /\ snd (remaining a (fst (resumeTimes a n (AwaitingChunk rest ending l)))) = xs.
Proof.
  revert l. induction rest as [| chunk rest IH]; intros l H.
  - exists 1%nat. simpl in *.
    destruct ending as [e | ].
    + pose proof (catchBlock_at_most_one a e l) as L.
      destruct (catchBlock a e l) as [s evs]. simpl in *. subst evs.
      destruct xs; [auto | simpl in L; lia].
    + pose proof (onEnd_at_most_one a l) as L.
      destruct (onEnd a l) as [s evs]. simpl in *. subst evs.
      destruct xs; [auto | simpl in L; lia].
  - simpl in H.
    destruct (onChunk a chunk l) as [l' [evs | e]] eqn:E.
    + pose proof (onChunk_at_most_one a chunk l l' evs E) as L.
      destruct evs as [| ev evs].
      * destruct (forAwait a rest ending l') as [s evs'] eqn:F. simpl in H.
        destruct (IH l') as (n & N1 & N2); [rewrite F; exact H | ].
        exists (S n). simpl. rewrite E.
        destruct (resumeTimes a n (AwaitingChunk rest ending l')) as [t'' evs''].
        simpl in *. auto.
      * destruct evs; [ | simpl in L; lia].
        destruct (forAwait a rest ending l') as [s evs'] eqn:F. simpl in H.
        inversion H; subst. exists 1%nat. simpl. rewrite E. simpl.
        rewrite F. auto.
    + pose proof (catchBlock_at_most_one a e l') as L.
      exists 1%nat. simpl. rewrite E.
      destruct (catchBlock a e l') as [s evs]. simpl in *. subst evs.
      destruct xs; [auto | simpl in L; lia].
Qed.

Lemma next_event (a : TaskArgs) (t : Task) (x : StreamEvent.t)
    (xs : list StreamEvent.t) :
  snd (remaining a t) = x :: xs ->
  exists n,
    snd (resumeTimes a n t) = [x]
    /\ snd (remaining a (fst (resumeTimes a n t))) = xs.
Proof.
  destruct t as [[e | chunks ending] l | rest ending l | s]; simpl; intro H.
  - pose proof (catchBlock_at_most_one a e l) as L.
    exists 1%nat. simpl.
    destruct (catchBlock a e l) as [s evs]. simpl in *. subst evs.
    destruct xs; [auto | simpl in L; lia].
  - destruct (next_event_of_loop a chunks ending l x xs H) as (n & N1 & N2).
    exists (S n). simpl.
    destruct (resumeTimes a n (AwaitingChunk chunks ending l)) as [t'' evs''].
    simpl in *. auto.
  - apply next_event_of_loop. exact H.
  - discriminate H.
Qed.

(** Every interleaving of the two tasks' events is the outcome of some
    schedule. *)
Lemma every_merge_is_scheduled (a1 a2 : TaskArgs) (xs ys body : list StreamEvent.t) :
  Merge xs ys body ->
  forall r,
    snd (remaining a1 (task1 r)) = xs ->
    snd (remaining a2 (task2 r)) = ys ->
    exists schedule, snd (allSettled a1 a2 schedule r) = sent r ++ body.
Proof.
  induction 1 as [| x xs ys zs M IH | y xs ys zs M IH]; intros r H1 H2.
  - exists []. unfold allSettled. simpl.
    destruct (remaining a1 (task1 r)). destruct (remaining a2 (task2 r)).
    simpl in *. subst. reflexivity.
  - destruct (next_event a1 (task1 r) x xs H1) as (n & N1 & N2).
    destruct (IH (runSchedule a1 a2 (repeat model1 n) r)) as [schedule E].
    + rewrite runSchedule_repeat1. simpl. exact N2.
    + rewrite runSchedule_repeat1. simpl. exact H2.
    + exists (repeat model1 n ++ schedule).
      unfold allSettled in *. rewrite runSchedule_app.
      rewrite E, runSchedule_repeat1. simpl. rewrite N1, <- app_assoc. reflexivity.
  - destruct (next_event a2 (task2 r) y ys H2) as (n & N1 & N2).
    destruct (IH (runSchedule a1 a2 (repeat model2 n) r)) as [schedule E].
    + rewrite runSchedule_repeat2. simpl. exact H1.
    + rewrite runSchedule_repeat2. simpl. exact N2.
    + exists (repeat model2 n ++ schedule).
      unfold allSettled in *. rewrite runSchedule_app.
      rewrite E, runSchedule_repeat2. simpl. rewrite N1, <- app_assoc. reflexivity.
Qed.

(** *** The handler *)

Lemma GET_accepted (env : ProcessEnv) (b1 b2 : Backend.Behaviour)
    (schedule : list Key) (request : Request) (effects : list Effect) :
  GET env b1 b2 schedule request = EventStream effects ->
  exists sid m1 m2 p,
    session request = Some sid /\ Route.model1 request = Some m1
    /\ Route.model2 request = Some m2 /\ prompt request = Some p
    /\ getModelConfig m1 <> None /\ getModelConfig m2 <> None
    /\ effects = startStream env b1 b2 schedule sid m1 m2 p.
Proof.
  unfold GET. intro H.
  destruct (session request) as [sid | ]; [ | discriminate].
  destruct (Route.model1 request) as [m1 | ]; [ | discriminate].
  destruct (Route.model2 request) as [m2 | ]; [ | discriminate].
  destruct (prompt request) as [p | ]; [ | discriminate].
  destruct (_ || _); [discriminate | ].
  destruct (getModelConfig m1) eqn:E1; [ | discriminate].
  destruct (getModelConfig m2) eqn:E2; [ | discriminate].
  inversion H. exists sid, m1, m2, p. repeat split; congruence.
Qed.


Lemma startStream_ready (env : ProcessEnv) (b1 b2 : Backend.Behaviour)
    (schedule : list Key) (sid m1 m2 p : string) :
  Js.isOk (createModelInstance env m1) && Js.isOk (createModelInstance env m2) = true ->
  exists evs,
    startStream env b1 b2 schedule sid m1 m2 p
    = map Send evs
      ++ saveStreamResults p m1 m2
           (fst (streamModelAlone (slotArgs sid m1 model1) b1))
           (fst (streamModelAlone (slotArgs sid m2 model2) b2))
      ++ [Close]
    /\ forSlot model1 evs = aloneTrace sid m1 model1 b1
    /\ forSlot model2 evs = aloneTrace sid m2 model2 b2
    /\ Forall (fun e => model e = model1 \/ model e = model2) evs.
Proof.
  intro H. apply andb_true_iff in H. destruct H as [H1 H2].
  unfold startStream.
  destruct (createModelInstance env m1); [ | discriminate].
  destruct (createModelInstance env m2); [ | discriminate].
  simpl.
  set (a1 := {| modelId := m1; modelKey := model1; sessionId := sid |}).
  set (a2 := {| modelId := m2; modelKey := model2; sessionId := sid |}).
  set (r := {| task1 := streamModel b1; task2 := streamModel b2;
               sent := [startEvent sid m1 model1; startEvent sid m2 model2] |}).
  pose proof (allSettled_slots a1 a2 eq_refl eq_refl schedule r) as Slots.
  assert (Keys : Forall (fun e => model e = model1 \/ model e = model2)
                   (snd (allSettled a1 a2 schedule r))).
  { apply allSettled_keys.
    - intro t. eapply Forall_impl; [ | apply (SlotTask.resume_tagged a1 t)]. simpl. auto.
    - intro t. eapply Forall_impl; [ | apply (SlotTask.resume_tagged a2 t)]. simpl. auto.
    - intro t. eapply Forall_impl; [ | apply (SlotTask.remaining_tagged a1 t)]. simpl. auto.
    - intro t. eapply Forall_impl; [ | apply (SlotTask.remaining_tagged a2 t)]. simpl. auto.
    - constructor; [left; reflexivity | ].
      constructor; [right; reflexivity | constructor]. }
  destruct (allSettled a1 a2 schedule r) as [[s1 s2] evs].
  destruct (Slots s1 s2 evs eq_refl) as (-> & -> & E1 & E2).
  exists evs. repeat split; assumption.
Qed.

Lemma startStream_not_ready (env : ProcessEnv) (b1 b2 : Backend.Behaviour)
    (schedule : list Key) (sid m1 m2 p : string) :
  Js.isOk (createModelInstance env m1) && Js.isOk (createModelInstance env m2) = false ->
  exists thrown,
    startStream env b1 b2 schedule sid m1 m2 p
    = [Send (mkEvent StreamEvent.error (slotArgs sid m1 model1) ""
               {| input := 0; output := 0; total := 0 |} 0 true
               (Some (Js.messageOr thrown "Unbekannter Fehler")));
       Close].
Proof.
  intro H. unfold startStream.
  destruct (createModelInstance env m1) as [i1 | e1]; simpl.
  - destruct (createModelInstance env m2) as [i2 | e2]; simpl.
    + discriminate.
    + eauto.
  - eauto.
Qed.

Lemma terminal_in_shape (evs : list StreamEvent.t) :
  tokensThenTerminal evs = true -> existsb isTerminal evs = true.
Proof.
  induction evs as [| e rest IH]; simpl; [discriminate | ].
  destruct rest as [| e' rest'].
  - intros ->. reflexivity.
  - intro H. apply andb_true_iff in H. destruct H as [_ H].
    rewrite (IH H). apply orb_true_r.
Qed.

Lemma aloneTrace_wellFormed (sid m : string) (k : Key) (b : Backend.Behaviour) :
  getModelConfig m <> None ->
  wellFormedSlot (aloneTrace sid m k b) = true
  /\ existsb isTerminal (aloneTrace sid m k b) = true.
Proof.
  intro Hreg. unfold aloneTrace, wellFormedSlot.
  pose proof (SlotTask.alone_shape (slotArgs sid m k) Hreg b) as H.
  split.
  - simpl. exact H.
  - simpl. apply terminal_in_shape. exact H.
Qed.


Lemma applyEffects_Send (newId : string) (now : Z) (evs : list StreamEvent.t)
    (rest : list Effect) (db : Prisma.Database) :
  applyEffects newId now (map Send evs ++ rest) db = applyEffects newId now rest db.
Proof. induction evs as [| e evs IH]; simpl; [reflexivity | exact IH]. Qed.

(** An accepted request either gets both tasks run to their end, one
    [create] and the closing of the stream, or, when a model instance cannot
    be constructed, a single error event tagged [model1] and the closing. *)
Lemma GET_cases (env : ProcessEnv) (b1 b2 : Backend.Behaviour)
    (schedule : list Key) (request : Request) (effects : list Effect) :
  GET env b1 b2 schedule request = EventStream effects ->
  exists sid m1 m2 p,
    session request = Some sid /\ Route.model1 request = Some m1
    /\ Route.model2 request = Some m2 /\ prompt request = Some p
    /\ getModelConfig m1 <> None /\ getModelConfig m2 <> None
    /\ ((backendsReady env request = true
         /\ exists evs,
             effects = map Send evs
                       ++ saveStreamResults p m1 m2
                            (fst (streamModelAlone (slotArgs sid m1 model1) b1))
                            (fst (streamModelAlone (slotArgs sid m2 model2) b2))
                       ++ [Close]
             /\ forSlot model1 evs = aloneTrace sid m1 model1 b1
             /\ forSlot model2 evs = aloneTrace sid m2 model2 b2
             /\ Forall (fun e => model e = model1 \/ model e = model2) evs)
        \/ (backendsReady env request = false
            /\ exists thrown,
                effects =
                [Send (mkEvent StreamEvent.error (slotArgs sid m1 model1) ""
                         {| input := 0; output := 0; total := 0 |} 0 true
                         (Some (Js.messageOr thrown "Unbekannter Fehler")));
                 Close])).
Proof.
  intro H. destruct (GET_accepted _ _ _ _ _ _ H)
    as (sid & m1 & m2 & p & Hs & H1 & H2 & Hp & R1 & R2 & ->).
  exists sid, m1, m2, p. repeat (split; [assumption | ]).
  unfold backendsReady. rewrite H1, H2.
  destruct (Js.isOk (createModelInstance env m1) && Js.isOk (createModelInstance env m2)) eqn:E.
  - left. split; [reflexivity | ]. apply startStream_ready. exact E.
  - right. split; [reflexivity | ]. apply startStream_not_ready. exact E.
Qed.

(* ------------------------------------------------------------------ *)
(** *** C1: one history record, after both slots are done *)
(* ------------------------------------------------------------------ *)



(* ------------------------------------------------------------------ *)
(** *** C2: one slot fails, the other completes *)
(* ------------------------------------------------------------------ *)

(** C2.  When both tasks were started and exactly one backend raises an
    error, then for every interleaving: each slot's events are those of its
    task run alone, so the failing slot changes nothing for the other; both
    slots get their terminal event; the handler creates one record, whose
    response and cost are those of the completed slot and [null] for the
    failed slot, and then closes the stream. *)
Theorem partial_failure_isolated (env : ProcessEnv) (b1 b2 : Backend.Behaviour)
    (schedule : list Key) (request : Request) (effects : list Effect) :
  GET env b1 b2 schedule request = EventStream effects ->
  backendsReady env request = true ->
  completesNormally b1 = negb (completesNormally b2) ->
  exists sid m1 m2 p d body,
    session request = Some sid /\ Route.model1 request = Some m1
    /\ Route.model2 request = Some m2 /\ prompt request = Some p
    /\ forSlot model1 (eventsOf effects) = aloneTrace sid m1 model1 b1
    /\ forSlot model2 (eventsOf effects) = aloneTrace sid m2 model2 b2
    /\ bothSlotsTerminated effects
    /\ effects = body ++ [DbCreate d; Close] /\ creates body = []
    /\ (if completesNormally b1
        then (exists v,
                fst (streamModelAlone (slotArgs sid m1 model1) b1) = fulfilled v
                /\ Prisma.response1 d = Some (content v)
                /\ Prisma.cost1 d = Some (cost v))
             /\ Prisma.response2 d = None /\ Prisma.cost2 d = None
        else (exists v,
                fst (streamModelAlone (slotArgs sid m2 model2) b2) = fulfilled v
                /\ Prisma.response2 d = Some (content v)
                /\ Prisma.cost2 d = Some (cost v))
             /\ Prisma.response1 d = None /\ Prisma.cost1 d = None).
Proof.
  intros H Ready Hone.
  destruct (GET_cases _ _ _ _ _ _ H)
    as (sid & m1 & m2 & p & Hs & H1 & H2 & Hp & R1 & R2 & Cases).
  destruct Cases as [[_ (evs & -> & E1 & E2 & _)] | [NotReady _]]; [ | congruence].
  unfold saveStreamResults. simpl app.
  match goal with
  | |- context [DbCreate ?d0 :: [Close]] => exists sid, m1, m2, p, d0, (map Send evs)
  end.
  repeat (split; [assumption | ]).
  rewrite eventsOf_app, eventsOf_Send. simpl. rewrite app_nil_r.
  split; [exact E1 | ]. split; [exact E2 | ].
  split.
  { unfold bothSlotsTerminated, hasTerminal.
    rewrite eventsOf_app, eventsOf_Send. simpl. rewrite app_nil_r, E1, E2.
    destruct (aloneTrace_wellFormed sid m1 model1 b1 R1) as [_ T1].
    destruct (aloneTrace_wellFormed sid m2 model2 b2 R2) as [_ T2]. auto. }
  split; [reflexivity | ]. split; [apply creates_Send | ].
  pose proof (SlotTask.alone_outcome (slotArgs sid m1 model1) R1 b1) as O1.
  pose proof (SlotTask.alone_outcome (slotArgs sid m2 model2) R2 b2) as O2.
  destruct (completesNormally b1); destruct (completesNormally b2);
    try discriminate Hone; simpl.
  - destruct O1 as [v ->]. destruct O2 as [e ->]. simpl. eauto 6.
  - destruct O1 as [e ->]. destruct O2 as [v ->]. simpl. eauto 6.
Qed.

(** C2 at the scenario of the specification: slot 1 streams "Hello" in two
    chunks, the backend of slot 2 fails before its first chunk. *)
Lemma partial_failure_isolated_witness :
  exists d body,
    GET bothKeys (Backend.Yields [chunkOf "Hel"; chunkOf "lo"] None)
      (Backend.FailsToStart (Js.ErrorObj "503")) [model2; model1] sayHi
    = EventStream (body ++ [DbCreate d; Close])
    /\ Prisma.response1 d = Some "Hello" /\ Prisma.cost1 d <> None
    /\ Prisma.response2 d = None /\ Prisma.cost2 d = None.
Proof.
  destruct (partial_failure_isolated bothKeys
              (Backend.Yields [chunkOf "Hel"; chunkOf "lo"] None)
              (Backend.FailsToStart (Js.ErrorObj "503")) [model2; model1] sayHi _
              eq_refl eq_refl eq_refl)
    as (sid & m1 & m2 & p & d & body & Hs & H1 & H2 & Hp & _ & _ & _ & E & _ & Out).
  exists d, body. simpl in Out.
  destruct Out as ((v & Hv & R1 & C1) & R2 & C2).
  inversion H1; subst m1. inversion Hs; subst sid.
  split; [rewrite <- E; reflexivity | ].
  split; [rewrite R1; inversion Hv; reflexivity | ].
  split; [rewrite C1; discriminate | ].
  split; assumption.
Defined.

(* ------------------------------------------------------------------ *)
(** *** C3: the events of one slot *)
(* ------------------------------------------------------------------ *)

(** C3 as stated fails: without the OpenAI key the request "Say hi" is
    accepted and slot [model1] gets an error event with no start before it. *)
Lemma slot_traces_ill_formed_without_key :
  ~ (forall env b1 b2 schedule request effects,
       GET env b1 b2 schedule request = EventStream effects ->
       slotTracesWellFormed effects).
Proof.
  intro H.
  destruct (H noOpenAIKey (Backend.Yields [chunkOf "Hi"] None)
              (Backend.Yields [chunkOf "Hello"] None) [] sayHi _ eq_refl) as [H1 _].
  vm_compute in H1. discriminate H1.
Qed.

(** C3, amended.  For every accepted request whose two model instances can
    be constructed, and every interleaving, the events of either slot are
    exactly one [start], then zero or more [token], then exactly one terminal
    event, and nothing after it.  When an instance cannot be constructed no
    [start] and no [token] event is sent. *)
Theorem slot_traces_well_formed (env : ProcessEnv) (b1 b2 : Backend.Behaviour)
    (schedule : list Key) (request : Request) (effects : list Effect) :
  GET env b1 b2 schedule request = EventStream effects ->
  (backendsReady env request = true -> slotTracesWellFormed effects)
  /\ (backendsReady env request = false ->
      forallb (fun e => negb (isStart e) && negb (isToken e)) (eventsOf effects) = true).
Proof.
  intro H.
  destruct (GET_cases _ _ _ _ _ _ H)
    as (sid & m1 & m2 & p & Hs & H1 & H2 & Hp & R1 & R2 & Cases).
  destruct Cases as [[Ready (evs & -> & E1 & E2 & _)] | [NotReady (thrown & ->)]].
  - split; [ | congruence]. intros _.
    unfold slotTracesWellFormed, saveStreamResults.
    rewrite eventsOf_app, eventsOf_Send. simpl. rewrite app_nil_r, E1, E2.
    split; apply aloneTrace_wellFormed; assumption.
  - split; [congruence | ]. intros _. reflexivity.
Qed.

Lemma slot_traces_well_formed_witness :
  exists effects,
    GET bothKeys (Backend.Yields [chunkOf "Hi"; chunkOf " there"] None)
      (Backend.Yields [chunkOf "Hel"] (Some (Js.ErrorObj "reset")))
      [model1; model2; model2; model1] sayHi
    = EventStream effects
    /\ slotTracesWellFormed effects.
Proof.
  eexists. split; [reflexivity | ].
  refine (proj1 (slot_traces_well_formed bothKeys _ _ [model1; model2; model2; model1]
                   sayHi _ eq_refl) eq_refl).
Defined.

(* ------------------------------------------------------------------ *)
(** *** C4: a terminal event for each slot *)
(* ------------------------------------------------------------------ *)

(** When both tasks were started, each slot gets its terminal event. *)
Lemma started_slots_terminate (env : ProcessEnv) (b1 b2 : Backend.Behaviour)
    (schedule : list Key) (request : Request) (effects : list Effect) :
  GET env b1 b2 schedule request = EventStream effects ->
  backendsReady env request = true ->
  bothSlotsTerminated effects.
Proof.
  intros H Ready.
  destruct (GET_cases _ _ _ _ _ _ H)
    as (sid & m1 & m2 & p & Hs & H1 & H2 & Hp & R1 & R2 & Cases).
  destruct Cases as [[_ (evs & -> & E1 & E2 & _)] | [NotReady _]]; [ | congruence].
  unfold bothSlotsTerminated, hasTerminal, saveStreamResults.
  rewrite eventsOf_app, eventsOf_Send. simpl. rewrite app_nil_r, E1, E2.
  split; apply aloneTrace_wellFormed; assumption.
Qed.

(** C4 fails in the code.  With the Anthropic key unset the request "Say hi"
    is accepted; constructing the second model instance throws; the handler
    sends one error event, tagged [model1], and closes the stream.  Slot
    [model2] receives no event, hence no terminal event. *)
Theorem missing_key_leaves_model2_without_terminal :
  exists e,
    GET noAnthropicKey (Backend.Yields [chunkOf "Hi"] None)
      (Backend.Yields [chunkOf "Hello"] None) [model1; model2] sayHi
    = EventStream [Send e; Close]
    /\ type e = StreamEvent.error
    /\ model e = model1
    /\ StreamResponse.error (data e)
       = Some "ANTHROPIC_API_KEY ist nicht gesetzt. Bitte füge deinen API-Key in .env.local hinzu."
    /\ forSlot model2 (eventsOf [Send e; Close]) = []
    /\ hasTerminal model2 (eventsOf [Send e; Close]) = false.
Proof.
  eexists. split; [reflexivity | ]. repeat split.
Qed.

(* ------------------------------------------------------------------ *)
(** *** C5: the step on a text increment *)
(* ------------------------------------------------------------------ *)

(** C5 as stated fails: on the first increment "Hi" of the request "Say hi"
    the code sends usage (input 0, output 1), where the estimates from the
    prompt and from the accumulated text are (input 2, output 1). *)
Lemma increment_differs_from_spec :
  ~ (forall a prompt chunk l,
       codeOnIncrement a chunk l
       = specOnIncrement a prompt (fullContent l) (deltaOf chunk)).
Proof.
  intro H.
  specialize (H (slotArgs "s1" "gpt-4o-mini" model1) "Say hi"%string
                (chunkOf "Hi") initialLocals).
  vm_compute in H. discriminate H.
Qed.

(** The output count is a count of chunks, not an estimate from the text:
    one increment of 26 characters counts as 1 token, where [countTokens]
    gives 7. *)
Example output_count_is_chunk_count :
  exists l evs,
    onChunk (slotArgs "s1" "gpt-4o-mini" model1)
      (chunkOf "Hello there, how are you?!") initialLocals = (l, Js.Ok evs)
    /\ outputTokens l = 1
    /\ countTokens (fullContent l) "gpt-4o-mini" = 7.
Proof. do 2 eexists. split; [reflexivity | ]. split; reflexivity. Qed.

Lemma forAwait_input (a : TaskArgs) (chunks : list Backend.Chunk)
    (ending : option Js.Thrown) (l : Locals) :
  getModelConfig (modelId a) <> None ->
  Forall (fun e => input (StreamResponse.tokens (data e)) = inputTokens l)
         (snd (forAwait a chunks ending l)).
Proof.
  intro Hreg. revert l. induction chunks as [| chunk rest IH]; intro l; simpl.
  - destruct ending as [e | ].
    + destruct (SlotTask.catchBlock_ok a Hreg e l) as [c [_ ->]]. repeat constructor.
    + destruct (SlotTask.onEnd_ok a Hreg l) as [c [_ ->]]. repeat constructor.
  - destruct (SlotTask.onChunk_ok a Hreg chunk l) as [[_ ->] | [_ [c [_ ->]]]];
      match goal with
      | |- context [forAwait a rest ending ?l'] =>
          specialize (IH l'); destruct (forAwait a rest ending l') as [s evs']
      end; simpl in *.
    + exact IH.
    + constructor; [reflexivity | exact IH].
Qed.

(** Along the events of one task the output count never decreases. *)
Lemma forAwait_output (a : TaskArgs) (chunks : list Backend.Chunk)
    (ending : option Js.Thrown) (l : Locals) :
  getModelConfig (modelId a) <> None ->
  Forall (fun e => outputTokens l <= output (StreamResponse.tokens (data e)))
         (snd (forAwait a chunks ending l))
  /\ StronglySorted
       (fun e e' => output (StreamResponse.tokens (data e))
                    <= output (StreamResponse.tokens (data e')))
       (snd (forAwait a chunks ending l)).
Proof.
  intro Hreg. revert l. induction chunks as [| chunk rest IH]; intro l; simpl.
  - destruct ending as [e | ].
    + destruct (SlotTask.catchBlock_ok a Hreg e l) as [c [_ ->]]. simpl.
      split; repeat constructor. simpl. lia.
    + destruct (SlotTask.onEnd_ok a Hreg l) as [c [_ ->]]. simpl.
      split; repeat constructor. simpl. lia.
  - destruct (SlotTask.onChunk_ok a Hreg chunk l) as [[_ ->] | [_ [c [_ ->]]]];
      match goal with
      | |- context [forAwait a rest ending ?l'] =>
          specialize (IH l'); destruct (forAwait a rest ending l') as [s evs']
      end; simpl in *.
    + exact IH.
    + destruct IH as [Hall Hsorted]. split.
      * constructor; [simpl; lia | ].
        eapply Forall_impl; [ | exact Hall]. simpl. intros e He. lia.
      * constructor; [exact Hsorted | ].
        eapply Forall_impl; [ | exact Hall]. simpl. intros e He. exact He.
Qed.

(** C5, amended.  With a registered model, on every chunk received while the
    slot is streaming: an empty increment changes nothing and sends nothing;
    a non-empty increment is appended to the accumulated text, the output
    count grows by one, the input count keeps its value, the live cost is
    recomputed by [calculateLiveCost] from these two counts, and one [token]
    event is sent carrying the increment, the updated usage and that cost.
    The input count starts at 0, so every event of the task carries input 0. *)
Theorem increment_step (a : TaskArgs) (chunk : Backend.Chunk) (l : Locals) :
  getModelConfig (modelId a) <> None ->
  (Js.truthy (deltaOf chunk) = false -> onChunk a chunk l = (l, Js.Ok []))
  /\ (Js.truthy (deltaOf chunk) = true ->
      exists c,
        calculateLiveCost (inputTokens l) (outputTokens l + 1) (modelId a) = Js.Ok c
        /\ onChunk a chunk l =
           ({| fullContent := (fullContent l ++ deltaOf chunk)%string;
               tokenCount := tokenCount l + 1;
               inputTokens := inputTokens l;
               outputTokens := outputTokens l + 1 |},
            Js.Ok [mkEvent token a (deltaOf chunk)
                     {| input := inputTokens l;
                        output := outputTokens l + 1;
                        total := inputTokens l + (outputTokens l + 1) |}
                     c false None]))
  /\ inputTokens initialLocals = 0
  /\ (forall b,
        Forall (fun e => input (StreamResponse.tokens (data e)) = 0)
               (snd (streamModelAlone a b))).
Proof.
  intro Hreg. repeat split.
  - intro E. destruct (SlotTask.onChunk_ok a Hreg chunk l) as [[_ H] | [E' _]];
      [exact H | congruence].
  - intro E. destruct (SlotTask.onChunk_ok a Hreg chunk l) as [[E' _] | [_ H]];
      [congruence | exact H].
  - intros [e | chunks ending]; unfold streamModelAlone; simpl.
    + destruct (SlotTask.catchBlock_ok a Hreg e initialLocals) as [c [_ ->]].
      repeat constructor.
    + apply (forAwait_input a chunks ending initialLocals Hreg).
Qed.

Lemma increment_step_witness :
  exists c,
    calculateLiveCost 0 3 "gpt-4o" = Js.Ok c
    /\ onChunk (slotArgs "s1" "gpt-4o" model1) (chunkOf " there")
         {| fullContent := "Hi"; tokenCount := 2; inputTokens := 0; outputTokens := 2 |}
       = ({| fullContent := "Hi there"; tokenCount := 3;
             inputTokens := 0; outputTokens := 3 |},
          Js.Ok [mkEvent token (slotArgs "s1" "gpt-4o" model1) " there"
                   {| input := 0; output := 3; total := 3 |} c false None]).
Proof.
  refine (proj1 (proj2 (increment_step (slotArgs "s1" "gpt-4o" model1)
                          (chunkOf " there")
                          {| fullContent := "Hi"; tokenCount := 2;
                             inputTokens := 0; outputTokens := 2 |} _)) eq_refl).
  discriminate.
Defined.

(* ------------------------------------------------------------------ *)
(** *** The end-to-end scenario *)
(* ------------------------------------------------------------------ *)

(** Request "Say hi" to gpt-4o-mini and claude-3-5-haiku; slot 1 streams
    "Hi" then " there", slot 2 streams "Hello": two start events, two token
    events for slot 1 and one for slot 2, one complete event each, and one
    record with the full texts and both costs above zero. *)
Example end_to_end_say_hi :
  exists effects d c1 c2,
    GET bothKeys (Backend.Yields [chunkOf "Hi"; chunkOf " there"] None)
      (Backend.Yields [chunkOf "Hello"] None)
      [model1; model2; model1; model2; model2; model1] sayHi
    = EventStream effects
    /\ List.length (filter isStart (eventsOf effects)) = 2%nat
    /\ List.length (filter isToken (forSlot model1 (eventsOf effects))) = 2%nat
    /\ List.length (filter isToken (forSlot model2 (eventsOf effects))) = 1%nat
    /\ map type (filter isTerminal (eventsOf effects)) = [complete; complete]
    /\ creates effects = [d]
    /\ Prisma.response1 d = Some "Hi there"%string
    /\ Prisma.response2 d = Some "Hello"%string
    /\ Prisma.cost1 d = Some c1 /\ Prisma.cost2 d = Some c2
    /\ (0 < c1)%Q /\ (0 < c2)%Q.
Proof.
  do 4 eexists. split; [reflexivity | ]. repeat split.
Qed.

End Orchestrator.

(* ================================================================== *)
(** ** Deleting from the history *)
(* ================================================================== *)

Section Deletion.
Local Open Scope list_scope.

Lemma find_existsb {A : Type} (f : A -> bool) (l : list A) :
  existsb f l = match find f l with Some _ => true | None => false end.
Proof.
  induction l as [| x l IH]; simpl; [reflexivity | ].
  destruct (f x); [reflexivity | exact IH].
Qed.

Lemma filter_out_twice {A : Type} (f : A -> bool) (l : list A) :
  filter (fun x => negb (f x)) (filter (fun x => negb (f x)) l)
  = filter (fun x => negb (f x)) l
  /\ filter f (filter (fun x => negb (f x)) l) = []
  /\ find f (filter (fun x => negb (f x)) l) = None.
Proof.
  induction l as [| x l (IH1 & IH2 & IH3)]; simpl; [auto | ].
  destruct (f x) eqn:E; simpl; [auto | ].
  rewrite E. simpl. rewrite IH1. auto.
Qed.

(** C9 as stated fails: deleting an id that is not in the table through
    [deletePromptHistoryItem] reports failure. *)
Lemma deleting_missing_id_fails : ~ deletionNeverFails.
Proof.
  intro H. destruct (H emptyDb eq_refl) as [H1 _].
  specialize (H1 "missing"%string). discriminate H1.
Qed.

(** C9, amended.  On a working store, [deleteMultipleHistoryItems] succeeds
    for every list of ids, ignores the ids that are not in the table and
    reports the number of rows removed; repeated, it succeeds again, removes
    nothing and reports 0.  [deletePromptHistoryItem] succeeds exactly when
    a row has the id; for an id that is not in the table it reports failure
    and leaves the table as it is, so that after one successful deletion the
    same deletion fails. *)
Theorem deletion_outcomes (db : Prisma.Database) :
  Prisma.online db = true ->
  (forall ids,
     exists db',
       History.deleteMultipleHistoryItems ids db
       = ({| success := true;
             data := Some (Z.of_nat (List.length (filter (listed ids) (Prisma.prompts db))));
             error := None |}, db')
       /\ Prisma.prompts db' = filter (fun p => negb (listed ids p)) (Prisma.prompts db)
       /\ History.deleteMultipleHistoryItems ids db'
          = ({| success := true; data := Some 0; error := None |}, db'))
  /\ (forall id,
       success (fst (History.deletePromptHistoryItem id db))
       = existsb (Prisma.hasId id) (Prisma.prompts db))
  /\ (forall id,
       existsb (Prisma.hasId id) (Prisma.prompts db) = false ->
       History.deletePromptHistoryItem id db
       = ({| success := false; data := None;
             error := Some "Fehler beim Löschen des Eintrags"%string |}, db))
  /\ (forall id,
       existsb (Prisma.hasId id) (Prisma.prompts db) = true ->
       exists db',
         History.deletePromptHistoryItem id db
         = ({| success := true; data := None; error := None |}, db')
         /\ Prisma.prompts db'
            = filter (fun p => negb (Prisma.hasId id p)) (Prisma.prompts db)
         /\ success (fst (History.deletePromptHistoryItem id db')) = false).
Proof.
  intro On. repeat split.
  - intro ids. unfold History.deleteMultipleHistoryItems, Prisma.deleteMany.
    rewrite On. simpl. eexists. split; [reflexivity | ]. split; [reflexivity | ].
    simpl.
    destruct (filter_out_twice (listed ids) (Prisma.prompts db)) as (E1 & E2 & _).
    unfold listed in E1, E2. rewrite E1, E2. reflexivity.
  - intro id. unfold History.deletePromptHistoryItem, Prisma.delete.
    rewrite On, find_existsb. simpl.
    destruct (find (Prisma.hasId id) (Prisma.prompts db)); reflexivity.
  - intros id Hno. unfold History.deletePromptHistoryItem, Prisma.delete.
    rewrite On. rewrite find_existsb in Hno. simpl.
    destruct (find (Prisma.hasId id) (Prisma.prompts db)); [discriminate | reflexivity].
  - intros id Hyes. unfold History.deletePromptHistoryItem, Prisma.delete.
    rewrite On. rewrite find_existsb in Hyes. simpl.
    destruct (find (Prisma.hasId id) (Prisma.prompts db)); [ | discriminate].
    eexists. split; [reflexivity | ]. split; [reflexivity | ].
    simpl.
    destruct (filter_out_twice (Prisma.hasId id) (Prisma.prompts db)) as (_ & _ & E3).
    rewrite E3. reflexivity.
Qed.

Lemma deletion_outcomes_witness :
  History.deletePromptHistoryItem "missing" emptyDb
  = ({| success := false; data := None;
        error := Some "Fehler beim Löschen des Eintrags"%string |}, emptyDb)
  /\ exists db',
       History.deleteMultipleHistoryItems ["missing"%string] emptyDb
       = ({| success := true; data := Some 0; error := None |}, db').
Proof.
  split.
  - apply (proj1 (proj2 (proj2 (deletion_outcomes emptyDb eq_refl)))). reflexivity.
  - destruct (proj1 (deletion_outcomes emptyDb eq_refl) ["missing"%string])
      as (db' & H & _).
    exists db'. exact H.
Defined.

End Deletion.

(* ================================================================== *)
(** ** The client-side reducer on an error event *)
(* ================================================================== *)

Section Reducer.

(** C10 as stated fails: for an error event whose message is the empty
    string the reducer stores the default text, not the event's message. *)
Lemma error_message_not_always_kept :
  ~ (forall s e k,
       isSlot k = true ->
       StreamEvent.model e = k ->
       StreamEvent.type e = StreamEvent.error ->
       errorApplied k (StreamResponse.error (StreamEvent.data e)) s
         (Client.updateStreamState s e)).
Proof.
  intro H.
  destruct (H streamingState
              (errorEvent StreamEvent.model1 {| input := 0; output := 7; total := 7 |}
                 (1 # 10) (Some ""%string))
              StreamEvent.model1 eq_refl eq_refl eq_refl) as (_ & Hmsg & _).
  vm_compute in Hmsg. discriminate Hmsg.
Qed.

(** C10, amended.  For every state and every error event for slot [model1]
    or [model2], the reducer sets that slot's [isStreaming] to false and its
    error to the event's message, or to the default text when the message is
    absent or empty; the slot's content, tokens and cost keep their previous
    values, whatever usage and cost the event carries; the other slot is
    unchanged. *)
Theorem error_event_reduced (s : Client.StreamState) (e : StreamEvent.t)
    (k : StreamEvent.Key) :
  isSlot k = true ->
  StreamEvent.model e = k ->
  StreamEvent.type e = StreamEvent.error ->
  errorApplied k
    (Some (Js.orOptString (StreamResponse.error (StreamEvent.data e)) "Unbekannter Fehler"))
    s (Client.updateStreamState s e)
  /\ (forall message,
        StreamResponse.error (StreamEvent.data e) = Some message ->
        Js.truthy message = true ->
        Client.error (Client.get k (Client.updateStreamState s e)) = Some message).
Proof.
  intros Hk Hm Ht. unfold Client.updateStreamState, errorApplied.
  rewrite Hm, Ht.
  destruct k; try discriminate Hk; simpl; repeat split;
    intros message -> Htruthy; simpl; unfold Js.orString; rewrite Htruthy; reflexivity.
Qed.

(** C10 at a slot with content "Hi", 1 output token and cost 0.000015, on
    an error event carrying 7 output tokens and cost 0.1. *)
Lemma error_event_reduced_witness :
  errorApplied StreamEvent.model1 (Some "rate limited"%string) streamingState
    (Client.updateStreamState streamingState
       (errorEvent StreamEvent.model1 {| input := 0; output := 7; total := 7 |}
          (1 # 10) (Some "rate limited"%string))).
Proof.
  exact (proj1 (error_event_reduced streamingState
                  (errorEvent StreamEvent.model1 {| input := 0; output := 7; total := 7 |}
                     (1 # 10) (Some "rate limited"%string))
                  StreamEvent.model1 eq_refl eq_refl eq_refl)).
Defined.

End Reducer.

(* ================================================================== *)
(** ** More on the accountant *)
(* ================================================================== *)

Section MoreRounding.
Local Open Scope Q_scope.

Lemma toFixed6_compat (x y : Q) : x == y -> Js.toFixed6 x == Js.toFixed6 y.
Proof.
  intro H. unfold Js.toFixed6, Js.roundHalfUp.
  rewrite (Qleb_comp 0 0 (Qeq_refl 0) x y H).
  destruct (Qle_bool 0 y).
  - rewrite (Qfloor_comp (x * 1000000 + (1 # 2)) (y * 1000000 + (1 # 2)))
      by (rewrite H; reflexivity).
    reflexivity.
  - rewrite (Qfloor_comp (- x * 1000000 + (1 # 2)) (- y * 1000000 + (1 # 2)))
      by (rewrite H; reflexivity).
    reflexivity.
Qed.

Lemma roundHalfUp_of_micro (n : Z) : Js.roundHalfUp (inject_Z n / 1000000) = n.
Proof.
  unfold Js.roundHalfUp.
  assert (Hle : inject_Z n <= inject_Z n / 1000000 * 1000000 + (1 # 2))
    by (rewrite div_micro; lra).
  assert (Hlt : inject_Z n / 1000000 * 1000000 + (1 # 2) < inject_Z (n + 1))
    by (rewrite inject_Z_plus, div_micro; change (inject_Z 1) with 1; lra).
  pose proof (Qfloor_le (inject_Z n / 1000000 * 1000000 + (1 # 2))) as F1.
  pose proof (Qlt_floor (inject_Z n / 1000000 * 1000000 + (1 # 2))) as F2.
  set (f := Qfloor (inject_Z n / 1000000 * 1000000 + (1 # 2))) in *.
  assert (A : (n < f + 1)%Z) by (rewrite Zlt_Qlt; lra).
  assert (B : (f < n + 1)%Z) by (rewrite Zlt_Qlt; lra).
  lia.
Qed.

(** Rounding a whole number of millionths changes nothing. *)
Lemma toFixed6_of_micro (n : Z) :
  Js.toFixed6 (inject_Z n / 1000000) == inject_Z n / 1000000.
Proof.
  unfold Js.toFixed6.
  destruct (Qle_bool 0 (inject_Z n / 1000000)).
  - rewrite roundHalfUp_of_micro. reflexivity.
  - assert (E : - (inject_Z n / 1000000) == inject_Z (- n) / 1000000)
      by (rewrite inject_Z_opp, !div_micro; lra).
    unfold Js.roundHalfUp.
    rewrite (Qfloor_comp (- (inject_Z n / 1000000) * 1000000 + (1 # 2))
               (inject_Z (- n) / 1000000 * 1000000 + (1 # 2)))
      by (rewrite E; reflexivity).
    fold (Js.roundHalfUp (inject_Z (- n) / 1000000)).
    rewrite roundHalfUp_of_micro, inject_Z_opp, !div_micro. lra.
Qed.

Lemma toFixed6_exact (x : Q) :
  (exists n : Z, x == inject_Z n / 1000000) -> Js.toFixed6 x == x.
Proof.
  intros [n H]. rewrite (toFixed6_compat _ _ H), H. apply toFixed6_of_micro.
Qed.

Lemma toFixed6_idempotent (x : Q) : Js.toFixed6 (Js.toFixed6 x) == Js.toFixed6 x.
Proof. apply toFixed6_exact. apply toFixed6_micro. Qed.




Lemma calculateCost_throws (u : TokenUsage) (modelId : string) :
  getModelConfig modelId = None ->
  calculateCost u modelId
  = Js.Throw (Js.ErrorObj ("Unknown model for cost calculation: " ++ modelId)).
Proof. intro H. unfold calculateCost. rewrite H. reflexivity. Qed.

End MoreRounding.

Section MorePricing.
Local Open Scope Q_scope.





(** The three derived pricing functions throw exactly when a model id they
    are given is not registered. *)
Theorem pricing_throws_iff_unregistered (u u' : TokenUsage) (p m1 m2 : string)
    (n : option Z) :
  (Js.isOk (Pricing.estimatePromptCost p m1 n) = Models.isModelAvailable m1)
  /\ (Js.isOk (Pricing.compareCosts u m1 m2)
      = Models.isModelAvailable m1 && Models.isModelAvailable m2)
  /\ (Js.isOk (Pricing.createCostBreakdown u u' m1 m2)
      = Models.isModelAvailable m1 && Models.isModelAvailable m2).
Proof.
  unfold Pricing.estimatePromptCost, Pricing.compareCosts,
    Pricing.createCostBreakdown, Models.isModelAvailable, calculateCost.
  destruct (getModelConfig m1); destruct (getModelConfig m2); repeat split.
Qed.

(** [hasValidPricing] holds exactly for the registered models: every entry
    of the registry has positive prices. *)
Theorem hasValidPricing_iff_registered (modelId : string) :
  Pricing.hasValidPricing modelId = Models.isModelAvailable modelId.
Proof.
  unfold Pricing.hasValidPricing, Models.isModelAvailable.
  destruct (getModelConfig modelId) as [config | ] eqn:E; [ | reflexivity].
  apply getModelConfig_some in E. destruct E as [Hin _].
  unfold ALL_MODELS, OPENAI_MODELS, ANTHROPIC_MODELS in Hin. simpl in Hin.
  repeat (destruct Hin as [Hin | Hin]; [subst config; reflexivity | ]).
  contradiction.
Qed.

End MorePricing.

(* ================================================================== *)
(** ** More on the registry *)
(* ================================================================== *)

Lemma registered_name (config : ModelConfig) :
  In config ALL_MODELS -> name config = id config.
Proof.
  intro H. unfold ALL_MODELS, OPENAI_MODELS, ANTHROPIC_MODELS in H. simpl in H.
  repeat (destruct H as [H | H]; [subst config; reflexivity | ]).
  contradiction.
Qed.

(** Looking a registered model up by its id returns that very entry: the ids
    of the registry are pairwise distinct, and each entry is listed under
    its provider. *)
Theorem getModelConfig_registered (config : ModelConfig) :
  In config ALL_MODELS ->
  getModelConfig (id config) = Some config
  /\ Models.isModelAvailable (id config) = true
  /\ In config (Models.getModelsByProvider (provider config))
  /\ name config = id config.
Proof.
  intro H. unfold ALL_MODELS, OPENAI_MODELS, ANTHROPIC_MODELS in H. simpl in H.
  repeat (destruct H as [H | H];
          [subst config; repeat split; vm_compute; auto 10 | ]).
  contradiction.
Qed.

Lemma getModelConfig_registered_witness :
  getModelConfig "claude-3-opus-20240229"
  = Some (mkModel "claude-3-opus-20240229" "Claude 3 Opus" anthropic
            (15 # 1000) (75 # 1000) 200000).
Proof.
  refine (proj1 (getModelConfig_registered
                   (mkModel "claude-3-opus-20240229" "Claude 3 Opus" anthropic
                      (15 # 1000) (75 # 1000) 200000) _)).
  vm_compute. auto 10.
Defined.

(** A model instance can be constructed exactly when the model is
    registered and the API key of its provider is set to a non-empty string;
    the instance is then one of that provider, for the model's name. *)
Theorem createModelInstance_ok_iff (env : ProcessEnv) (modelId : string) :
  (Js.isOk (createModelInstance env modelId) = true <->
   exists config,
     getModelConfig modelId = Some config
     /\ Js.truthyOpt (match provider config with
                      | openai => OPENAI_API_KEY env
                      | anthropic => ANTHROPIC_API_KEY env
                      end) = true)
  /\ (forall instance,
        createModelInstance env modelId = Js.Ok instance ->
        exists config,
          getModelConfig modelId = Some config
          /\ instProvider instance = provider config
          /\ instModel instance = modelId).
Proof.
  unfold createModelInstance, createOpenAIModel, createAnthropicModel.
  destruct (getModelConfig modelId) as [config | ] eqn:E.
  - pose proof (getModelConfig_some _ _ E) as [Hin Hid].
    assert (Hname : name config = modelId).
    { rewrite <- Hid. apply registered_name. exact Hin. }
    destruct (provider config) eqn:P.
    + destruct (Js.truthyOpt (OPENAI_API_KEY env)) eqn:K; simpl; split.
      * split; [intros _; exists config; rewrite P; auto | reflexivity].
      * intros instance H. inversion H. exists config. simpl. auto.
      * split; [discriminate | ].
        intros (config' & H' & K'). inversion H'; subst config'.
        rewrite P in K'. congruence.
      * discriminate.
    + destruct (Js.truthyOpt (ANTHROPIC_API_KEY env)) eqn:K; simpl; split.
      * split; [intros _; exists config; rewrite P; auto | reflexivity].
      * intros instance H. inversion H. exists config. simpl. auto.
      * split; [discriminate | ].
        intros (config' & H' & K'). inversion H'; subst config'.
        rewrite P in K'. congruence.
      * discriminate.
  - split.
    + split; [discriminate | intros (config & H & _); discriminate].
    + discriminate.
Qed.

Lemma createModelInstance_ok_iff_witness :
  Js.isOk (createModelInstance
             {| OPENAI_API_KEY := Some "sk-test"; ANTHROPIC_API_KEY := Some "" |}
             "gpt-4o") = true.
Proof.
  apply (proj1 (createModelInstance_ok_iff _ _)).
  exists (mkModel "gpt-4o" "GPT-4o" openai (5 # 1000) (15 # 1000) 128000).
  split; reflexivity.
Defined.

(* ================================================================== *)
(** ** More on the tokenizer *)
(* ================================================================== *)

Section MoreTokenizer.
Local Open Scope list_scope.

Lemma trimStartL_suffix (l : list ascii) :
  exists p, l = p ++ Js.trimStartL l.
Proof.
  induction l as [| c r [p IH]]; simpl.
  - exists []. reflexivity.
  - destruct (Js.isWhiteSpace c).
    + exists (c :: p). simpl. rewrite <- IH. reflexivity.
    + exists []. reflexivity.
Qed.

Lemma trimStartL_head (l : list ascii) (c : ascii) (r : list ascii) :
  Js.trimStartL l = c :: r -> Js.isWhiteSpace c = false.
Proof.
  induction l as [| x l IH]; simpl; [discriminate | ].
  destruct (Js.isWhiteSpace x) eqn:E; [exact IH | ].
  intro H. inversion H; subst. exact E.
Qed.

Lemma trimStartL_fixed (l : list ascii) :
  match l with [] => True | c :: _ => Js.isWhiteSpace c = false end ->
  Js.trimStartL l = l.
Proof. destruct l as [| c r]; simpl; [reflexivity | intros ->; reflexivity]. Qed.

Lemma trimL_idempotent (l : list ascii) : Js.trimL (Js.trimL l) = Js.trimL l.
Proof.
  unfold Js.trimL.
  set (m := Js.trimStartL l).
  set (n := Js.trimStartL (rev m)).
  assert (Hn : Js.trimStartL n = n).
  { apply trimStartL_fixed. destruct n as [| c r] eqn:E; [exact I | ].
    apply (trimStartL_head (rev m) c r). exact E. }
  assert (Hrev : Js.trimStartL (rev n) = rev n).
  { apply trimStartL_fixed.
    destruct (rev n) as [| c r] eqn:E; [exact I | ].
    destruct (trimStartL_suffix (rev m)) as [p Hp]. fold n in Hp.
    assert (Hm : m = rev n ++ rev p).
    { rewrite <- (rev_involutive m), Hp, rev_app_distr. reflexivity. }
    rewrite E in Hm. simpl in Hm.
    apply (trimStartL_head l c (r ++ rev p)). exact Hm. }
  rewrite Hrev, rev_involutive, Hn. reflexivity.
Qed.

Lemma trim_idempotent (s : string) : Js.trim (Js.trim s) = Js.trim s.
Proof.
  unfold Js.trim. rewrite list_ascii_of_string_of_list_ascii, trimL_idempotent.
  reflexivity.
Qed.

Lemma trimL_length (l : list ascii) : (List.length (Js.trimL l) <= List.length l)%nat.
Proof.
  unfold Js.trimL.
  destruct (trimStartL_suffix l) as [p Hp].
  destruct (trimStartL_suffix (rev (Js.trimStartL l))) as [q Hq].
  rewrite length_rev.
  assert (L1 : List.length l = (List.length p + List.length (Js.trimStartL l))%nat)
    by (rewrite Hp at 1; apply length_app).
  assert (L2 : List.length (Js.trimStartL l)
               = (List.length q
                  + List.length (Js.trimStartL (rev (Js.trimStartL l))))%nat)
    by (rewrite <- (length_rev (Js.trimStartL l)); rewrite Hq at 1; apply length_app).
  lia.
Qed.

Lemma string_length_of_list (l : list ascii) :
  String.length (string_of_list_ascii l) = List.length l.
Proof. induction l; simpl; congruence. Qed.

Lemma string_length_to_list (s : string) :
  List.length (list_ascii_of_string s) = String.length s.
Proof. induction s; simpl; congruence. Qed.

Lemma trim_length (s : string) : Js.length (Js.trim s) <= Js.length s.
Proof.
  unfold Js.length, Js.trim. rewrite string_length_of_list.
  pose proof (trimL_length (list_ascii_of_string s)) as H.
  rewrite string_length_to_list in H. lia.
Qed.

Lemma charsPerToken_pos (f : Family) : (0 < charsPerToken f)%Q.
Proof. destruct f; reflexivity. Qed.

(** Surrounding white space never changes an estimate: the count of a text
    is the count of the trimmed text, for [countTokens], for the prompt cost
    estimate and for the approximate word-based count. *)
Theorem estimates_ignore_outer_whitespace (text modelId : string) (n : option Z) :
  countTokens (Js.trim text) modelId = countTokens text modelId
  /\ Pricing.estimatePromptCost (Js.trim text) modelId n
     = Pricing.estimatePromptCost text modelId n
  /\ Tokenizer.getApproximateTokenCount (Js.trim text)
     = Tokenizer.getApproximateTokenCount text
  /\ Tokenizer.getCharacterBasedTokenCount (Js.trim text) (Some modelId)
     = Tokenizer.getCharacterBasedTokenCount text (Some modelId).
Proof.
  assert (C : countTokens (Js.trim text) modelId = countTokens text modelId)
    by (rewrite !countTokens_formula, trim_idempotent; reflexivity).
  split; [exact C | ]. split; [ | split].
  - unfold Pricing.estimatePromptCost. rewrite C. reflexivity.
  - unfold Tokenizer.getApproximateTokenCount. rewrite trim_idempotent. reflexivity.
  - unfold Tokenizer.getCharacterBasedTokenCount. rewrite trim_idempotent. reflexivity.
Qed.

(** The count is the least whole number of tokens that covers the trimmed
    text at the family's characters-per-token rate, and a text with a longer
    trimmed form never counts fewer tokens. *)
Theorem countTokens_bounds (text text' modelId : string) :
  let c := charsPerToken (familyOf modelId) in
  (inject_Z (Js.length (Js.trim text)) <= inject_Z (countTokens text modelId) * c)%Q
  /\ (inject_Z (countTokens text modelId) * c - c < inject_Z (Js.length (Js.trim text)))%Q
  /\ countTokens text modelId <= Js.length text
  /\ (Js.length (Js.trim text) <= Js.length (Js.trim text') ->
      countTokens text modelId <= countTokens text' modelId).
Proof.
  intro c. rewrite !countTokens_formula. fold c.
  pose proof (charsPerToken_pos (familyOf modelId)) as Hc. fold c in Hc.
  set (len := Js.length (Js.trim text)).
  pose proof (Qle_ceiling (inject_Z len / c)) as Hup.
  pose proof (Qceiling_lt (inject_Z len / c)) as Hlow.
  unfold Js.ceil.
  set (k := Qceiling (inject_Z len / c)) in *.
  assert (Hdiv : (inject_Z len / c * c == inject_Z len)%Q)
    by (field; intro Z0; rewrite Z0 in Hc; discriminate).
  split; [ | split; [ | split]].
  - rewrite <- Hdiv. apply Qmult_le_compat_r; [exact Hup | apply Qlt_le_weak; exact Hc].
  - rewrite <- Hdiv.
    assert (E : (inject_Z k * c - c == inject_Z (k - 1) * c)%Q).
    { unfold Zminus. rewrite inject_Z_plus, inject_Z_opp.
      change (inject_Z 1) with 1%Q. ring. }
    rewrite E. apply Qmult_lt_compat_r; assumption.
  - assert (Hlen : 0 <= len) by apply length_nonneg.
    assert (Hk : k <= len).
    { subst k. apply Z.le_trans with (Qceiling (inject_Z len));
        [ | rewrite Qceiling_Z; lia].
      apply Qceiling_resp_le. apply Qle_shift_div_r; [exact Hc | ].
      assert (H1 : (1 <= c)%Q) by (subst c; destruct (familyOf modelId); discriminate).
      assert (H0 : (0 <= inject_Z len)%Q)
        by (change 0%Q with (inject_Z 0); rewrite <- Zle_Qle; exact Hlen).
      nra. }
    pose proof (trim_length text) as Ht. fold len in Ht. lia.
  - intro Hle. apply Qceiling_resp_le.
    apply Qmult_le_compat_r.
    + rewrite <- Zle_Qle. exact Hle.
    + apply Qlt_le_weak. apply Qinv_lt_0_compat. exact Hc.
Qed.

Lemma countTokens_bounds_witness :
  countTokens "Hi" "gpt-4o" <= countTokens "  Hello there " "gpt-4o".
Proof.
  apply (proj2 (proj2 (proj2 (countTokens_bounds "Hi" "  Hello there " "gpt-4o")))).
  vm_compute. discriminate.
Defined.

Lemma countTokens_nonneg (text modelId : string) : 0 <= countTokens text modelId.
Proof.
  rewrite countTokens_formula.
  apply ceil_ratio_nonneg; [apply length_nonneg | apply charsPerToken_pos].
Qed.

(** Feeding chunks to [updateTokenUsage] one after the other: the input
    count never changes, the output count grows by the sum of the chunks'
    counts and so never decreases, a whitespace-only chunk adds nothing, and
    after the first chunk the total is input plus output whatever total the
    usage started with. *)
Theorem updateTokenUsage_fold (u : TokenUsage) (chunks : list string) (modelId : string) :
  let u' := fold_left (fun acc chunk => updateTokenUsage acc chunk modelId) chunks u in
  input u' = input u
  /\ output u' = output u + fold_right Z.add 0 (Tokenizer.batchCountTokens chunks modelId)
  /\ output u <= output u'
  /\ (chunks <> [] -> total u' = input u' + output u')
  /\ (forallb whitespaceOnly chunks = true -> output u' = output u).
Proof.
  revert u. induction chunks as [| chunk rest IH]; intro u; simpl.
  - repeat split; try lia. intro H. contradiction.
  - destruct (IH (updateTokenUsage u chunk modelId)) as (I1 & I2 & I3 & I4 & I5).
    pose proof (countTokens_nonneg chunk modelId) as Hc.
    simpl in *. rewrite I1, I2. simpl.
    split; [reflexivity | ]. split; [lia | ]. split; [lia | ]. split.
    + intros _. destruct rest as [| chunk' rest'].
      * simpl. lia.
      * rewrite <- I1, <- I2. apply I4. discriminate.
    + intro Hw. apply andb_true_iff in Hw. destruct Hw as [Hw1 Hw2].
      specialize (I5 Hw2). simpl in I5.
      assert (Z0 : countTokens chunk modelId = 0).
      { rewrite countTokens_formula, (trim_whitespaceOnly _ Hw1).
        destruct (familyOf modelId); reflexivity. }
      rewrite Z0 in *. lia.
Qed.

Lemma updateTokenUsage_fold_witness :
  output (fold_left (fun acc chunk => updateTokenUsage acc chunk "gpt-4o")
            ["Hello"%string; "   "%string; " world"%string]
            {| input := 2; output := 0; total := 99 |}) = 4
  /\ total (fold_left (fun acc chunk => updateTokenUsage acc chunk "gpt-4o")
              ["Hello"%string; "   "%string; " world"%string]
              {| input := 2; output := 0; total := 99 |}) = 6.
Proof.
  destruct (updateTokenUsage_fold {| input := 2; output := 0; total := 99 |}
              ["Hello"%string; "   "%string; " world"%string] "gpt-4o")
    as (I1 & I2 & _ & I4 & _).
  split.
  - rewrite I2. reflexivity.
  - rewrite I4 by discriminate. rewrite I1, I2. reflexivity.
Defined.

(** The character-based count agrees with [countTokens] on every model id
    that does not contain "openai" or "anthropic", in particular on every
    registered model; with no model id it is the fallback count. *)
Theorem getCharacterBasedTokenCount_agrees (text modelId : string) :
  (Js.includes modelId "openai" = false ->
   Js.includes modelId "anthropic" = false ->
   Tokenizer.getCharacterBasedTokenCount text (Some modelId) = countTokens text modelId)
  /\ (forall config, getModelConfig modelId = Some config ->
      Tokenizer.getCharacterBasedTokenCount text (Some modelId) = countTokens text modelId)
  /\ Tokenizer.getCharacterBasedTokenCount text None
     = Js.ceil (inject_Z (Js.length (Js.trim text)) / 4).
Proof.
  assert (A : Js.includes modelId "openai" = false ->
              Js.includes modelId "anthropic" = false ->
              Tokenizer.getCharacterBasedTokenCount text (Some modelId)
              = countTokens text modelId).
  { intros H1 H2. rewrite countTokens_formula.
    unfold Tokenizer.getCharacterBasedTokenCount, familyOf. rewrite H1, H2, !orb_false_r.
    destruct (Js.truthy (Js.trim text)) eqn:E; simpl.
    - destruct (Js.startsWith modelId "gpt-"); [reflexivity | ].
      destruct (Js.startsWith modelId "claude-"); reflexivity.
    - rewrite (truthy_false _ E).
      destruct (Js.startsWith modelId "gpt-"); [reflexivity | ].
      destruct (Js.startsWith modelId "claude-"); reflexivity. }
  split; [exact A | ]. split.
  - intros config H. apply getModelConfig_some in H. destruct H as [Hin Hid].
    subst modelId. unfold ALL_MODELS, OPENAI_MODELS, ANTHROPIC_MODELS in Hin.
    simpl in Hin.
    repeat (destruct Hin as [Hin | Hin]; [subst config; apply A; reflexivity | ]).
    contradiction.
  - unfold Tokenizer.getCharacterBasedTokenCount.
    destruct (Js.truthy (Js.trim text)) eqn:E; simpl; [reflexivity | ].
    rewrite (truthy_false _ E). reflexivity.
Qed.

Lemma getCharacterBasedTokenCount_agrees_witness :
  Tokenizer.getCharacterBasedTokenCount "Say hi" (Some "llama-3"%string)
  = countTokens "Say hi" "llama-3".
Proof.
  apply (proj1 (getCharacterBasedTokenCount_agrees "Say hi" "llama-3")); reflexivity.
Defined.

(** The two counts differ once the provider shows only inside the id. *)
Example getCharacterBasedTokenCount_differs :
  Tokenizer.getCharacterBasedTokenCount "abcd" (Some "my-anthropic-proxy"%string) = 1
  /\ countTokens "abcd" "my-anthropic-proxy" = 2.
Proof. split; reflexivity. Qed.

(** The estimated range brackets the estimate: 0 <= min <= estimate <= max,
    and the estimate is the one of [countTokens]. *)
Theorem estimateTokenRange_brackets (text modelId : string) :
  let r := Tokenizer.estimateTokenRange text modelId in
  Tokenizer.estimate r = countTokens text modelId
  /\ 0 <= Tokenizer.min r
  /\ Tokenizer.min r <= Tokenizer.estimate r
  /\ Tokenizer.estimate r <= Tokenizer.max r.
Proof.
  unfold Tokenizer.estimateTokenRange.
  cbn [Tokenizer.min Tokenizer.max Tokenizer.estimate]. unfold Js.ceil.
  pose proof (countTokens_nonneg text modelId) as H.
  set (e := countTokens text modelId) in *.
  assert (Hq : (0 <= inject_Z e)%Q)
    by (change 0%Q with (inject_Z 0); rewrite <- Zle_Qle; exact H).
  split; [reflexivity | ]. split; [ | split].
  - change 0 with (Qfloor 0). apply Qfloor_resp_le. lra.
  - rewrite <- (Qfloor_Z e) at 2. apply Qfloor_resp_le. lra.
  - rewrite <- (Qceiling_Z e) at 1. apply Qceiling_resp_le. lra.
Qed.

Lemma trimStartL_nil (l : list ascii) :
  Js.trimStartL l = [] -> forallb Js.isWhiteSpace l = true.
Proof.
  induction l as [| c r IH]; simpl; [reflexivity | ].
  destruct (Js.isWhiteSpace c); [exact IH | discriminate].
Qed.

Lemma trim_empty_iff (s : string) : Js.trim s = "" <-> whitespaceOnly s = true.
Proof.
  split; [ | apply trim_whitespaceOnly].
  unfold Js.trim, Js.trimL, whitespaceOnly. intro H.
  assert (E : Js.trimStartL (rev (Js.trimStartL (list_ascii_of_string s))) = []).
  { destruct (rev (Js.trimStartL (rev (Js.trimStartL (list_ascii_of_string s)))))
      eqn:R; [ | discriminate H].
    apply (f_equal (@rev ascii)) in R. rewrite rev_involutive in R. exact R. }
  destruct (Js.trimStartL (list_ascii_of_string s)) as [| c r] eqn:T.
  - apply trimStartL_nil. exact T.
  - exfalso. pose proof (trimStartL_head _ _ _ T) as Hc.
    apply trimStartL_nil in E. rewrite forallb_forall in E.
    specialize (E c). rewrite E in Hc; [discriminate | ].
    apply -> in_rev. left. reflexivity.
Qed.

Lemma wordsL_nonempty (current l : list ascii) :
  current <> [] -> Tokenizer.wordsL current l <> [].
Proof.
  revert current. induction l as [| c r IH]; intros current H; simpl.
  - destruct current; [contradiction | discriminate].
  - destruct (Js.isWhiteSpace c).
    + destruct current; [contradiction | discriminate].
    + apply IH. discriminate.
Qed.

(** The quick word-based count is 0 on empty and whitespace-only text; on
    any other text there is at least one word, and the count lies between
    the number of words and 1.3 times that number, rounded up. *)
Theorem getApproximateTokenCount_bounds (text : string) :
  let n := Z.of_nat (List.length (Tokenizer.words (Js.trim text))) in
  (whitespaceOnly text = true -> Tokenizer.getApproximateTokenCount text = 0)
  /\ (whitespaceOnly text = false ->
      1 <= n
      /\ n <= Tokenizer.getApproximateTokenCount text
      /\ 10 * Tokenizer.getApproximateTokenCount text < 13 * n + 10).
Proof.
  intro n. unfold Tokenizer.getApproximateTokenCount. split.
  - intro H. rewrite (trim_whitespaceOnly _ H). reflexivity.
  - intro H.
    destruct (Js.truthy (Js.trim text)) eqn:E.
    2:{ apply truthy_false in E. apply trim_empty_iff in E. congruence. }
    simpl. fold n.
    assert (Hn : 1 <= n).
    { subst n. unfold Tokenizer.words. rewrite length_map.
      destruct (list_ascii_of_string (Js.trim text)) as [| c r] eqn:L.
      - destruct (Js.trim text); [discriminate E | discriminate L].
      - assert (Hc : Js.isWhiteSpace c = false).
        { unfold Js.trim in L. rewrite list_ascii_of_string_of_list_ascii in L.
          unfold Js.trimL in L.
          destruct (Js.trimStartL (list_ascii_of_string text)) as [| c0 r0] eqn:T;
            [discriminate L | ].
          pose proof (trimStartL_head _ _ _ T) as Hc0.
          destruct (trimStartL_suffix (rev (c0 :: r0))) as [p Hp].
          assert (M : c0 :: r0 = (c :: r) ++ rev p).
          { rewrite <- L, <- rev_app_distr, <- Hp, rev_involutive. reflexivity. }
          simpl in M. inversion M; subst. exact Hc0. }
        simpl. rewrite Hc.
        pose proof (wordsL_nonempty [c] r) as W.
        destruct (Tokenizer.wordsL [c] r); [exfalso; apply W; [discriminate | reflexivity] | ].
        simpl. lia. }
    unfold Js.ceil. simpl DEFAULT_WORDS_TO_TOKENS.
    pose proof (Qle_ceiling (inject_Z n * (13 # 10))) as Hup.
    pose proof (Qceiling_lt (inject_Z n * (13 # 10))) as Hlow.
    set (k := Qceiling (inject_Z n * (13 # 10))) in *.
    assert (Hq : (1 <= inject_Z n)%Q)
      by (change 1%Q with (inject_Z 1); rewrite <- Zle_Qle; exact Hn).
    split; [exact Hn | ]. split.
    + rewrite Zle_Qle. lra.
    + assert (G : (inject_Z (10 * k) < inject_Z (13 * n + 10))%Q).
      { unfold Zminus in Hlow.
        rewrite inject_Z_plus, inject_Z_opp in Hlow.
        rewrite inject_Z_plus, !inject_Z_mult.
        change (inject_Z 10) with 10%Q. change (inject_Z 13) with 13%Q.
        change (inject_Z 1) with 1%Q in Hlow. lra. }
      rewrite Zlt_Qlt. exact G.
Qed.

Lemma getApproximateTokenCount_bounds_witness :
  1 <= Z.of_nat (List.length (Tokenizer.words (Js.trim "  Say   hi there ")))
  /\ Z.of_nat (List.length (Tokenizer.words (Js.trim "  Say   hi there ")))
     <= Tokenizer.getApproximateTokenCount "  Say   hi there "
  /\ 10 * Tokenizer.getApproximateTokenCount "  Say   hi there "
     < 13 * Z.of_nat (List.length (Tokenizer.words (Js.trim "  Say   hi there "))) + 10.
Proof.
  apply (proj2 (getApproximateTokenCount_bounds "  Say   hi there ")). reflexivity.
Defined.

Example getApproximateTokenCount_values :
  Tokenizer.words "Say   hi there" = ["Say"%string; "hi"%string; "there"%string]
  /\ Tokenizer.getApproximateTokenCount "  Say   hi there " = 4.
Proof. split; reflexivity. Qed.

End MoreTokenizer.

(* ================================================================== *)
(** ** More on the streaming route *)
(* ================================================================== *)

Module RouteMore.

Import Route StreamEvent.
Local Open Scope list_scope.

(** The handler answers with an event stream exactly when all four query
    parameters are present and non-empty and both model ids are registered;
    the decision depends on the request alone.  A missing or empty parameter
    gives status 400 'Fehlende Parameter', an unregistered model id 400
    'Ungültige Model-IDs'; a whitespace-only prompt is accepted. *)
Theorem GET_validation (env : ProcessEnv) (b1 b2 : Backend.Behaviour)
    (schedule : list Key) (request : Request) :
  match GET env b1 b2 schedule request with
  | EventStream _ => paramsPresent request = true /\ modelsRegistered request = true
  | BadRequest body =>
      (paramsPresent request = false /\ body = "Fehlende Parameter"%string)
      \/ (paramsPresent request = true /\ modelsRegistered request = false
          /\ body = "Ungültige Model-IDs"%string)
  end.
Proof.
  unfold GET, paramsPresent, modelsRegistered, Models.isModelAvailable.
  destruct (session request) as [sid | ]; simpl; [ | auto].
  destruct (Route.model1 request) as [m1 | ]; simpl;
    [ | left; rewrite andb_false_r; auto].
  destruct (Route.model2 request) as [m2 | ]; simpl;
    [ | left; rewrite !andb_false_r; auto].
  destruct (prompt request) as [p | ]; simpl;
    [ | left; rewrite !andb_false_r; auto].
  destruct (Js.truthy sid), (Js.truthy m1), (Js.truthy m2), (Js.truthy p); simpl; auto.
  destruct (getModelConfig m1); destruct (getModelConfig m2); simpl; auto.
Qed.

Example GET_accepts_blank_prompt :
  exists effects,
    GET bothKeys (Backend.Yields [] None) (Backend.Yields [] None) []
      {| session := Some "s1"%string; Route.model1 := Some "gpt-4o"%string;
         Route.model2 := Some "gpt-4o"%string; prompt := Some "   "%string |}
    = EventStream effects.
Proof. eexists. reflexivity. Qed.

Lemma string_app_assoc (a b c : string) : ((a ++ b) ++ c = a ++ (b ++ c))%string.
Proof. induction a as [| x a IH]; simpl; [reflexivity | rewrite IH; reflexivity]. Qed.

Lemma string_app_nil_r (a : string) : (a ++ "" = a)%string.
Proof. induction a as [| x a IH]; simpl; [reflexivity | rewrite IH; reflexivity]. Qed.

Lemma deltas_tokens (toks : list StreamEvent.t) (last : StreamEvent.t) :
  isToken last = false -> deltas (toks ++ [last]) = deltas toks.
Proof.
  intro H. unfold deltas. rewrite filter_app. simpl. rewrite H, app_nil_r. reflexivity.
Qed.

Section OneSlotMore.

Variable a : TaskArgs.
Hypothesis registered : getModelConfig (modelId a) <> None.

(** What a task resolves to against what it sent. *)
Lemma forAwait_summary (chunks : list Backend.Chunk) (ending : option Js.Thrown)
    (l : Locals) :
  exists toks last,
    snd (forAwait a chunks ending l) = toks ++ [last]
    /\ forallb isToken toks = true
    /\ outputOf last = outputTokens l + Z.of_nat (List.length toks)
    /\ match fst (forAwait a chunks ending l) with
       | fulfilled v =>
           type last = complete
           /\ content v = (fullContent l ++ deltas toks)%string
           /\ cost v = StreamResponse.cost (data last)
           /\ tokens v = StreamResponse.tokens (data last)
       | rejected e => type last = StreamEvent.error
       end.
Proof.
  revert l. induction chunks as [| chunk rest IH]; intro l; simpl.
  - destruct ending as [e | ].
    + destruct (SlotTask.catchBlock_ok a registered e l) as [c [_ ->]].
      eexists [], _. simpl. repeat split. unfold outputOf. simpl. lia.
    + destruct (SlotTask.onEnd_ok a registered l) as [c [_ ->]].
      eexists [], _. simpl. repeat split.
      * unfold outputOf. simpl. lia.
      * rewrite string_app_nil_r. reflexivity.
  - destruct (SlotTask.onChunk_ok a registered chunk l) as [[_ ->] | [Hd [c [_ ->]]]];
      match goal with
      | |- context [forAwait a rest ending ?l'] =>
          destruct (IH l') as (toks & last & E & T & O & S);
          destruct (forAwait a rest ending l') as [s evs']
      end; simpl in *.
    + exists toks, last. auto.
    + subst evs'. eexists (_ :: toks), last. simpl. split; [reflexivity | ].
      split; [exact T | ]. split; [lia | ].
      destruct s as [v | e]; [ | exact S].
      destruct S as (S1 & S2 & S3 & S4). repeat split; try assumption.
      rewrite S2. unfold deltas. simpl. fold (deltas toks).
      rewrite string_app_assoc. reflexivity.
Qed.

Lemma alone_summary (b : Backend.Behaviour) :
  exists toks last,
    snd (streamModelAlone a b) = toks ++ [last]
    /\ forallb isToken toks = true
    /\ outputOf last = Z.of_nat (List.length toks)
    /\ match fst (streamModelAlone a b) with
       | fulfilled v =>
           type last = complete
           /\ content v = deltas toks
           /\ cost v = StreamResponse.cost (data last)
       | rejected e => type last = StreamEvent.error
       end.
Proof.
  destruct b as [e | chunks ending]; unfold streamModelAlone; simpl.
  - destruct (SlotTask.catchBlock_ok a registered e initialLocals) as [c [_ ->]].
    eexists [], _. simpl. repeat split.
  - destruct (forAwait_summary chunks ending initialLocals) as (toks & last & E & T & O & S).
    exists toks, last. split; [exact E | ]. split; [exact T | ]. split; [exact O | ].
    destruct (fst (forAwait a chunks ending initialLocals)); [ | exact S].
    tauto.
Qed.

Lemma alone_usage (b : Backend.Behaviour) :
  Forall (fun e => inputOf e = 0) (snd (streamModelAlone a b))
  /\ Forall (fun e => 0 <= outputOf e) (snd (streamModelAlone a b))
  /\ StronglySorted (fun e e' => outputOf e <= outputOf e') (snd (streamModelAlone a b)).
Proof.
  destruct b as [e | chunks ending]; unfold streamModelAlone; simpl.
  - destruct (SlotTask.catchBlock_ok a registered e initialLocals) as [c [_ ->]].
    simpl. repeat split; repeat constructor. unfold outputOf. simpl. lia.
  - split; [ | split].
    + apply (Orchestrator.forAwait_input a chunks ending initialLocals registered).
    + apply (Orchestrator.forAwait_output a chunks ending initialLocals registered).
    + apply (Orchestrator.forAwait_output a chunks ending initialLocals registered).
Qed.

End OneSlotMore.

(** For every accepted request whose tasks were started and every
    interleaving, the one record agrees with the stream, slot by slot: the
    response is the concatenation of the increments of the slot's token
    events and the cost is the cost of its [complete] event, or both are
    [null] and the slot ended with an error event; the terminal event reports
    as many output tokens as the slot had token events. *)
Theorem record_matches_stream (env : ProcessEnv) (b1 b2 : Backend.Behaviour)
    (schedule : list Key) (request : Request) (effects : list Effect) :
  GET env b1 b2 schedule request = EventStream effects ->
  backendsReady env request = true ->
  exists d,
    creates effects = [d]
    /\ Route.prompt request = Some (Prisma.content d)
    /\ Route.model1 request = Some (Prisma.model1 d)
    /\ Route.model2 request = Some (Prisma.model2 d)
    /\ recordMatchesSlot (Prisma.response1 d) (Prisma.cost1 d)
         (forSlot model1 (eventsOf effects))
    /\ recordMatchesSlot (Prisma.response2 d) (Prisma.cost2 d)
         (forSlot model2 (eventsOf effects)).
Proof.
  intros H Ready.
  destruct (Orchestrator.GET_cases _ _ _ _ _ _ H)
    as (sid & m1 & m2 & p & Hs & H1 & H2 & Hp & R1 & R2 & Cases).
  destruct Cases as [[_ (evs & -> & E1 & E2 & _)] | [NotReady _]]; [ | congruence].
  unfold saveStreamResults.
  rewrite Orchestrator.creates_app, Orchestrator.creates_Send.
  rewrite Orchestrator.eventsOf_app, Orchestrator.eventsOf_Send. simpl.
  rewrite app_nil_r, E1, E2.
  eexists. split; [reflexivity | ]. simpl.
  repeat (split; [assumption | ]).
  unfold aloneTrace.
  destruct (alone_summary (slotArgs sid m1 model1) R1 b1) as (t1 & l1 & A1 & T1 & O1 & S1).
  destruct (alone_summary (slotArgs sid m2 model2) R2 b2) as (t2 & l2 & A2 & T2 & O2 & S2).
  split.
  - exists (startEvent sid m1 model1), t1, l1. rewrite A1.
    repeat (split; [reflexivity || assumption | ]).
    destruct (fst (streamModelAlone (slotArgs sid m1 model1) b1)) as [v | e].
    + left. destruct S1 as (S & C & K). rewrite C, K. auto.
    + right. auto.
  - exists (startEvent sid m2 model2), t2, l2. rewrite A2.
    repeat (split; [reflexivity || assumption | ]).
    destruct (fst (streamModelAlone (slotArgs sid m2 model2) b2)) as [v | e].
    + left. destruct S2 as (S & C & K). rewrite C, K. auto.
    + right. auto.
Qed.

Lemma record_matches_stream_witness :
  exists d,
    creates (startStream bothKeys
               (Backend.Yields [chunkOf "Hi"; chunkOf ""; chunkOf " there"] None)
               (Backend.Yields [chunkOf "Hel"] (Some (Js.ErrorObj "reset")))
               [model2; model1; model1; model2] "s1" "gpt-4o-mini"
               "claude-3-5-haiku-20241022" "Say hi") = [d]
    /\ Prisma.response1 d = Some "Hi there"%string
    /\ Prisma.response2 d = None.
Proof.
  destruct (record_matches_stream bothKeys
              (Backend.Yields [chunkOf "Hi"; chunkOf ""; chunkOf " there"] None)
              (Backend.Yields [chunkOf "Hel"] (Some (Js.ErrorObj "reset")))
              [model2; model1; model1; model2] sayHi _ eq_refl eq_refl)
    as (d & C & _).
  exists d. split; [exact C | ]. inversion C. split; reflexivity.
Defined.

(** In every accepted response and for each slot, every event carries input
    count 0 and the output counts never decrease from one event of the slot
    to the next. *)
Theorem usage_along_slots (env : ProcessEnv) (b1 b2 : Backend.Behaviour)
    (schedule : list Key) (request : Request) (effects : list Effect)
    (k : Key) :
  GET env b1 b2 schedule request = EventStream effects ->
  Forall (fun e => inputOf e = 0) (forSlot k (eventsOf effects))
  /\ StronglySorted (fun e e' => outputOf e <= outputOf e')
       (forSlot k (eventsOf effects)).
Proof.
  intro H.
  destruct (Orchestrator.GET_cases _ _ _ _ _ _ H)
    as (sid & m1 & m2 & p & Hs & H1 & H2 & Hp & R1 & R2 & Cases).
  destruct Cases as [[_ (evs & -> & E1 & E2 & Keys)] | [_ (thrown & ->)]].
  - unfold saveStreamResults.
    rewrite Orchestrator.eventsOf_app, Orchestrator.eventsOf_Send. simpl.
    rewrite app_nil_r.
    assert (Slot : forall m b kk, getModelConfig m <> None ->
              Forall (fun e => inputOf e = 0) (aloneTrace sid m kk b)
              /\ StronglySorted (fun e e' => outputOf e <= outputOf e')
                   (aloneTrace sid m kk b)).
    { intros m b kk R. unfold aloneTrace.
      destruct (alone_usage (slotArgs sid m kk) R b) as (I & P & S).
      split; constructor; auto. }
    destruct k.
    + rewrite E1. apply Slot. exact R1.
    + rewrite E2. apply Slot. exact R2.
    + assert (E : forSlot system evs = []).
      { unfold forSlot. clear - Keys. induction Keys as [| e evs He _ IH]; simpl;
          [reflexivity | ].
        destruct He as [-> | ->]; simpl; exact IH. }
      rewrite E. split; constructor.
  - destruct k; simpl; split; repeat constructor.
Qed.

Lemma usage_along_slots_witness :
  StronglySorted (fun e e' => outputOf e <= outputOf e')
    (forSlot model1
       (eventsOf (startStream bothKeys
                    (Backend.Yields [chunkOf "Hi"; chunkOf " there"] None)
                    (Backend.Yields [chunkOf "Hello"] None)
                    [model1; model2; model1] "s1" "gpt-4o-mini"
                    "claude-3-5-haiku-20241022" "Say hi"))).
Proof.
  exact (proj2 (usage_along_slots bothKeys
                  (Backend.Yields [chunkOf "Hi"; chunkOf " there"] None)
                  (Backend.Yields [chunkOf "Hello"] None)
                  [model1; model2; model1] sayHi _ model1 eq_refl)).
Defined.

(** The stream of a request whose tasks were started is the start event of
    slot 1, the start event of slot 2, and then an interleaving of the events
    of the two tasks, each in its own order; and every such interleaving is
    the stream of some schedule. *)
Theorem stream_is_an_interleaving (env : ProcessEnv) (b1 b2 : Backend.Behaviour)
    (request : Request) (sid m1 m2 p : string) :
  session request = Some sid -> Route.model1 request = Some m1 ->
  Route.model2 request = Some m2 -> prompt request = Some p ->
  paramsPresent request = true -> modelsRegistered request = true ->
  backendsReady env request = true ->
  let solo1 := snd (streamModelAlone (slotArgs sid m1 model1) b1) in
  let solo2 := snd (streamModelAlone (slotArgs sid m2 model2) b2) in
  (forall schedule,
     exists effects body,
       GET env b1 b2 schedule request = EventStream effects
       /\ eventsOf effects
          = startEvent sid m1 model1 :: startEvent sid m2 model2 :: body
       /\ Merge solo1 solo2 body)
  /\ (forall body,
        Merge solo1 solo2 body ->
        exists schedule effects,
          GET env b1 b2 schedule request = EventStream effects
          /\ eventsOf effects
             = startEvent sid m1 model1 :: startEvent sid m2 model2 :: body).
Proof.
  intros Hs H1 H2 Hp Present Registered Ready solo1 solo2.
  unfold paramsPresent, modelsRegistered, backendsReady, Models.isModelAvailable in *.
  rewrite Hs, H1, H2, Hp in *. simpl in Present.
  assert (G : forall schedule,
            GET env b1 b2 schedule request
            = EventStream (startStream env b1 b2 schedule sid m1 m2 p)).
  { intro schedule. unfold GET. rewrite Hs, H1, H2, Hp.
    destruct (Js.truthy sid), (Js.truthy m1), (Js.truthy m2), (Js.truthy p);
      try discriminate Present. simpl.
    destruct (getModelConfig m1); [ | discriminate Registered].
    destruct (getModelConfig m2); [ | discriminate Registered]. reflexivity. }
  assert (S : forall schedule,
            eventsOf (startStream env b1 b2 schedule sid m1 m2 p)
            = snd (allSettled (slotArgs sid m1 model1) (slotArgs sid m2 model2) schedule
                     {| task1 := streamModel b1; task2 := streamModel b2;
                        sent := [startEvent sid m1 model1; startEvent sid m2 model2] |})).
  { intro schedule. unfold startStream.
    apply andb_true_iff in Ready. destruct Ready as [K1 K2].
    destruct (createModelInstance env m1); [ | discriminate K1].
    destruct (createModelInstance env m2); [ | discriminate K2]. simpl.
    fold (slotArgs sid m1 model1). fold (slotArgs sid m2 model2).
    destruct (allSettled _ _ schedule _) as [[s1 s2] evs]. simpl.
    unfold saveStreamResults.
    rewrite Orchestrator.eventsOf_app, Orchestrator.eventsOf_Send. simpl.
    apply app_nil_r. }
  split.
  - intro schedule.
    destruct (Orchestrator.allSettled_merges (slotArgs sid m1 model1)
                (slotArgs sid m2 model2) schedule
                {| task1 := streamModel b1; task2 := streamModel b2;
                   sent := [startEvent sid m1 model1; startEvent sid m2 model2] |})
      as (body & E & M).
    exists (startStream env b1 b2 schedule sid m1 m2 p), body.
    split; [apply G | ]. split; [rewrite S, E; reflexivity | exact M].
  - intros body M.
    destruct (Orchestrator.every_merge_is_scheduled (slotArgs sid m1 model1)
                (slotArgs sid m2 model2) _ _ body M
                {| task1 := streamModel b1; task2 := streamModel b2;
                   sent := [startEvent sid m1 model1; startEvent sid m2 model2] |}
                eq_refl eq_refl) as [schedule E].
    exists schedule, (startStream env b1 b2 schedule sid m1 m2 p).
    split; [apply G | ]. rewrite S, E. reflexivity.
Qed.

Lemma stream_is_an_interleaving_witness :
  exists effects body,
    GET bothKeys (Backend.Yields [chunkOf "Hi"] None) (Backend.Yields [chunkOf "Hello"] None)
      [model2; model2; model1] sayHi = EventStream effects
    /\ eventsOf effects
       = startEvent "s1" "gpt-4o-mini" model1
         :: startEvent "s1" "claude-3-5-haiku-20241022" model2 :: body.
Proof.
  destruct (proj1 (stream_is_an_interleaving bothKeys
                     (Backend.Yields [chunkOf "Hi"] None)
                     (Backend.Yields [chunkOf "Hello"] None) sayHi
                     "s1" "gpt-4o-mini" "claude-3-5-haiku-20241022" "Say hi"
                     eq_refl eq_refl eq_refl eq_refl eq_refl eq_refl eq_refl)
              [model2; model2; model1]) as (effects & body & G & E & _).
  exists effects, body. split; assumption.
Defined.

End RouteMore.

(* ================================================================== *)
(** ** More on the client-side reducer *)
(* ================================================================== *)

Module ClientMore.

Import StreamEvent.
Local Open Scope list_scope.

Lemma update_get (k : Key) (s : Client.StreamState) (e : StreamEvent.t) :
  isSlot k = true ->
  Client.get k (Client.updateStreamState s e)
  = if Key_eqb (model e) k then slotStep (Client.get k s) e else Client.get k s.
Proof.
  intro Hk. unfold Client.updateStreamState, slotStep.
  destruct (model e) eqn:M; destruct k; try discriminate Hk; simpl;
    try reflexivity; destruct (type e); reflexivity.
Qed.

Lemma fold_get (k : Key) (evs : list StreamEvent.t) (s : Client.StreamState) :
  isSlot k = true ->
  Client.get k (fold_left Client.updateStreamState evs s)
  = fold_left slotStep (Route.forSlot k evs) (Client.get k s).
Proof.
  intro Hk. revert s. induction evs as [| e evs IH]; intro s; simpl; [reflexivity | ].
  rewrite IH, (update_get k s e Hk).
  destruct (Key_eqb (model e) k); reflexivity.
Qed.

Lemma update_consistent (s : Client.StreamState) (e : StreamEvent.t) :
  derivedConsistent s -> derivedConsistent (Client.updateStreamState s e).
Proof.
  intro H. unfold Client.updateStreamState.
  destruct (model e); [ | | exact H]; split; simpl; reflexivity.
Qed.

Lemma fold_consistent (evs : list StreamEvent.t) (s : Client.StreamState) :
  derivedConsistent s -> derivedConsistent (fold_left Client.updateStreamState evs s).
Proof.
  revert s. induction evs as [| e evs IH]; intros s H; simpl; [exact H | ].
  apply IH. apply update_consistent. exact H.
Qed.

(** Whatever events arrive, in whatever order: the total cost of the client
    state is the sum of the two slot costs and [isAnyStreaming] is the
    disjunction of the two slot flags; an event tagged ['system'] changes
    nothing; a [start] event clears the slot's content and error and sets
    it streaming, but keeps the tokens and the cost the slot had. *)
Theorem reducer_invariant (evs : list StreamEvent.t) :
  derivedConsistent (replay evs)
  /\ (forall s e, model e = system -> Client.updateStreamState s e = s)
  /\ (forall s e k,
        isSlot k = true -> model e = k -> type e = start ->
        let ms := Client.get k (Client.updateStreamState s e) in
        Client.content ms = ""%string
        /\ Client.isStreaming ms = true
        /\ Client.error ms = None
        /\ Client.tokens ms = Client.tokens (Client.get k s)
        /\ Client.cost ms = Client.cost (Client.get k s)).
Proof.
  split; [ | split].
  - apply fold_consistent. split; reflexivity.
  - intros s e H. unfold Client.updateStreamState. rewrite H. reflexivity.
  - intros s e k Hk Hm Ht. simpl. rewrite (update_get k s e Hk), Hm.
    destruct k; try discriminate Hk; simpl; unfold slotStep; rewrite Ht; simpl; auto.
Qed.

Lemma reducer_invariant_witness :
  Client.cost (Client.get model1
                 (Client.updateStreamState streamingState
                    (Route.startEvent "s2" "gpt-4o" model1)))
  = 15 # 1000000.
Proof.
  exact (proj2 (proj2 (proj2 (proj2
           (proj2 (proj2 (reducer_invariant [])) streamingState
              (Route.startEvent "s2" "gpt-4o" model1) model1
              eq_refl eq_refl eq_refl))))).
Defined.

Lemma orString_empty (s : string) : Js.orString s "" = s.
Proof. destruct s; reflexivity. Qed.

Lemma orNumber_zero (c : Q) : (Js.orNumber c 0 == c)%Q.
Proof.
  unfold Js.orNumber. destruct (Qeq_bool c 0) eqn:E; [ | reflexivity].
  apply Qeq_bool_iff in E. symmetry. exact E.
Qed.

Lemma fold_tokens (toks : list StreamEvent.t) (ms : Client.ModelState) :
  forallb isToken toks = true ->
  Client.content (fold_left slotStep toks ms) = (Client.content ms ++ deltas toks)%string
  /\ Client.isStreaming (fold_left slotStep toks ms) = Client.isStreaming ms
  /\ Client.error (fold_left slotStep toks ms) = Client.error ms.
Proof.
  revert ms. induction toks as [| e toks IH]; intros ms H; simpl.
  - rewrite RouteMore.string_app_nil_r. auto.
  - simpl in H. apply andb_true_iff in H. destruct H as [He Ht].
    destruct (IH (slotStep ms e) Ht) as (C & S & E). rewrite C, S, E.
    unfold deltas. simpl. rewrite He. simpl. fold (deltas toks).
    unfold slotStep. unfold isToken in He.
    destruct (type e); try discriminate He. simpl.
    rewrite orString_empty, RouteMore.string_app_assoc. auto.
Qed.

(** The sub-state a slot ends in after its events: one start, tokens, one
    terminal event. *)
Lemma fold_slot (first last : StreamEvent.t) (toks : list StreamEvent.t)
    (ms : Client.ModelState) :
  isStart first = true ->
  forallb isToken toks = true ->
  let ms' := fold_left slotStep (first :: toks ++ [last]) ms in
  (type last = complete ->
   Client.content ms' = deltas toks /\ Client.isStreaming ms' = false
   /\ Client.error ms' = None
   /\ (Client.cost ms' == StreamResponse.cost (data last))%Q)
  /\ (type last = StreamEvent.error ->
      Client.content ms' = deltas toks /\ Client.isStreaming ms' = false
      /\ Client.error ms' <> None).
Proof.
  intros Hf Ht. simpl. rewrite fold_left_app. simpl.
  destruct (fold_tokens toks (slotStep ms first) Ht) as (C & S & E).
  unfold isStart in Hf.
  assert (F : Client.content (slotStep ms first) = ""%string
              /\ Client.error (slotStep ms first) = None).
  { unfold slotStep. destruct (type first); try discriminate Hf. auto. }
  destruct F as [F1 F2]. rewrite F1 in C. rewrite F2 in E. simpl in C.
  set (mid := fold_left slotStep toks (slotStep ms first)) in *.
  split; intro Hl; unfold slotStep; rewrite Hl; simpl.
  - rewrite C, E. repeat split. apply orNumber_zero.
  - rewrite C. repeat split. discriminate.
Qed.

(** Folding the events of any accepted response into a fresh client state
    leaves no slot streaming and the derived fields consistent.  When the
    tasks were started, each slot of the client state shows what the record
    holds for it: the persisted response text and cost with no error, or an
    error where the record holds [null]. *)
Theorem client_replay_matches_record (env : ProcessEnv) (b1 b2 : Backend.Behaviour)
    (schedule : list Key) (request : Route.Request) (effects : list Route.Effect) :
  Route.GET env b1 b2 schedule request = Route.EventStream effects ->
  let s := replay (Route.eventsOf effects) in
  Client.isAnyStreaming s = false
  /\ Client.isStreaming (Client.model1 s) = false
  /\ Client.isStreaming (Client.model2 s) = false
  /\ (backendsReady env request = true ->
      exists d,
        Route.creates effects = [d]
        /\ slotShows (Prisma.response1 d) (Prisma.cost1 d) (Client.model1 s)
        /\ slotShows (Prisma.response2 d) (Prisma.cost2 d) (Client.model2 s)).
Proof.
  intros H s.
  assert (Cons : derivedConsistent s) by (apply fold_consistent; split; reflexivity).
  destruct (Orchestrator.GET_cases _ _ _ _ _ _ H)
    as (sid & m1 & m2 & p & Hs & H1 & H2 & Hp & R1 & R2 & Cases).
  destruct Cases as [[Ready (evs & E & E1 & E2 & _)] | [NotReady (thrown & E)]].
  - assert (Ev : Route.eventsOf effects = evs).
    { rewrite E. unfold Route.saveStreamResults.
      rewrite Orchestrator.eventsOf_app, Orchestrator.eventsOf_Send. simpl.
      apply app_nil_r. }
    assert (G1 : Client.model1 s
                 = fold_left slotStep (aloneTrace sid m1 model1 b1)
                     (Client.model1 Client.createInitialStreamState)).
    { subst s. unfold replay. rewrite Ev, <- E1.
      exact (fold_get model1 evs Client.createInitialStreamState eq_refl). }
    assert (G2 : Client.model2 s
                 = fold_left slotStep (aloneTrace sid m2 model2 b2)
                     (Client.model2 Client.createInitialStreamState)).
    { subst s. unfold replay. rewrite Ev, <- E2.
      exact (fold_get model2 evs Client.createInitialStreamState eq_refl). }
    unfold aloneTrace in G1, G2.
    destruct (RouteMore.alone_summary (slotArgs sid m1 model1) R1 b1)
      as (t1 & l1 & A1 & T1 & O1 & S1).
    destruct (RouteMore.alone_summary (slotArgs sid m2 model2) R2 b2)
      as (t2 & l2 & A2 & T2 & O2 & S2).
    rewrite A1 in G1. rewrite A2 in G2.
    destruct (fold_slot (Route.startEvent sid m1 model1) l1 t1
                (Client.model1 Client.createInitialStreamState) eq_refl T1) as [C1 F1].
    destruct (fold_slot (Route.startEvent sid m2 model2) l2 t2
                (Client.model2 Client.createInitialStreamState) eq_refl T2) as [C2 F2].
    rewrite <- G1 in C1, F1. rewrite <- G2 in C2, F2.
    assert (Str : Client.isStreaming (Client.model1 s) = false
                  /\ Client.isStreaming (Client.model2 s) = false).
    { split.
      - destruct (fst (Route.streamModelAlone (slotArgs sid m1 model1) b1));
          [apply C1; tauto | apply F1; tauto].
      - destruct (fst (Route.streamModelAlone (slotArgs sid m2 model2) b2));
          [apply C2; tauto | apply F2; tauto]. }
    destruct Str as [Str1 Str2].
    split; [destruct Cons as [_ ->]; rewrite Str1, Str2; reflexivity | ].
    split; [exact Str1 | ]. split; [exact Str2 | ].
    intros _. rewrite E. unfold Route.saveStreamResults.
    rewrite Orchestrator.creates_app, Orchestrator.creates_Send. simpl.
    eexists. split; [reflexivity | ]. simpl. split.
    + destruct (fst (Route.streamModelAlone (slotArgs sid m1 model1) b1)) as [v | e].
      * destruct S1 as (S & C & K). destruct (C1 S) as (X1 & _ & X3 & X4).
        simpl. rewrite C, K. auto.
      * simpl. apply F1. exact S1.
    + destruct (fst (Route.streamModelAlone (slotArgs sid m2 model2) b2)) as [v | e].
      * destruct S2 as (S & C & K). destruct (C2 S) as (X1 & _ & X3 & X4).
        simpl. rewrite C, K. auto.
      * simpl. apply F2. exact S2.
  - subst s. rewrite E. simpl. repeat split. congruence.
Qed.

Lemma client_replay_matches_record_witness :
  Client.content
    (Client.model1
       (replay (Route.eventsOf
                  (Route.startStream bothKeys
                     (Backend.Yields [chunkOf "Hi"; chunkOf " there"] None)
                     (Backend.Yields [chunkOf "Hello"] None)
                     [model2; model1; model2] "s1" "gpt-4o-mini"
                     "claude-3-5-haiku-20241022" "Say hi"))))
  = "Hi there"%string.
Proof.
  destruct (client_replay_matches_record bothKeys
              (Backend.Yields [chunkOf "Hi"; chunkOf " there"] None)
              (Backend.Yields [chunkOf "Hello"] None)
              [model2; model1; model2] sayHi _ eq_refl)
    as (_ & _ & _ & R).
  destruct (R eq_refl) as (d & C & S1 & _).
  inversion C; subst d. simpl in S1. apply S1.
Defined.

End ClientMore.

(* ================================================================== *)
(** ** More on the history store *)
(* ================================================================== *)

Module StoreFacts.

Local Open Scope list_scope.

Lemma insertDesc_perm (p : Prisma.Prompt) (l : list Prisma.Prompt) :
  Permutation (PrismaQueries.insertDesc p l) (p :: l).
Proof.
  induction l as [| q r IH]; simpl; [reflexivity | ].
  destruct (Prisma.createdAt q <=? Prisma.createdAt p); [reflexivity | ].
  rewrite IH. apply perm_swap.
Qed.

Lemma orderBy_perm (l : list Prisma.Prompt) :
  Permutation (PrismaQueries.orderByCreatedAtDesc l) l.
Proof.
  induction l as [| p l IH]; simpl; [reflexivity | ].
  rewrite insertDesc_perm. constructor. exact IH.
Qed.

Lemma insertDesc_sorted (p : Prisma.Prompt) (l : list Prisma.Prompt) :
  StronglySorted newerEq l -> StronglySorted newerEq (PrismaQueries.insertDesc p l).
Proof.
  induction 1 as [| q r Hs IH Hall]; simpl; [repeat constructor | ].
  destruct (Prisma.createdAt q <=? Prisma.createdAt p) eqn:E.
  - apply Z.leb_le in E. constructor.
    + constructor; assumption.
    + constructor; [exact E | ].
      eapply Forall_impl; [ | exact Hall]. unfold newerEq. simpl. intros x Hx. lia.
  - apply Z.leb_gt in E. constructor; [exact IH | ].
    assert (P : Permutation (PrismaQueries.insertDesc p r) (p :: r))
      by apply insertDesc_perm.
    apply (Permutation_Forall (Permutation_sym P)).
    constructor; [unfold newerEq; lia | exact Hall].
Qed.

Lemma orderBy_sorted (l : list Prisma.Prompt) :
  StronglySorted newerEq (PrismaQueries.orderByCreatedAtDesc l).
Proof.
  induction l as [| p l IH]; simpl; [constructor | ].
  apply insertDesc_sorted. exact IH.
Qed.



Lemma find_app {A : Type} (f : A -> bool) (l l' : list A) :
  find f (l ++ l') = match find f l with Some x => Some x | None => find f l' end.
Proof.
  induction l as [| x l IH]; simpl; [reflexivity | ].
  destruct (f x); [reflexivity | exact IH].
Qed.

Lemma filter_none {A : Type} (f : A -> bool) (l : list A) :
  existsb f l = false -> filter (fun x => negb (f x)) l = l.
Proof.
  induction l as [| x l IH]; simpl; [reflexivity | ].
  destruct (f x); simpl; [discriminate | ]. intro H. rewrite (IH H). reflexivity.
Qed.

Lemma existsb_hasId (i : string) (l : list Prisma.Prompt) :
  existsb (Prisma.hasId i) l = false -> ~ In i (map Prisma.id l).
Proof.
  induction l as [| p l IH]; simpl; [tauto | ].
  unfold Prisma.hasId at 1. destruct (String.eqb (Prisma.id p) i) eqn:E; simpl;
    [discriminate | ].
  intros H [K | K].
  - subst i. rewrite String.eqb_refl in E. discriminate.
  - exact (IH H K).
Qed.

Lemma create_facts (newId : string) (now : Z) (data : Prisma.PromptCreateInput)
    (db db' : Prisma.Database) (row : Prisma.Prompt) :
  Prisma.create newId now data db = Js.Ok (row, db') ->
  HistoryMore.getPromptById newId db'
  = {| success := true; data := Some row; error := None |}
  /\ Prisma.fields row = data /\ Prisma.id row = newId /\ Prisma.createdAt row = now
  /\ (uniqueIds db -> uniqueIds db').
Proof.
  unfold Prisma.create.
  destruct (Prisma.online db) eqn:On; simpl; [ | discriminate].
  destruct (existsb (Prisma.hasId newId) (Prisma.prompts db)) eqn:Ex; [discriminate | ].
  intro H. inversion H; subst row db'; clear H.
  assert (Fnone : find (Prisma.hasId newId) (Prisma.prompts db) = None).
  { pose proof Ex as Ex'. rewrite find_existsb in Ex'.
    destruct (find (Prisma.hasId newId) (Prisma.prompts db)); [discriminate | reflexivity]. }
  unfold HistoryMore.getPromptById, PrismaQueries.findUnique, uniqueIds.
  cbn [Prisma.online Prisma.prompts negb]. rewrite find_app, Fnone. cbn [find].
  unfold Prisma.hasId at 1. cbn [Prisma.id]. rewrite String.eqb_refl.
  split; [reflexivity | ]. repeat (split; [reflexivity | ]).
  intro U. rewrite map_app. simpl.
  apply Permutation_NoDup with (l := newId :: map Prisma.id (Prisma.prompts db)).
  - apply Permutation_cons_append.
  - constructor; [apply existsb_hasId; exact Ex | exact U].
Qed.

(** Creating a row and reading it back.  After a successful [create] the
    row is found under the generated id with exactly the supplied columns,
    every other id is looked up as before, the ids stay pairwise distinct,
    and deleting the row again restores the table, after which the id is
    reported as not found. *)
Theorem create_then_lookup (newId : string) (now : Z) (data : Prisma.PromptCreateInput)
    (db db' : Prisma.Database) (row : Prisma.Prompt) :
  Prisma.create newId now data db = Js.Ok (row, db') ->
  HistoryMore.getPromptById newId db'
  = {| success := true; data := Some row; error := None |}
  /\ Prisma.fields row = data /\ Prisma.id row = newId /\ Prisma.createdAt row = now
  /\ (forall i, i <> newId ->
        HistoryMore.getPromptById i db' = HistoryMore.getPromptById i db)
  /\ (uniqueIds db -> uniqueIds db')
  /\ History.deletePromptHistoryItem newId db'
     = ({| success := true; data := None; error := None |}, db)
  /\ HistoryMore.getPromptById newId db
     = {| success := false; data := None; error := Some "Prompt nicht gefunden"%string |}.
Proof.
  unfold Prisma.create.
  destruct (Prisma.online db) eqn:On; simpl; [ | discriminate].
  destruct (existsb (Prisma.hasId newId) (Prisma.prompts db)) eqn:Ex; [discriminate | ].
  intro H. inversion H; subst row db'; clear H.
  assert (Fnone : find (Prisma.hasId newId) (Prisma.prompts db) = None).
  { pose proof Ex as Ex'. rewrite find_existsb in Ex'.
    destruct (find (Prisma.hasId newId) (Prisma.prompts db)); [discriminate | reflexivity]. }
  set (row := {| Prisma.id := newId; Prisma.createdAt := now; Prisma.fields := data |}).
  assert (Self : Prisma.hasId newId row = true)
    by (unfold Prisma.hasId; simpl; apply String.eqb_refl).
  unfold HistoryMore.getPromptById, PrismaQueries.findUnique,
    History.deletePromptHistoryItem, Prisma.delete, uniqueIds.
  cbn [Prisma.online Prisma.prompts]. rewrite On.
  cbn [negb]. rewrite !find_app, Fnone. cbn [find]. rewrite Self.
  split; [reflexivity | ]. repeat (split; [reflexivity | ]).
  split; [ | split; [ | split]].
  - intros i Hi. rewrite find_app. cbn [find].
    assert (Other : Prisma.hasId i row = false).
    { unfold Prisma.hasId. simpl. apply String.eqb_neq. congruence. }
    rewrite Other.
    destruct (find (Prisma.hasId i) (Prisma.prompts db)); reflexivity.
  - intro U. rewrite map_app. simpl.
    apply Permutation_NoDup with (l := newId :: map Prisma.id (Prisma.prompts db)).
    + apply Permutation_cons_append.
    + constructor; [apply existsb_hasId; exact Ex | exact U].
  - rewrite filter_app. cbn [filter]. rewrite Self. cbn [negb]. rewrite app_nil_r.
    rewrite (filter_none (Prisma.hasId newId) _ Ex).
    destruct db as [rows online]. simpl in *. subst online. reflexivity.
  - reflexivity.
Qed.

Lemma create_then_lookup_witness :
  exists row db',
    Prisma.create "c1" 1700000000 
      {| Prisma.content := "Say hi"; Prisma.model1 := "gpt-4o"; Prisma.model2 := "gpt-4o-mini";
         Prisma.response1 := Some "Hi"%string; Prisma.response2 := None;
         Prisma.cost1 := Some (15 # 1000000); Prisma.cost2 := None |} emptyDb
    = Js.Ok (row, db')
    /\ HistoryMore.getPromptById "c1" db'
       = {| success := true; data := Some row; error := None |}.
Proof.
  do 2 eexists. split; [reflexivity | ].
  exact (proj1 (create_then_lookup "c1" 1700000000 _ emptyDb _ _ eq_refl)).
Defined.

(** After a streamed comparison whose tasks were started, on a working store
    and with a generated id that is not in the table yet, the history holds
    exactly one more row; it is found under the generated id and carries the
    record the handler created. *)
Theorem streamed_record_can_be_read (env : ProcessEnv) (b1 b2 : Backend.Behaviour)
    (schedule : list StreamEvent.Key) (request : Route.Request)
    (effects : list Route.Effect) (db : Prisma.Database) (newId : string) (now : Z) :
  Route.GET env b1 b2 schedule request = Route.EventStream effects ->
  backendsReady env request = true ->
  Prisma.online db = true ->
  existsb (Prisma.hasId newId) (Prisma.prompts db) = false ->
  exists d,
    Route.creates effects = [d]
    /\ Prisma.prompts (Route.applyEffects newId now effects db)
       = Prisma.prompts db
         ++ [{| Prisma.id := newId; Prisma.createdAt := now; Prisma.fields := d |}]
    /\ HistoryMore.getPromptById newId (Route.applyEffects newId now effects db)
       = {| success := true;
            data := Some {| Prisma.id := newId; Prisma.createdAt := now;
                            Prisma.fields := d |};
            error := None |}
    /\ (uniqueIds db -> uniqueIds (Route.applyEffects newId now effects db)).
Proof.
  intros H Ready On Fresh.
  destruct (Orchestrator.GET_cases _ _ _ _ _ _ H)
    as (sid & m1 & m2 & p & Hs & H1 & H2 & Hp & R1 & R2 & Cases).
  destruct Cases as [[_ (evs & -> & _)] | [NotReady _]]; [ | congruence].
  unfold Route.saveStreamResults.
  rewrite Orchestrator.creates_app, Orchestrator.creates_Send.
  rewrite Orchestrator.applyEffects_Send. simpl app.
  match goal with
  | |- context [Route.DbCreate ?d0 :: [Route.Close]] => set (d := d0)
  end.
  exists d. split; [reflexivity | ].
  cbn [Route.applyEffects].
  destruct (Prisma.create newId now d db) as [[row db'] | e] eqn:C.
  - destruct (create_facts newId now d db db' row C) as (L & F & I & T & U).
    assert (Row : row = {| Prisma.id := newId; Prisma.createdAt := now;
                           Prisma.fields := d |})
      by (destruct row; simpl in *; congruence).
    subst row. split; [ | split; [exact L | exact U]].
    unfold Prisma.create in C. rewrite On, Fresh in C. simpl in C.
    inversion C. reflexivity.
  - unfold Prisma.create in C. rewrite On, Fresh in C. discriminate C.
Qed.

Lemma streamed_record_can_be_read_witness :
  exists d,
    HistoryMore.getPromptById "c7"
      (Route.applyEffects "c7" 1700000000
         (Route.startStream bothKeys (Backend.Yields [chunkOf "Hi"] None)
            (Backend.FailsToStart (Js.ErrorObj "503")) [] "s1" "gpt-4o-mini"
            "claude-3-5-haiku-20241022" "Say hi") emptyDb)
    = {| success := true;
         data := Some {| Prisma.id := "c7"; Prisma.createdAt := 1700000000;
                         Prisma.fields := d |};
         error := None |}.
Proof.
  destruct (streamed_record_can_be_read bothKeys (Backend.Yields [chunkOf "Hi"] None)
              (Backend.FailsToStart (Js.ErrorObj "503")) [] sayHi _ emptyDb "c7"
              1700000000 eq_refl eq_refl eq_refl eq_refl) as (d & _ & _ & L & _).
  exists d. exact L.
Defined.



(** *** [cleanupHistory] *)

Lemma filter_perm {A : Type} (f : A -> bool) (l l' : list A) :
  Permutation l l' -> Permutation (filter f l) (filter f l').
Proof.
  induction 1 as [| x l l' _ IH | x y l | l l' l'' _ IH1 _ IH2]; simpl.
  - constructor.
  - destruct (f x); [constructor | ]; exact IH.
  - destruct (f x); destruct (f y); try reflexivity. apply perm_swap.
  - etransitivity; eassumption.
Qed.

Lemma filter_all {A : Type} (f : A -> bool) (l : list A) :
  (forall x, In x l -> f x = true) -> filter f l = l.
Proof.
  induction l as [| x l IH]; simpl; intro H; [reflexivity | ].
  rewrite (H x (or_introl eq_refl)). rewrite IH; [reflexivity | ].
  intros y Hy. apply H. right. exact Hy.
Qed.

Lemma filter_nothing {A : Type} (f : A -> bool) (l : list A) :
  (forall x, In x l -> f x = false) -> filter f l = [].
Proof.
  induction l as [| x l IH]; simpl; intro H; [reflexivity | ].
  rewrite (H x (or_introl eq_refl)). apply IH.
  intros y Hy. apply H. right. exact Hy.
Qed.

Lemma NoDup_app_disjoint {A : Type} (l1 l2 : list A) (a : A) :
  NoDup (l1 ++ l2) -> In a l1 -> ~ In a l2.
Proof.
  induction l1 as [| x l1 IH]; simpl; intros N H1 H2; [contradiction | ].
  inversion N; subst. destruct H1 as [-> | H1].
  - apply H3. apply in_or_app. right. exact H2.
  - exact (IH H4 H1 H2).
Qed.

Lemma listed_iff (ids : list string) (p : Prisma.Prompt) :
  existsb (String.eqb (Prisma.id p)) ids = true <-> In (Prisma.id p) ids.
Proof.
  rewrite existsb_exists. split.
  - intros (i & Hi & E). apply String.eqb_eq in E. subst. exact Hi.
  - intro H. exists (Prisma.id p). split; [exact H | apply String.eqb_refl].
Qed.

Lemma sorted_app_cross {A : Type} (R : A -> A -> Prop) (l1 l2 : list A) (x y : A) :
  StronglySorted R (l1 ++ l2) -> In x l1 -> In y l2 -> R x y.
Proof.
  induction l1 as [| z l1 IH]; simpl; intros S Hx Hy; [contradiction | ].
  inversion S; subst. destruct Hx as [-> | Hx].
  - rewrite Forall_forall in H2. apply H2. apply in_or_app. right. exact Hy.
  - exact (IH H1 Hx Hy).
Qed.

(** Deleting the rows listed after the first [k] of an ordering of the
    table, by id, leaves the first [k]. *)
Lemma delete_tail_by_id (rows sorted : list Prisma.Prompt) (k : nat) :
  Permutation sorted rows ->
  NoDup (map Prisma.id rows) ->
  let hit := fun p => existsb (String.eqb (Prisma.id p)) (map Prisma.id (skipn k sorted)) in
  Permutation (filter (fun p => negb (hit p)) rows) (firstn k sorted)
  /\ List.length (filter hit rows) = List.length (skipn k sorted).
Proof.
  intros P N hit.
  assert (NS : NoDup (map Prisma.id (firstn k sorted) ++ map Prisma.id (skipn k sorted))).
  { rewrite <- map_app, firstn_skipn.
    apply (Permutation_NoDup (Permutation_map Prisma.id (Permutation_sym P)) N). }
  assert (HK : forall p, In p (firstn k sorted) -> hit p = false).
  { intros p Hp. destruct (hit p) eqn:E; [ | reflexivity].
    apply listed_iff in E. exfalso.
    apply (NoDup_app_disjoint _ _ (Prisma.id p) NS); [ | exact E].
    apply in_map. exact Hp. }
  assert (HD : forall p, In p (skipn k sorted) -> hit p = true).
  { intros p Hp. apply listed_iff. apply in_map. exact Hp. }
  split.
  - rewrite (filter_perm _ _ _ (Permutation_sym P)).
    rewrite <- (firstn_skipn k sorted) at 1. rewrite filter_app.
    rewrite (filter_all (fun p => negb (hit p)) (firstn k sorted))
      by (intros p Hp; rewrite (HK p Hp); reflexivity).
    rewrite (filter_nothing (fun p => negb (hit p)) (skipn k sorted))
      by (intros p Hp; rewrite (HD p Hp); reflexivity).
    rewrite app_nil_r. reflexivity.
  - rewrite (Permutation_length (filter_perm hit _ _ (Permutation_sym P))).
    rewrite <- (firstn_skipn k sorted) at 1. rewrite filter_app, length_app.
    rewrite (filter_nothing hit (firstn k sorted) HK).
    rewrite (filter_all hit (skipn k sorted) HD). reflexivity.
Qed.

(** [cleanupHistory] with only [keepCount] set, on a working store whose
    ids are pairwise distinct: the [keepCount] newest rows survive, every
    surviving row is at least as new as every removed row, and the reported
    number is the number of rows removed. *)
Theorem cleanupHistory_keeps_newest (cutoffBefore : Z -> Z)
    (options : HistoryMore.CleanupOptions) (k : Z) (db : Prisma.Database) :
  Prisma.online db = true ->
  uniqueIds db ->
  HistoryMore.keepCount options = Some k ->
  0 < k ->
  HistoryMore.truthyNum (HistoryMore.olderThanDays options) = false ->
  HistoryMore.truthyFlag (HistoryMore.removeErrors options) = false ->
  exists db',
    HistoryMore.cleanupHistory cutoffBefore options db
    = ({| success := true;
          data := Some (Z.max 0 (Z.of_nat (List.length (Prisma.prompts db)) - k));
          error := None |}, db')
    /\ Permutation (Prisma.prompts db')
         (firstn (Z.to_nat k) (PrismaQueries.orderByCreatedAtDesc (Prisma.prompts db)))
    /\ Z.of_nat (List.length (Prisma.prompts db'))
       = Z.min k (Z.of_nat (List.length (Prisma.prompts db)))
    /\ (forall p q,
          In p (Prisma.prompts db') -> In q (Prisma.prompts db) ->
          ~ In q (Prisma.prompts db') -> newerEq p q).
Proof.
  intros On U Hk Hpos Hold Herr.
  set (rows := Prisma.prompts db).
  set (sorted := PrismaQueries.orderByCreatedAtDesc rows).
  assert (P : Permutation sorted rows) by apply orderBy_perm.
  assert (Len : List.length sorted = List.length rows) by apply (Permutation_length P).
  assert (Main : exists db',
            HistoryMore.cleanupHistory cutoffBefore options db
            = ({| success := true;
                  data := Some (Z.max 0 (Z.of_nat (List.length rows) - k));
                  error := None |}, db')
            /\ Permutation (Prisma.prompts db') (firstn (Z.to_nat k) sorted)).
  { unfold HistoryMore.cleanupHistory.
    rewrite Hk, Hold, Herr. simpl HistoryMore.truthyNum.
    replace (k =? 0) with false by (symmetry; apply Z.eqb_neq; lia). simpl.
    unfold PrismaQueries.findManyNewestFirst. rewrite On. simpl.
    fold rows. fold sorted. rewrite Len.
    destruct (k <? Z.of_nat (List.length rows)) eqn:E.
    - apply Z.ltb_lt in E.
      unfold HistoryMore.slice. replace (k <? 0) with false by (symmetry; apply Z.ltb_ge; lia).
      unfold Prisma.deleteMany. rewrite On. simpl. fold rows.
      destruct (delete_tail_by_id rows sorted (Z.to_nat k) P U) as [Pk Lk].
      simpl in Pk, Lk. rewrite Lk.
      eexists. split.
      + apply f_equal2; [ | reflexivity].
        rewrite length_skipn, Len. do 2 f_equal. lia.
      + simpl. exact Pk.
    - apply Z.ltb_ge in E. exists db. split.
      + apply f_equal2; [ | reflexivity]. do 2 f_equal. lia.
      + fold rows. rewrite firstn_all2 by lia. symmetry. exact P. }
  destruct Main as (db' & E & Pk). exists db'.
  split; [exact E | ]. split; [exact Pk | ]. split.
  - rewrite (Permutation_length Pk), length_firstn, Len. lia.
  - intros p q Hp Hq Hnq.
    assert (Hp' : In p (firstn (Z.to_nat k) sorted))
      by (apply (Permutation_in p Pk); exact Hp).
    assert (Hq' : In q (skipn (Z.to_nat k) sorted)).
    { assert (Hs : In q sorted) by (apply (Permutation_in q (Permutation_sym P)); exact Hq).
      rewrite <- (firstn_skipn (Z.to_nat k) sorted) in Hs.
      apply in_app_or in Hs. destruct Hs as [Hs | Hs]; [ | exact Hs].
      exfalso. apply Hnq. apply (Permutation_in q (Permutation_sym Pk)). exact Hs. }
    apply (sorted_app_cross newerEq (firstn (Z.to_nat k) sorted)
             (skipn (Z.to_nat k) sorted) p q); [ | exact Hp' | exact Hq'].
    rewrite firstn_skipn. apply orderBy_sorted.
Qed.

Lemma cleanupHistory_keeps_newest_witness :
  exists db',
    HistoryMore.cleanupHistory (fun days => 100 - days)
      {| HistoryMore.olderThanDays := None; HistoryMore.keepCount := Some 2;
         HistoryMore.removeErrors := Some false |} threeRows
    = ({| success := true; data := Some 1; error := None |}, db')
    /\ Z.of_nat (List.length (Prisma.prompts db')) = 2.
Proof.
  destruct (cleanupHistory_keeps_newest (fun days => 100 - days)
              {| HistoryMore.olderThanDays := None; HistoryMore.keepCount := Some 2;
                 HistoryMore.removeErrors := Some false |} 2 threeRows)
    as (db' & E & _ & L & _).
  - reflexivity.
  - unfold uniqueIds. simpl.
    repeat (constructor; [simpl; intuition discriminate | ]). constructor.
  - reflexivity.
  - lia.
  - reflexivity.
  - reflexivity.
  - exists db'. split; [exact E | exact L].
Defined.

(** The options of [cleanupHistory] at their edges.  With nothing effective
    requested (every option absent, 0 or false) it reports success with 0
    and does not touch the store, even a failing one.  Next to
    [olderThanDays] or [removeErrors] the option [keepCount] is ignored.
    With [removeErrors] alone it removes exactly the rows whose two
    responses are both [null]; a row with one response stays.  On a failing
    store an effective request reports failure. *)
Theorem cleanupHistory_options (cutoffBefore : Z -> Z)
    (options : HistoryMore.CleanupOptions) (db : Prisma.Database) :
  (HistoryMore.truthyNum (HistoryMore.olderThanDays options) = false ->
   HistoryMore.truthyFlag (HistoryMore.removeErrors options) = false ->
   HistoryMore.truthyNum (HistoryMore.keepCount options) = false ->
   HistoryMore.cleanupHistory cutoffBefore options db
   = ({| success := true; data := Some 0; error := None |}, db))
  /\ (HistoryMore.truthyNum (HistoryMore.olderThanDays options)
      || HistoryMore.truthyFlag (HistoryMore.removeErrors options) = true ->
      HistoryMore.cleanupHistory cutoffBefore options db
      = HistoryMore.cleanupHistory cutoffBefore
          {| HistoryMore.olderThanDays := HistoryMore.olderThanDays options;
             HistoryMore.keepCount := None;
             HistoryMore.removeErrors := HistoryMore.removeErrors options |} db)
  /\ (Prisma.online db = true ->
      HistoryMore.truthyNum (HistoryMore.olderThanDays options) = false ->
      HistoryMore.truthyFlag (HistoryMore.removeErrors options) = true ->
      exists db',
        HistoryMore.cleanupHistory cutoffBefore options db
        = ({| success := true;
              data := Some (Z.of_nat (List.length
                        (filter (HistoryMore.holds HistoryMore.BothResponsesNull)
                           (Prisma.prompts db))));
              error := None |}, db')
        /\ Prisma.prompts db'
           = filter (fun p => negb (HistoryMore.holds HistoryMore.BothResponsesNull p))
               (Prisma.prompts db))
  /\ (Prisma.online db = false ->
      HistoryMore.truthyNum (HistoryMore.olderThanDays options)
      || HistoryMore.truthyFlag (HistoryMore.removeErrors options)
      || HistoryMore.truthyNum (HistoryMore.keepCount options) = true ->
      HistoryMore.cleanupHistory cutoffBefore options db
      = ({| success := false; data := None;
            error := Some "Fehler beim Bereinigen der Historie"%string |}, db)).
Proof.
  unfold HistoryMore.cleanupHistory.
  assert (C : forall old : option Z,
             match old with
             | Some days =>
                 if HistoryMore.truthyNum (Some days)
                 then [HistoryMore.CreatedBefore (cutoffBefore days)] else []
             | None => []
             end
             = if HistoryMore.truthyNum old
               then [HistoryMore.CreatedBefore
                       (cutoffBefore (match old with Some d => d | None => 0 end))]
               else []).
  { intros [days | ]; reflexivity. }
  rewrite C.
  split; [ | split; [ | split]].
  - intros H1 H2 H3. rewrite H1, H2, H3. reflexivity.
  - intro H. cbn [HistoryMore.olderThanDays HistoryMore.keepCount HistoryMore.removeErrors].
    rewrite C.
    destruct (HistoryMore.truthyNum (HistoryMore.olderThanDays options)) eqn:O.
    + cbn [negb]. rewrite !andb_false_r. cbn [andb]. reflexivity.
    + simpl in H. rewrite H. cbn [negb]. rewrite !andb_false_r. reflexivity.
  - intros On H1 H2. rewrite H1, H2, andb_false_r. cbn [app].
    unfold PrismaQueries.deleteManyWhere. rewrite On. cbn [negb].
    eexists. split.
    + apply f_equal2; [ | reflexivity].
      do 4 f_equal. apply filter_ext. intro p. simpl. apply orb_false_r.
    + simpl. apply filter_ext. intro p. rewrite orb_false_r. reflexivity.
  - intros Off H.
    unfold PrismaQueries.findManyNewestFirst, PrismaQueries.deleteManyWhere.
    rewrite Off. cbn [negb].
    destruct (HistoryMore.truthyNum (HistoryMore.olderThanDays options));
      destruct (HistoryMore.truthyFlag (HistoryMore.removeErrors options));
      destruct (HistoryMore.truthyNum (HistoryMore.keepCount options));
      try discriminate H; reflexivity.
Qed.

Lemma cleanupHistory_options_witness :
  exists db',
    HistoryMore.cleanupHistory (fun days => 100 - days)
      {| HistoryMore.olderThanDays := Some 0; HistoryMore.keepCount := Some 1;
         HistoryMore.removeErrors := Some true |} threeRows
    = ({| success := true; data := Some 1; error := None |}, db')
    /\ Prisma.prompts db'
       = [ sampleRow "a" 10 (Some "Hi"%string) (Some "Hello"%string);
           sampleRow "c" 20 (Some "Hi"%string) None ].
Proof.
  destruct (proj1 (proj2 (proj2
              (cleanupHistory_options (fun days => 100 - days)
                 {| HistoryMore.olderThanDays := Some 0; HistoryMore.keepCount := Some 1;
                    HistoryMore.removeErrors := Some true |} threeRows)))
              eq_refl eq_refl eq_refl) as (db' & E & R).
  exists db'. split; [exact E | exact R].
Defined.

End StoreFacts.

(* ================================================================== *)
(** ** The server action without streaming *)
(* ================================================================== *)

Module ActionsFacts.
Import Actions.
Local Open Scope list_scope.

Lemma registered_truthy (modelId : string) (config : ModelConfig) :
  getModelConfig modelId = Some config -> Js.truthy modelId = true.
Proof. destruct modelId; [vm_compute; discriminate | reflexivity]. Qed.

Lemma instance_registered (env : ProcessEnv) (modelId : string) :
  Js.isOk (createModelInstance env modelId) = true ->
  exists config, getModelConfig modelId = Some config.
Proof.
  unfold createModelInstance.
  destruct (getModelConfig modelId) as [config | ]; [eauto | discriminate].
Qed.

Lemma createParallelChat_ready (env : ProcessEnv) (i1 i2 : InvokeOutcome) (g : Generated)
    (request : CreateChatRequest) (db : Prisma.Database) (c1 c2 : ModelConfig) :
  Js.truthy (Js.trim (prompt request)) = true ->
  getModelConfig (model1 request) = Some c1 ->
  getModelConfig (model2 request) = Some c2 ->
  Js.isOk (createModelInstance env (model1 request)) = true ->
  Js.isOk (createModelInstance env (model2 request)) = true ->
  createParallelChat env i1 i2 g request db
  = ({| success := true;
        data := Some (processModelResult (uuid1 g) (now1 g) i1 (model1 request) c1,
                      processModelResult (uuid2 g) (now2 g) i2 (model2 request) c2);
        error := None |},
     saveToDatabase (newId g) (dbNow g) request
       (processModelResult (uuid1 g) (now1 g) i1 (model1 request) c1)
       (processModelResult (uuid2 g) (now2 g) i2 (model2 request) c2) db).
Proof.
  intros P E1 E2 K1 K2. unfold createParallelChat.
  rewrite P, (registered_truthy _ _ E1), (registered_truthy _ _ E2), E1, E2.
  cbn [negb orb].
  destruct (createModelInstance env (model1 request)); [ | discriminate].
  destruct (createModelInstance env (model2 request)); [ | discriminate].
  reflexivity.
Qed.

Lemma processModelResult_answers (uuid : string) (now : Z) (result : InvokeOutcome)
    (modelId : string) (config : ModelConfig) :
  getModelConfig modelId = Some config ->
  answers result modelId (processModelResult uuid now result modelId config).
Proof.
  intro E. unfold answers, processModelResult.
  destruct result as [value | reason].
  - unfold calculateCost. rewrite E. cbn [ChatResponse.model ChatResponse.tokens
      ChatResponse.cost ChatResponse.error ChatResponse.content
      ChatResponse.finishReason totalCost].
    split; [reflexivity | ]. split.
    + rewrite calculateLiveCost_eq, E. eexists. split; [reflexivity | ].
      unfold exactCost. reflexivity.
    + split; [reflexivity | ]. split; [apply ClientMore.orString_empty | ].
      split; [reflexivity | ].
      intros U1 U2. rewrite U1, U2.
      unfold Models.parseTokenUsage, emptyUsage.
      destruct (provider config); reflexivity.
  - cbn [ChatResponse.model ChatResponse.tokens ChatResponse.cost ChatResponse.error
      ChatResponse.content ChatResponse.finishReason input output].
    split; [reflexivity | ]. split.
    + rewrite calculateLiveCost_eq, E. eexists. split; [reflexivity | ].
      assert (Z0 : (exactCost 0 (pricing_input (pricing config))
                    + exactCost 0 (pricing_output (pricing config)) == 0)%Q)
        by (unfold exactCost; change (inject_Z 0) with 0%Q; field).
      rewrite (toFixed6_compat _ _ Z0). vm_compute. reflexivity.
    + split; [exists config; split; [exact E | reflexivity] | ].
      repeat split.
Qed.

Lemma processModelResult_failed (uuid : string) (now : Z) (result : InvokeOutcome)
    (modelId : string) (config : ModelConfig) :
  getModelConfig modelId = Some config ->
  Js.truthyOpt (ChatResponse.error (processModelResult uuid now result modelId config))
  = match result with Rejects _ => true | Resolves _ => false end.
Proof.
  intro E. unfold processModelResult. destruct result as [value | reason].
  - unfold calculateCost. rewrite E. reflexivity.
  - reflexivity.
Qed.

(** [createParallelChat] succeeds exactly when the prompt is not blank and a
    model instance can be built for both ids.  Otherwise it reports failure
    without data, leaves the table as it was, and its result does not depend
    on what the models would have answered; the message names the first
    check that failed. *)
Theorem createParallelChat_accepts (env : ProcessEnv) (i1 i2 : InvokeOutcome)
    (g : Generated) (request : CreateChatRequest) (db : Prisma.Database) :
  success (fst (createParallelChat env i1 i2 g request db)) = chatReady env request
  /\ (chatReady env request = false ->
      snd (createParallelChat env i1 i2 g request db) = db
      /\ data (fst (createParallelChat env i1 i2 g request db)) = None
      /\ forall i1' i2' g',
           createParallelChat env i1' i2' g' request db
           = createParallelChat env i1 i2 g request db)
  /\ (Js.truthy (Js.trim (prompt request)) = false ->
      error (fst (createParallelChat env i1 i2 g request db))
      = Some "Prompt darf nicht leer sein"%string)
  /\ (Js.truthy (Js.trim (prompt request)) = true ->
      Js.truthy (model1 request) && Js.truthy (model2 request) = false ->
      error (fst (createParallelChat env i1 i2 g request db))
      = Some "Beide Modelle müssen ausgewählt werden"%string)
  /\ (Js.truthy (Js.trim (prompt request)) = true ->
      Js.truthy (model1 request) && Js.truthy (model2 request) = true ->
      Models.isModelAvailable (model1 request)
      && Models.isModelAvailable (model2 request) = false ->
      error (fst (createParallelChat env i1 i2 g request db))
      = Some "Ungültige Model-Auswahl"%string)
  /\ (Js.truthy (Js.trim (prompt request)) = true ->
      Models.isModelAvailable (model1 request)
      && Models.isModelAvailable (model2 request) = true ->
      chatReady env request = false ->
      exists thrown,
        (createModelInstance env (model1 request) = Js.Throw (Js.ErrorObj thrown)
         \/ (Js.isOk (createModelInstance env (model1 request)) = true
             /\ createModelInstance env (model2 request) = Js.Throw (Js.ErrorObj thrown)))
        /\ error (fst (createParallelChat env i1 i2 g request db)) = Some thrown).
Proof.
  destruct request as [p m1 m2]. unfold chatReady, Models.isModelAvailable.
  cbn [prompt model1 model2].
  assert (Empty : forall e, Js.isOk (createModelInstance e "") = false)
    by (intro e; reflexivity).
  assert (Unreg : forall m, getModelConfig m = None ->
                            Js.isOk (createModelInstance env m) = false)
    by (intros m H; unfold createModelInstance; rewrite H; reflexivity).
  assert (Thrown : forall m, Js.isOk (createModelInstance env m) = false ->
                             exists t, createModelInstance env m = Js.Throw (Js.ErrorObj t)).
  { intros m H. unfold createModelInstance, createOpenAIModel, createAnthropicModel in *.
    destruct (getModelConfig m) as [c | ]; [ | eauto].
    destruct (provider c).
    - destruct (Js.truthyOpt (OPENAI_API_KEY env)); [discriminate | simpl; eauto].
    - destruct (Js.truthyOpt (ANTHROPIC_API_KEY env)); [discriminate | simpl; eauto]. }
  unfold createParallelChat. cbn [prompt model1 model2].
  destruct (Js.truthy (Js.trim p)) eqn:P; cbn [negb andb].
  2:{ repeat split; try discriminate; try reflexivity. }
  destruct (Js.truthy m1) eqn:T1.
  2:{ destruct m1; [ | discriminate]. rewrite Empty. cbn [negb orb andb fst snd success data error].
      repeat split; try discriminate; try reflexivity. }
  destruct (Js.truthy m2) eqn:T2.
  2:{ destruct m2; [ | discriminate]. rewrite Empty, andb_false_r.
      cbn [negb orb andb fst snd success data error].
      repeat split; try discriminate; try reflexivity;
        intros _ H; rewrite andb_false_r in H; discriminate. }
  cbn [negb orb andb].
  destruct (getModelConfig m1) as [c1 | ] eqn:E1.
  2:{ rewrite (Unreg _ E1). cbn [andb fst snd success data error].
      repeat split; try discriminate; try reflexivity. }
  destruct (getModelConfig m2) as [c2 | ] eqn:E2.
  2:{ rewrite (Unreg _ E2), andb_false_r. cbn [andb fst snd success data error].
      repeat split; try discriminate; try reflexivity. }
  destruct (createModelInstance env m1) as [x1 | t1] eqn:K1.
  2:{ destruct (Thrown m1) as [t Ht]; [rewrite K1; reflexivity | ].
      rewrite K1 in Ht. inversion Ht; subst t1.
      cbn [Js.bind Js.isOk andb fst snd success data error Js.messageOr].
      repeat split; try discriminate; try reflexivity;
        intros _ _ _; exists t; split; [left; reflexivity | reflexivity]. }
  destruct (createModelInstance env m2) as [x2 | t2] eqn:K2.
  2:{ destruct (Thrown m2) as [t Ht]; [rewrite K2; reflexivity | ].
      rewrite K2 in Ht. inversion Ht; subst t2.
      cbn [Js.bind Js.isOk andb fst snd success data error Js.messageOr].
      repeat split; try discriminate; try reflexivity;
        intros _ _ _; exists t; split; [right; split; reflexivity | reflexivity]. }
  cbn [Js.bind Js.isOk andb fst snd success data error].
  repeat split; try discriminate; try reflexivity.
Qed.

Lemma createParallelChat_accepts_witness :
  error (fst (createParallelChat noAnthropicKey (Resolves hiMessage) (Resolves hiMessage)
                generated chatSayHi emptyDb))
  = Some "ANTHROPIC_API_KEY ist nicht gesetzt. Bitte füge deinen API-Key in .env.local hinzu."%string
  /\ snd (createParallelChat noAnthropicKey (Resolves hiMessage) (Resolves hiMessage)
            generated chatSayHi emptyDb) = emptyDb.
Proof.
  split.
  - destruct (proj2 (proj2 (proj2 (proj2 (proj2
               (createParallelChat_accepts noAnthropicKey (Resolves hiMessage)
                  (Resolves hiMessage) generated chatSayHi emptyDb)))))
               eq_refl eq_refl eq_refl) as (thrown & [K | [_ K]] & E).
    + vm_compute in K. discriminate K.
    + vm_compute in K. inversion K. subst thrown. exact E.
  - exact (proj1 (proj1 (proj2 (createParallelChat_accepts noAnthropicKey
                                  (Resolves hiMessage) (Resolves hiMessage) generated
                                  chatSayHi emptyDb)) eq_refl)).
Defined.

(** Once the request is accepted, the action always succeeds and returns one
    response per model, whatever the two models do.  A rejected call gives a
    response with an error text naming the model, empty content and zero
    tokens; a resolved call gives a response without error whose content is
    the message's content, or its text when the content is empty.  In both
    cases the response's cost is the live cost of its token counts, so the
    branch that reports a failed cost calculation is never taken. *)
Theorem createParallelChat_responses (env : ProcessEnv) (i1 i2 : InvokeOutcome)
    (g : Generated) (request : CreateChatRequest) (db : Prisma.Database) :
  chatReady env request = true ->
  exists r1 r2 db',
    createParallelChat env i1 i2 g request db
    = ({| success := true; data := Some (r1, r2); error := None |}, db')
    /\ answers i1 (model1 request) r1
    /\ answers i2 (model2 request) r2
    /\ ChatResponse.id r1 = uuid1 g /\ ChatResponse.id r2 = uuid2 g.
Proof.
  unfold chatReady. intro H.
  apply andb_prop in H. destruct H as [H K2].
  apply andb_prop in H. destruct H as [P K1].
  destruct (instance_registered _ _ K1) as [c1 E1].
  destruct (instance_registered _ _ K2) as [c2 E2].
  rewrite (createParallelChat_ready env i1 i2 g request db c1 c2 P E1 E2 K1 K2).
  do 3 eexists. split; [reflexivity | ].
  split; [apply processModelResult_answers; exact E1 | ].
  split; [apply processModelResult_answers; exact E2 | ].
  split.
  - unfold processModelResult. destruct i1; [ | reflexivity].
    destruct (calculateCost _ _); reflexivity.
  - unfold processModelResult. destruct i2; [ | reflexivity].
    destruct (calculateCost _ _); reflexivity.
Qed.

Lemma createParallelChat_responses_witness :
  exists r1 r2 db',
    createParallelChat bothKeys (Resolves hiMessage) (Rejects (Js.ErrorObj "503")) generated
      chatSayHi emptyDb
    = ({| success := true; data := Some (r1, r2); error := None |}, db')
    /\ answers (Resolves hiMessage) "gpt-4o-mini" r1
    /\ answers (Rejects (Js.ErrorObj "503")) "claude-3-5-haiku-20241022" r2.
Proof.
  destruct (createParallelChat_responses bothKeys (Resolves hiMessage)
              (Rejects (Js.ErrorObj "503")) generated chatSayHi emptyDb eq_refl)
    as (r1 & r2 & db' & E & A1 & A2 & _).
  exists r1, r2, db'. split; [exact E | split; [exact A1 | exact A2]].
Defined.

(** What an accepted request leaves in the history.  On a working store,
    with a generated id that is not in the table yet, exactly one row is
    appended: it carries the prompt and the two model ids, and for each
    model the content and cost of its response, or null for both when the
    call was rejected; the row can be read back under its id.  When the
    store fails the table is unchanged and the action still succeeds. *)
Theorem createParallelChat_record (env : ProcessEnv) (i1 i2 : InvokeOutcome)
    (g : Generated) (request : CreateChatRequest) (db : Prisma.Database) :
  chatReady env request = true ->
  exists r1 r2 db',
    createParallelChat env i1 i2 g request db
    = ({| success := true; data := Some (r1, r2); error := None |}, db')
    /\ (Prisma.online db = true ->
        existsb (Prisma.hasId (newId g)) (Prisma.prompts db) = false ->
        exists row,
          Prisma.prompts db' = Prisma.prompts db ++ [row]
          /\ Prisma.id row = newId g /\ Prisma.createdAt row = dbNow g
          /\ Prisma.content (Prisma.fields row) = prompt request
          /\ Prisma.model1 (Prisma.fields row) = model1 request
          /\ Prisma.model2 (Prisma.fields row) = model2 request
          /\ storedAs i1 r1 (Prisma.response1 (Prisma.fields row))
               (Prisma.cost1 (Prisma.fields row))
          /\ storedAs i2 r2 (Prisma.response2 (Prisma.fields row))
               (Prisma.cost2 (Prisma.fields row))
          /\ HistoryMore.getPromptById (newId g) db'
             = {| success := true; data := Some row; error := None |})
    /\ (Prisma.online db = false
        \/ existsb (Prisma.hasId (newId g)) (Prisma.prompts db) = true ->
        db' = db).
Proof.
  unfold chatReady. intro H.
  apply andb_prop in H. destruct H as [H K2].
  apply andb_prop in H. destruct H as [P K1].
  destruct (instance_registered _ _ K1) as [c1 E1].
  destruct (instance_registered _ _ K2) as [c2 E2].
  rewrite (createParallelChat_ready env i1 i2 g request db c1 c2 P E1 E2 K1 K2).
  do 3 eexists. split; [reflexivity | ].
  unfold saveToDatabase. split.
  - intros On Fresh.
    destruct (Prisma.create (newId g) (dbNow g) _ db) as [[row db'] | e] eqn:C.
    + destruct (StoreFacts.create_facts _ _ _ _ _ _ C) as (L & F & I & T & _).
      exists row. split.
      { unfold Prisma.create in C. rewrite On, Fresh in C. simpl in C.
        inversion C. reflexivity. }
      rewrite F. unfold rowOf.
      cbn [Prisma.content Prisma.model1 Prisma.model2 Prisma.response1 Prisma.response2
           Prisma.cost1 Prisma.cost2].
      rewrite !processModelResult_failed by assumption.
      repeat (split; [assumption || reflexivity | ]).
      split; [destruct i1; split; reflexivity | ].
      split; [destruct i2; split; reflexivity | exact L].
    + unfold Prisma.create in C. rewrite On, Fresh in C. discriminate C.
  - intros [Off | Dup]; unfold Prisma.create.
    + rewrite Off. reflexivity.
    + destruct (Prisma.online db); [rewrite Dup | ]; reflexivity.
Qed.

Lemma createParallelChat_record_witness :
  exists r1 r2 db' row,
    createParallelChat bothKeys (Resolves hiMessage) (Rejects (Js.ErrorObj "503")) generated
      chatSayHi emptyDb
    = ({| success := true; data := Some (r1, r2); error := None |}, db')
    /\ Prisma.prompts db' = [row]
    /\ Prisma.response1 (Prisma.fields row) = Some (ChatResponse.content r1)
    /\ Prisma.response2 (Prisma.fields row) = None.
Proof.
  destruct (createParallelChat_record bothKeys (Resolves hiMessage)
              (Rejects (Js.ErrorObj "503")) generated chatSayHi emptyDb eq_refl)
    as (r1 & r2 & db' & E & Stored & _).
  destruct (Stored eq_refl eq_refl) as (row & R & _ & _ & _ & _ & _ & S1 & S2 & _).
  exists r1, r2, db', row.
  split; [exact E | ]. split; [exact R | ].
  split; [exact (proj1 S1) | exact (proj1 S2)].
Defined.

End ActionsFacts.

(* ================================================================== *)
(** ** The SSE client *)
(* ================================================================== *)

Module SSEFacts.
Import SSEStreamingClient.
Local Open Scope list_scope.

Lemma timeouts_app (a b : list Effect) : timeouts (a ++ b) = timeouts a ++ timeouts b.
Proof. unfold timeouts. apply flat_map_app. Qed.

Lemma delivered_app (a b : list Effect) :
  delivered (a ++ b) = delivered a ++ delivered b.
Proof. unfold delivered. apply flat_map_app. Qed.

Lemma lostReports_app (a b : list Effect) :
  lostReports (a ++ b) = (lostReports a + lostReports b)%nat.
Proof. unfold lostReports. rewrite filter_app, length_app. reflexivity. Qed.

Lemma resets_cons (i : Input) (rest : list Input) :
  resets (i :: rest) = (resets [i] + resets rest)%nat.
Proof. unfold resets. simpl. destruct i; reflexivity. Qed.

Lemma step_cases (i : Input) (c c1 : t) (e1 : list Effect) :
  0 <= reconnectAttempts c <= 3 ->
  step i c = (c1, e1) ->
  0 <= reconnectAttempts c1 <= 3
  /\ ((resets [i] = 1%nat /\ reconnectAttempts c1 = 0
       /\ timeouts e1 = [] /\ lostReports e1 = 0%nat)
      \/ (resets [i] = 0%nat /\ reconnectAttempts c1 = reconnectAttempts c
          /\ timeouts e1 = [] /\ lostReports e1 = 0%nat)
      \/ (resets [i] = 0%nat /\ reconnectAttempts c1 = reconnectAttempts c + 1
          /\ timeouts e1 = [1000 * reconnectAttempts c1] /\ lostReports e1 = 0%nat)
      \/ (resets [i] = 0%nat /\ reconnectAttempts c1 = reconnectAttempts c
          /\ reconnectAttempts c = 3
          /\ timeouts e1 = [] /\ lostReports e1 = 1%nat)).
Proof.
  intros B H. destruct i as [urlAccepted | | | readyState | m]; simpl in H.
  - unfold start in H. destruct urlAccepted; inversion H; subst; simpl;
      (split; [lia | right; left; auto]).
  - unfold stop in H. inversion H; subst; simpl. split; [lia | left].
    destruct (eventSource c); auto.
  - unfold onopen in H. inversion H; subst; simpl. split; [lia | left; auto].
  - unfold onerror in H.
    destruct (eventSource c) eqn:ES;
      [ | inversion H; subst; split; [lia | right; left; auto]].
    destruct readyState;
      try (inversion H; subst; split; [lia | right; left; auto]).
    unfold handleDisconnection, maxReconnectAttempts, reconnectDelay in H.
    destruct (reconnectAttempts c <? 3) eqn:L.
    + apply Z.ltb_lt in L. inversion H; subst; simpl.
      split; [lia | right; right; left; auto].
    + apply Z.ltb_ge in L. inversion H; subst; simpl.
      split; [lia | right; right; right]. repeat split; auto. lia.
  - unfold onmessage in H. destruct m as [ | ev flag].
    + inversion H; subst. split; [lia | right; left; auto].
    + destruct (StreamEvent.type ev);
        try (inversion H; subst; split; [lia | right; left; auto]).
      destruct (StreamEvent.Key_eqb (StreamEvent.model ev) StreamEvent.system || flag);
        inversion H; subst; split; try lia; right; left; auto.
Qed.

Lemma delaysBetween_same (a : Z) : delaysBetween a a = [].
Proof. unfold delaysBetween. rewrite Nat.sub_diag. reflexivity. Qed.

Lemma delaysBetween_cons (a b : Z) :
  0 <= a -> a + 1 <= b ->
  delaysBetween a b = 1000 * (a + 1) :: delaysBetween (a + 1) b.
Proof.
  intros A B. unfold delaysBetween.
  assert (E1 : Z.to_nat (a + 1) = S (Z.to_nat a)) by lia.
  assert (E2 : (Z.to_nat b - Z.to_nat a)%nat = S (Z.to_nat b - S (Z.to_nat a))) by lia.
  rewrite E1, E2. simpl seq. simpl map. f_equal. lia.
Qed.

Lemma run_budget (inputs : list Input) :
  forall (c c' : t) (effects : list Effect),
    0 <= reconnectAttempts c <= 3 ->
    run inputs c = (c', effects) ->
    0 <= reconnectAttempts c' <= 3
    /\ Forall (fun d => In d [1000; 2000; 3000]) (timeouts effects)
    /\ Z.of_nat (List.length (timeouts effects)) + reconnectAttempts c
       <= reconnectAttempts c' + 3 * Z.of_nat (resets inputs)
    /\ (resets inputs = 0%nat ->
        reconnectAttempts c <= reconnectAttempts c'
        /\ timeouts effects = delaysBetween (reconnectAttempts c) (reconnectAttempts c')
        /\ ((0 < lostReports effects)%nat -> reconnectAttempts c' = 3)).
Proof.
  induction inputs as [| i rest IH]; intros c c' effects B H.
  - simpl in H. inversion H; subst. simpl.
    split; [exact B | ]. split; [constructor | ]. split; [lia | ].
    intros _. split; [lia | ]. split; [symmetry; apply delaysBetween_same | ].
    unfold lostReports. simpl. lia.
  - simpl in H.
    destruct (step i c) as [c1 e1] eqn:S1.
    destruct (run rest c1) as [c2 e2] eqn:R. inversion H; subst c2 effects; clear H.
    destruct (step_cases i c c1 e1 B S1) as [B1 Cases].
    destruct (IH c1 c' e2 B1 R) as (B' & F & Budget & NoReset).
    rewrite timeouts_app, lostReports_app, resets_cons, length_app.
    split; [exact B' | ].
    destruct Cases as [(Rs & A & T & L) | [(Rs & A & T & L) | [(Rs & A & T & L)
                      | (Rs & A & A3 & T & L)]]]; rewrite Rs, T, L.
    + split; [exact F | ]. split; [cbn [app length]; lia | ]. intro Z0. discriminate Z0.
    + split; [exact F | ]. split; [cbn [app length]; lia | ]. simpl. intro Z0.
      destruct (NoReset Z0) as (M & D & Lost). rewrite <- A. auto.
    + split.
      { simpl. constructor; [ | exact F].
        assert (reconnectAttempts c1 = 1 \/ reconnectAttempts c1 = 2
                \/ reconnectAttempts c1 = 3) as [-> | [-> | ->]] by lia;
          simpl; auto. }
      split; [cbn [app length]; lia | ]. simpl. intro Z0.
      destruct (NoReset Z0) as (M & D & Lost).
      split; [lia | ]. split; [ | exact Lost].
      rewrite (delaysBetween_cons (reconnectAttempts c) (reconnectAttempts c'))
        by lia.
      rewrite <- A, D. reflexivity.
    + split; [exact F | ]. split; [cbn [app length]; lia | ]. simpl. intro Z0.
      destruct (NoReset Z0) as (M & D & Lost).
      split; [lia | ]. split; [rewrite <- A; exact D | ]. intros _. lia.
Qed.

(** The reconnect budget of the SSE client.  In every run the attempt
    counter stays between 0 and 3, every reconnect is scheduled after 1000,
    2000 or 3000 ms, and at most three reconnects are scheduled per reset of
    the counter (the connection opening, or [stop]).  Without a reset the
    delays are exactly 1000, 2000, ... in this order, and the connection is
    reported as lost only after three reconnects have been used up. *)
Theorem reconnect_budget (inputs : list Input) (c' : t) (effects : list Effect) :
  run inputs create = (c', effects) ->
  0 <= reconnectAttempts c' <= 3
  /\ Forall (fun d => In d [1000; 2000; 3000]) (timeouts effects)
  /\ (List.length (timeouts effects) <= 3 * (1 + resets inputs))%nat
  /\ (resets inputs = 0%nat ->
      timeouts effects = delaysBetween 0 (reconnectAttempts c')
      /\ ((0 < lostReports effects)%nat -> timeouts effects = [1000; 2000; 3000])).
Proof.
  intro H.
  destruct (run_budget inputs create c' effects) as (B & F & Budget & NoReset);
    [simpl; lia | exact H | ].
  split; [exact B | ]. split; [exact F | ].
  split; [change (reconnectAttempts create) with 0 in Budget; lia | ].
  intro Z0. destruct (NoReset Z0) as (_ & D & Lost).
  change (reconnectAttempts create) with 0 in D.
  split; [exact D | ]. intro L. rewrite D, (Lost L). reflexivity.
Qed.

Lemma reconnect_budget_witness :
  exists c',
    run [Start true; Failed CLOSED; Start true; Failed CLOSED; Start true;
         Failed CLOSED; Start true; Failed CLOSED] create
    = (c', [NewEventSource; SetTimeout 1000; NewEventSource; SetTimeout 2000;
            NewEventSource; SetTimeout 3000; NewEventSource;
            OnError "Verbindung zum Stream verloren"])
    /\ timeouts [NewEventSource; SetTimeout 1000; NewEventSource; SetTimeout 2000;
                 NewEventSource; SetTimeout 3000; NewEventSource;
                 OnError "Verbindung zum Stream verloren"]
       = [1000; 2000; 3000].
Proof.
  eexists. split; [reflexivity | ].
  refine (proj2 (proj2 (proj2 (proj2
            (reconnect_budget
               [Start true; Failed CLOSED; Start true; Failed CLOSED; Start true;
                Failed CLOSED; Start true; Failed CLOSED] _ _ eq_refl))) eq_refl) _).
  vm_compute. lia.
Defined.

Lemma parsedEvents_cons (i : Input) (rest : list Input) :
  parsedEvents (i :: rest) = parsedEvents [i] ++ parsedEvents rest.
Proof. unfold parsedEvents. simpl. rewrite app_nil_r. reflexivity. Qed.

Lemma system_ignored (s : Client.StreamState) (e : StreamEvent.t) :
  StreamEvent.model e = StreamEvent.system -> Client.updateStreamState s e = s.
Proof. intro H. unfold Client.updateStreamState. rewrite H. reflexivity. Qed.

(** The client's message handler in front of the reducer.  An error event of
    the pseudo model 'system' is never handed to [onEvent].  As long as no
    error event of a slot carries the configuration flag, folding the
    delivered events into a stream state gives the same state as folding
    every parsed event: what the handler holds back, the reducer would have
    ignored. *)
Theorem message_filter_transparent (inputs : list Input) (c c' : t)
    (effects : list Effect) :
  run inputs c = (c', effects) ->
  Forall (fun e => isSystemError e = false) (delivered effects)
  /\ (noFlaggedSlotError inputs = true ->
      forall s,
        fold_left Client.updateStreamState (delivered effects) s
        = fold_left Client.updateStreamState (parsedEvents inputs) s).
Proof.
  revert c c' effects.
  induction inputs as [| i rest IH]; intros c c' effects H.
  - simpl in H. inversion H; subst. simpl. split; [constructor | reflexivity].
  - simpl in H.
    destruct (step i c) as [c1 e1] eqn:S1.
    destruct (run rest c1) as [c2 e2] eqn:R. inversion H; subst c2 effects; clear H.
    destruct (IH c1 c' e2 R) as [F Same].
    rewrite delivered_app.
    assert (Quiet : delivered e1 = [] ->
                    parsedEvents [i] = [] ->
                    Forall (fun e => isSystemError e = false) (delivered e1 ++ delivered e2)
                    /\ (noFlaggedSlotError (i :: rest) = true ->
                        forall s,
                          fold_left Client.updateStreamState (delivered e1 ++ delivered e2) s
                          = fold_left Client.updateStreamState (parsedEvents (i :: rest)) s)).
    { intros D P. rewrite D. simpl app. split; [exact F | ].
      intros N s. rewrite (parsedEvents_cons i rest), P. simpl app. apply Same.
      simpl in N. apply andb_prop in N. exact (proj2 N). }
    destruct i as [urlAccepted | | | readyState | m]; simpl in S1.
    + apply Quiet; [ | reflexivity].
      unfold start in S1. destruct urlAccepted; inversion S1; reflexivity.
    + apply Quiet; [ | reflexivity].
      unfold stop in S1. inversion S1. destruct (eventSource c); reflexivity.
    + apply Quiet; [ | reflexivity]. unfold onopen in S1. inversion S1; reflexivity.
    + apply Quiet; [ | reflexivity].
      unfold onerror, handleDisconnection in S1.
      destruct (eventSource c); [ | inversion S1; reflexivity].
      destruct readyState; try (inversion S1; reflexivity).
      destruct (reconnectAttempts c <? maxReconnectAttempts); inversion S1; reflexivity.
    + destruct m as [ | ev flag].
      * apply Quiet; [ | reflexivity]. inversion S1; reflexivity.
      * unfold onmessage in S1.
        assert (Deliver : e1 = [OnEvent ev] -> isSystemError ev = false ->
                  Forall (fun e => isSystemError e = false) (delivered e1 ++ delivered e2)
                  /\ (noFlaggedSlotError (Received (Parsed ev flag) :: rest) = true ->
                      forall s,
                        fold_left Client.updateStreamState (delivered e1 ++ delivered e2) s
                        = fold_left Client.updateStreamState
                            (parsedEvents (Received (Parsed ev flag) :: rest)) s)).
        { intros -> NS. simpl. split; [constructor; assumption | ].
          intros N s. apply Same. apply andb_prop in N. exact (proj2 N). }
        unfold isSystemError in Deliver.
        destruct (StreamEvent.type ev) eqn:Ty;
          try (apply Deliver; [inversion S1; reflexivity | reflexivity]).
        destruct (StreamEvent.Key_eqb (StreamEvent.model ev) StreamEvent.system) eqn:Sys.
        -- simpl in S1. inversion S1; subst. simpl. split; [exact F | ].
           intros N s. rewrite system_ignored.
           ++ apply Same. apply andb_prop in N. exact (proj2 N).
           ++ destruct (StreamEvent.model ev); try discriminate Sys; reflexivity.
        -- destruct flag; simpl in S1.
           ++ inversion S1; subst. simpl. split; [exact F | ].
              intros N. exfalso. apply andb_prop in N. destruct N as [N _].
              rewrite Ty in N.
              destruct (StreamEvent.model ev); try discriminate Sys; discriminate N.
           ++ apply Deliver; [inversion S1; reflexivity | reflexivity].
Qed.

Lemma message_filter_transparent_witness :
  fold_left Client.updateStreamState
    (delivered
       (snd (run [Start true; Opened;
                  Received (Parsed (Route.startEvent "s1" "gpt-4o" StreamEvent.model1) false);
                  Received (Parsed (errorEvent StreamEvent.system {| input := 0; output := 0; total := 0 |} 0 (Some "no key"%string))
                              false);
                  Received Unparsable] create)))
    Client.createInitialStreamState
  = fold_left Client.updateStreamState
      [Route.startEvent "s1" "gpt-4o" StreamEvent.model1;
       errorEvent StreamEvent.system {| input := 0; output := 0; total := 0 |} 0 (Some "no key"%string)]
      Client.createInitialStreamState.
Proof.
  exact (proj2 (message_filter_transparent
                  [Start true; Opened;
                   Received (Parsed (Route.startEvent "s1" "gpt-4o" StreamEvent.model1) false);
                   Received (Parsed (errorEvent StreamEvent.system {| input := 0; output := 0; total := 0 |} 0 (Some "no key"%string))
                               false);
                   Received Unparsable] create _ _ eq_refl) eq_refl
               Client.createInitialStreamState).
Defined.

End SSEFacts.

(* ================================================================== *)
(** ** Truncating a text to a token limit *)
(* ================================================================== *)

Section Truncation.







(** Below 8 tokens the result can be over the limit: eight letters are cut
    to three letters and three dots, which count as two tokens. *)
Example truncateToTokenLimit_small_limit :
  Tokenizer.truncateToTokenLimit "aaaaaaaa" "gpt-4o" 1 = "aaa..."
  /\ countTokens "aaa..." "gpt-4o" = 2.
Proof. split; reflexivity. Qed.

(** So can it for a text that ends in white space: the white space counts
    for the length that is kept, and ends up in front of the dots. *)
Example truncateToTokenLimit_trailing_space :
  countTokens
    (Tokenizer.truncateToTokenLimit
       ("The quick brown fox jumps over the lazy dog"
        ++ "                                                            ")
       "gpt-4o" 8) "gpt-4o" = 18.
Proof. reflexivity. Qed.

End Truncation.

(* ================================================================== *)
(** ** Removing old rows *)
(* ================================================================== *)

Section OldRows.
Local Open Scope list_scope.

(** [cleanupOldHistory] on a working store removes exactly the rows created
    before the cutoff, keeps the others in their order and reports how many
    it removed; run again at the same time it removes nothing.  On a failing
    store it reports failure.  Without an argument it uses 30 days.  For a
    number of days other than 0 it does what [cleanupHistory] does with
    [olderThanDays] alone; for 0 days [cleanupHistory] does nothing, while
    [cleanupOldHistory] removes every row created before now. *)
Theorem cleanupOldHistory_removes_old (cutoffBefore : Z -> Z) (daysOld : Z)
    (db : Prisma.Database) :
  (Prisma.online db = true ->
   exists count db',
     HistoryMore.cleanupOldHistory cutoffBefore (Some daysOld) db
     = ({| success := true; data := Some count; error := None |}, db')
     /\ Prisma.prompts db'
        = filter (fun p => cutoffBefore daysOld <=? Prisma.createdAt p) (Prisma.prompts db)
     /\ count + Z.of_nat (List.length (Prisma.prompts db'))
        = Z.of_nat (List.length (Prisma.prompts db))
     /\ HistoryMore.cleanupOldHistory cutoffBefore (Some daysOld) db'
        = ({| success := true; data := Some 0; error := None |}, db'))
  /\ (Prisma.online db = false ->
      HistoryMore.cleanupOldHistory cutoffBefore (Some daysOld) db
      = ({| success := false; data := None;
            error := Some "Fehler beim Bereinigen der Historie"%string |}, db))
  /\ HistoryMore.cleanupOldHistory cutoffBefore None db
     = HistoryMore.cleanupOldHistory cutoffBefore (Some 30) db
  /\ (daysOld <> 0 ->
      HistoryMore.cleanupHistory cutoffBefore
        {| HistoryMore.olderThanDays := Some daysOld; HistoryMore.keepCount := None;
           HistoryMore.removeErrors := None |} db
      = HistoryMore.cleanupOldHistory cutoffBefore (Some daysOld) db)
  /\ HistoryMore.cleanupHistory cutoffBefore
       {| HistoryMore.olderThanDays := Some 0; HistoryMore.keepCount := None;
          HistoryMore.removeErrors := None |} db
     = ({| success := true; data := Some 0; error := None |}, db).
Proof.
  assert (Keep : forall l : list Prisma.Prompt,
             filter (fun p => negb (Prisma.createdAt p <? cutoffBefore daysOld)) l
             = filter (fun p => cutoffBefore daysOld <=? Prisma.createdAt p) l).
  { intro l. apply filter_ext. intro p.
    destruct (Prisma.createdAt p <? cutoffBefore daysOld) eqn:E;
      [apply Z.ltb_lt in E | apply Z.ltb_ge in E]; simpl; symmetry;
      [apply Z.leb_gt | apply Z.leb_le]; exact E. }
  unfold HistoryMore.cleanupOldHistory, PrismaQueries.deleteManyWhere.
  split; [ | split; [ | split; [ | split]]].
  - intro On. rewrite On. cbn [negb]. do 2 eexists.
    split; [reflexivity | ]. cbn [Prisma.prompts Prisma.online].
    split; [apply Keep | ]. split.
    + rewrite <- Nat2Z.inj_add. f_equal. apply filter_length.
    + cbn [negb].
      destruct (filter_out_twice (fun p => Prisma.createdAt p <? cutoffBefore daysOld)
                  (Prisma.prompts db)) as (Same & Gone & _).
      rewrite Gone, Same. reflexivity.
  - intro Off. rewrite Off. reflexivity.
  - reflexivity.
  - intro NZ. unfold HistoryMore.cleanupHistory, HistoryMore.truthyNum,
      HistoryMore.truthyFlag, PrismaQueries.deleteManyWhere.
    cbn [HistoryMore.olderThanDays HistoryMore.keepCount HistoryMore.removeErrors].
    apply Z.eqb_neq in NZ. rewrite NZ. cbn [negb andb app].
    destruct (Prisma.online db); cbn [negb]; [ | reflexivity].
    assert (Cond : forall p,
               existsb (fun c => HistoryMore.holds c p)
                 [HistoryMore.CreatedBefore (cutoffBefore daysOld)]
               = (Prisma.createdAt p <? cutoffBefore daysOld))
      by (intro p; simpl; apply orb_false_r).
    rewrite (filter_ext _ _ Cond).
    rewrite (filter_ext (fun p => negb (existsb (fun c => HistoryMore.holds c p)
                                          [HistoryMore.CreatedBefore (cutoffBefore daysOld)]))
               (fun p => negb (Prisma.createdAt p <? cutoffBefore daysOld)))
      by (intro p; rewrite Cond; reflexivity).
    reflexivity.
  - reflexivity.
Qed.

Lemma cleanupOldHistory_removes_old_witness :
  exists count db',
    HistoryMore.cleanupOldHistory (fun days => 50 - days) (Some 25) threeRows
    = ({| success := true; data := Some count; error := None |}, db')
    /\ Prisma.prompts db'
       = filter (fun p => 25 <=? Prisma.createdAt p) (Prisma.prompts threeRows)
    /\ HistoryMore.cleanupHistory (fun days => 50 - days)
         {| HistoryMore.olderThanDays := Some 25; HistoryMore.keepCount := None;
            HistoryMore.removeErrors := None |} threeRows
       = HistoryMore.cleanupOldHistory (fun days => 50 - days) (Some 25) threeRows.
Proof.
  destruct (cleanupOldHistory_removes_old (fun days => 50 - days) 25 threeRows)
    as (Works & _ & _ & Agree & _).
  destruct (Works eq_refl) as (count & db' & E & R & _).
  exists count, db'. split; [exact E | ]. split; [exact R | ].
  apply Agree. discriminate.
Defined.

End OldRows.
